(** * LoRa configuration synchronisation and LoRa OTA: a shallow embedding

    Models [src/src/app_logic.cpp] and the radio-sync / OTA parts of
    [src/src/main.cpp]: the button classifier, index cycling, the text
    framing of [CFG], [PING] and [OTA_*] frames (the [snprintf] and
    [sscanf] calls that produce and read them), the per-node global state,
    [handleLoraOtaPacket], [checkLoraOtaTimeout], [updateButton], the
    control-channel excursions and one iteration of [loop].

    Conventions.
    - [float] values are modelled as exact rationals [Q]; every value the
      claims need (the enumerated tables, 915.0) is exactly representable,
      so no rounding of the binary format is involved.
    - [uint32_t] values are [Z] in [0, 2^32) with wrap-around written out.
    - Text is [string]; packets are assumed to contain no NUL byte.
    - The radio and the flash are external: their results are inputs of the
      model, the calls issued to them are recorded as [Event]s. *)

From Stdlib Require Import ZArith QArith Qround List Bool String Ascii Lia.
Import ListNotations.
Open Scope string_scope.
Open Scope Z_scope.

(* ------------------------------------------------------------------ *)
(** ** Machine integers *)

Definition UINT32 : Z := 2 ^ 32.
Definition UINT32_MAX : Z := UINT32 - 1.

(** [a - b] on [uint32_t]. *)
Definition u32_sub (a b : Z) : Z := (a - b) mod UINT32.
Definition u32_add (a b : Z) : Z := (a + b) mod UINT32.

(* ------------------------------------------------------------------ *)
(** ** [app_logic.cpp] *)

Inductive ButtonAction := Ignore | ToggleMode | CycleSF | CycleBW.

Definition classifyPress (pressDurationMs : Z) : ButtonAction :=
  if pressDurationMs <? 100 then Ignore
  else if pressDurationMs <? 1000 then ToggleMode
  else if pressDurationMs <? 3000 then CycleSF
  else CycleBW.

Definition cycleIndex (currentIndex size : Z) : Z :=
  if size <=? 0 then 0
  else let next := currentIndex + 1 in
       if size <=? next then 0 else next.

(** The index step written inline in [updateButton]:
    [(currentSfIndex + 1) % (sizeof(sfValues) / sizeof(sfValues[0]))]. *)
Definition next_index (size idx : nat) : nat := Nat.modulo (S idx) size.

(* ------------------------------------------------------------------ *)
(** ** Characters and decimal text *)

Definition is_space (c : ascii) : bool :=
  match nat_of_ascii c with
  | 32%nat | 9%nat | 10%nat | 11%nat | 12%nat | 13%nat => true
  | _ => false
  end.

Definition digit_val (c : ascii) : option Z :=
  let n := nat_of_ascii c in
  if (48 <=? n)%nat && (n <=? 57)%nat then Some (Z.of_nat n - 48) else None.

Definition digit_char (d : Z) : ascii := ascii_of_nat (Z.to_nat (d + 48)).

(** Decimal digits of a non-negative integer; [fuel] bounds the number of
    digits. *)
Fixpoint dec_digits (fuel : nat) (n : Z) (acc : string) : string :=
  match fuel with
  | O => String (digit_char n) acc
  | S f => if n <? 10 then String (digit_char n) acc
           else dec_digits f (n / 10) (String (digit_char (n mod 10)) acc)
  end.

(** [%d] / [%lu] / [%zu] of an integer. *)
Definition dec (n : Z) : string :=
  if n <? 0 then String "-" (dec_digits (S (Z.to_nat (Z.log2 (- n)))) (- n) EmptyString)
  else dec_digits (S (Z.to_nat (Z.log2 n))) n EmptyString.

(** Left zero padding to [w] characters. *)
Definition pad_zero (w : nat) (s : string) : string :=
  append (String.concat "" (repeat "0" (w - String.length s))) s.

Definition Qlt_bool (x y : Q) : bool := negb (Qle_bool y x).

(** Rounding of an exact value to the nearest integer, ties to even (the
    rounding [printf] applies to an exactly representable tie). *)
Definition round_half_even (y : Q) : Z :=
  let f := Qfloor y in
  let r := (y - inject_Z f)%Q in
  if Qlt_bool r (1 # 2) then f
  else if Qlt_bool (1 # 2) r then f + 1
  else if Z.even f then f else f + 1.

(** [%.<prec>f]. *)
Definition fmt_fixed (prec : nat) (x : Q) : string :=
  let neg := Qlt_bool x 0 in
  let a := if neg then (- x)%Q else x in
  let p := 10 ^ Z.of_nat prec in
  let m := round_half_even (a * inject_Z p)%Q in
  let sign := if neg then "-"%string else ""%string in
  match prec with
  | O => append sign (dec m)
  | _ => append sign (append (dec (m / p)) (String "." (pad_zero prec (dec (m mod p)))))
  end.

(** [snprintf(buf, n, ...)] keeps at most [n - 1] characters. *)
Definition snprintf_trunc (n : nat) (s : string) : string := substring 0 (n - 1) s.

(** [String::startsWith]. *)
Definition startsWith (s pre : string) : bool := String.prefix pre s.

(* ------------------------------------------------------------------ *)
(** ** [sscanf]

    A format string is read into directives; the scanner executes them the
    way C's [sscanf] does: a white-space directive skips any white space, an
    ordinary character must match the next input character, a conversion
    skips leading white space and then reads its field.  The result is the
    number of conversions assigned (or [-1] when the input ends before the
    first one) together with the converted values in order.  Not modelled:
    exponents, [inf]/[nan] and hexadecimal forms of [%f], and out-of-range
    [%d] (undefined in C). *)

Inductive Dir := DLit (c : ascii) | DWs | DU | DD | DF | DS (width : nat).

Inductive SVal := SU (z : Z) | SD (z : Z) | SFl (q : Q) | SS (s : string).

Fixpoint read_width (s : string) (w : nat) : option (nat * string) :=
  match s with
  | String c r =>
      match digit_val c with
      | Some d => read_width r (w * 10 + Z.to_nat d)%nat
      | None => Some (w, s)
      end
  | EmptyString => None
  end.

Fixpoint parse_fmt_fuel (fuel : nat) (f : string) : list Dir :=
  match fuel with
  | O => []
  | S fu =>
    match f with
    | EmptyString => []
    | String "%" r =>
        match r with
        | String "u" r' => DU :: parse_fmt_fuel fu r'
        | String "d" r' => DD :: parse_fmt_fuel fu r'
        | String "f" r' => DF :: parse_fmt_fuel fu r'
        | _ => match read_width r 0 with
               | Some (w, String "s" r') => DS w :: parse_fmt_fuel fu r'
               | _ => []
               end
        end
    | String c r => (if is_space c then DWs else DLit c) :: parse_fmt_fuel fu r
    end
  end.

Definition parse_fmt (f : string) : list Dir := parse_fmt_fuel (String.length f) f.

Fixpoint skip_ws (s : string) : string :=
  match s with
  | String c r => if is_space c then skip_ws r else s
  | EmptyString => s
  end.

(** Decimal digits: value, number of digits, rest. *)
Fixpoint read_digits (s : string) (acc : Z) (n : nat) : Z * nat * string :=
  match s with
  | String c r =>
      match digit_val c with
      | Some d => read_digits r (acc * 10 + d) (S n)
      | None => (acc, n, s)
      end
  | EmptyString => (acc, n, s)
  end.

Definition read_sign (s : string) : Z * string :=
  match s with
  | String "-" r => (-1, r)
  | String "+" r => (1, r)
  | _ => (1, s)
  end.

Definition read_int (s : string) : option (Z * string) :=
  let '(sg, s1) := read_sign s in
  match read_digits s1 0 0 with
  | (_, O, _) => None
  | (v, _, rest) => Some (sg * v, rest)
  end.

Definition read_float (s : string) : option (Q * string) :=
  let '(sg, s1) := read_sign s in
  let '(ip, ni, s2) := read_digits s1 0 0 in
  let '(fp, nf, s3) :=
    match s2 with
    | String "." r => read_digits r 0 0
    | _ => (0, O, s2)
    end in
  let s3' := match s2 with String "." _ => s3 | _ => s2 end in
  if (ni + nf =? 0)%nat then None
  else Some (Qred (inject_Z sg * (inject_Z ip + (fp # Z.to_pos (10 ^ Z.of_nat nf))))%Q, s3').

Fixpoint read_token (w : nat) (s : string) : string * string :=
  match w, s with
  | S w', String c r =>
      if is_space c then (EmptyString, s)
      else let '(t, rest) := read_token w' r in (String c t, rest)
  | _, _ => (EmptyString, s)
  end.

Definition scan_end (n : Z) (acc : list SVal) : Z * list SVal := (n, rev acc).
Definition scan_eof (n : Z) (acc : list SVal) : Z * list SVal :=
  (if n =? 0 then -1 else n, rev acc).

Fixpoint scan (ds : list Dir) (s : string) (n : Z) (acc : list SVal) : Z * list SVal :=
  match ds with
  | [] => scan_end n acc
  | DWs :: ds' => scan ds' (skip_ws s) n acc
  | DLit c :: ds' =>
      match s with
      | EmptyString => scan_eof n acc
      | String c' r => if Ascii.eqb c c' then scan ds' r n acc else scan_end n acc
      end
  | d :: ds' =>
      match skip_ws s with
      | EmptyString => scan_eof n acc
      | s1 =>
        match d with
        | DU => match read_int s1 with
                | Some (v, r) => scan ds' r (n + 1) (SU (v mod UINT32) :: acc)
                | None => scan_end n acc
                end
        | DD => match read_int s1 with
                | Some (v, r) => scan ds' r (n + 1) (SD v :: acc)
                | None => scan_end n acc
                end
        | DF => match read_float s1 with
                | Some (v, r) => scan ds' r (n + 1) (SFl v :: acc)
                | None => scan_end n acc
                end
        | DS w => let '(t, r) := read_token w s1 in
                  scan ds' r (n + 1) (SS t :: acc)
        | _ => scan_end n acc
        end
      end
  end.

Definition sscanf (s fmt : string) : Z * list SVal := scan (parse_fmt fmt) s 0 [].

(** Prefix of a C string up to its first NUL ([radio.transmit(const char* )]
    sends [strlen] bytes). *)
Fixpoint cstr (s : string) : string :=
  match s with
  | EmptyString => EmptyString
  | String c r => if Ascii.eqb c Ascii.zero then EmptyString else String c (cstr r)
  end.

Definition bytes_of_string (s : string) : list Z :=
  map (fun c => Z.of_nat (nat_of_ascii c)) (list_ascii_of_string s).

Definition string_of_bytes (b : list Z) : string :=
  string_of_list_ascii (map (fun z => ascii_of_nat (Z.to_nat z)) b).

(* ------------------------------------------------------------------ *)
(** ** Radio parameters and the enumerated tables *)

Record Params := mkParams {
  freq : Q;   (* currentFreq, MHz *)
  bw : Q;     (* currentBW, kHz *)
  sf : Z;     (* currentSF *)
  cr : Z;     (* currentCR *)
  txp : Z     (* currentTxPower, dBm *)
}.

Definition sfValues : list Z := [7; 8; 9; 10; 11; 12].
Definition bwValues : list Q := [125 # 2; 125; 250; 500]%Q.
Definition txPowerValues : list Z := [2; 3; 5; 8; 10; 12; 15; 17; 20; 22].

(** [LORA_FREQ_MHZ], [LORA_BW_KHZ], [LORA_SF], [LORA_CR], [LORA_TX_DBM]. *)
Definition defaultParams : Params := mkParams 915 125 9 5 17.

(** The control channel [CTRL_*]; the TX power is the node's current one. *)
Definition ctrlParams (txPower : Z) : Params := mkParams 915 125 9 5 txPower.

Record Indices := mkIndices {
  currentSfIndex : nat;
  currentBwIndex : nat;
  currentTxIndex : nat
}.

(** The [for ... if (values[i] == current) { index = i; break; }] search. *)
Fixpoint find_index {A : Type} (eqb : A -> A -> bool) (tbl : list A) (v : A) (i : nat)
  : option nat :=
  match tbl with
  | [] => None
  | x :: r => if eqb x v then Some i else find_index eqb r v (S i)
  end.

Definition computeIndices (p : Params) (ix : Indices) : Indices :=
  mkIndices
    (match find_index Z.eqb sfValues (sf p) 0 with Some i => i | None => currentSfIndex ix end)
    (match find_index Qeq_bool bwValues (bw p) 0 with Some i => i | None => currentBwIndex ix end)
    (match find_index Z.eqb txPowerValues (txp p) 0 with Some i => i | None => currentTxIndex ix end).

(* ------------------------------------------------------------------ *)
(** ** Frames *)

(** [snprintf(msg, 64, "CFG F=%.1f BW=%.0f SF=%d CR=%d TX=%d", ...)]. *)
Definition cfg_msg (p : Params) : string :=
  snprintf_trunc 64
    (String.concat "" ["CFG F="; fmt_fixed 1 (freq p); " BW="; fmt_fixed 0 (bw p);
                       " SF="; dec (sf p); " CR="; dec (cr p); " TX="; dec (txp p)]).

Definition CFG_FMT : string := "CFG F=%f BW=%f SF=%d CR=%d TX=%d".

(** [sscanf] stores its k-th conversion into its k-th argument; arguments
    past the last conversion keep their value. *)
Definition cfg_assign (vals : list SVal) (p : Params) : Params :=
  mkParams
    (match nth_error vals 0 with Some (SFl v) => v | _ => freq p end)
    (match nth_error vals 1 with Some (SFl v) => v | _ => bw p end)
    (match nth_error vals 2 with Some (SD v) => v | _ => sf p end)
    (match nth_error vals 3 with Some (SD v) => v | _ => cr p end)
    (match nth_error vals 4 with Some (SD v) => v | _ => txp p end).

(** [int parsed = sscanf(rx.c_str(), CFG_FMT, &nf, &nb, &nsf, &ncr, &ntx)]
    with the locals initialised from the current parameters. *)
Definition parse_cfg (rx : string) (p : Params) : Z * Params :=
  let '(parsed, vals) := sscanf rx CFG_FMT in (parsed, cfg_assign vals p).

(** [formatTxMessage] and the inline [snprintf(msg, 48, "PING seq=%lu", ...)]. *)
Definition formatTxMessage (sequenceNumber : Z) : string :=
  snprintf_trunc 48 (append "PING seq=" (dec sequenceNumber)).

(* ------------------------------------------------------------------ *)
(** ** Node state: the globals of [main.cpp] *)

Record Button := mkButton {
  lastButtonMs : Z;
  lastButtonState : bool;   (* true = HIGH (released) *)
  buttonPressMs : Z;
  buttonPressed : bool
}.

Record Pending := mkPending {
  pendingConfigBroadcast : bool;
  pendingP : Params;        (* pendingFreq .. pendingTxPower *)
  cfgLastTxMs : Z;
  cfgRemaining : Z
}.

Definition LORA_OTA_BUFFER_SIZE : Z := 1024.

Record Ota := mkOta {
  loraOtaActive : bool;
  loraOtaStartTime : Z;
  loraOtaTimeout : Z;
  loraOtaBuffer : list Z;       (* uint8_t[1024] *)
  loraOtaBufferSize : Z;
  loraOtaExpectedSize : Z;
  loraOtaReceivedSize : Z;
  otaOutOfBounds : bool         (* set if a write ever fell outside loraOtaBuffer *)
}.

Record Metrics := mkMetrics {
  lastRSSI : Q;
  lastSNR : Q;
  lastPacketTime : Z;
  packetCount : Z;
  errorCount : Z
}.

Record Node := mkNode {
  isSender : bool;
  seq : Z;
  btn : Button;
  cur : Params;
  idx : Indices;
  pend : Pending;
  ota : Ota;
  met : Metrics;
  lastTxMs : Z;                 (* static local of loop() *)
  lastRxMs : Z;                 (* static local of loop() *)
  storedFirmware : list Z;      (* ENABLE_WIFI_OTA builds *)
  hasStoredFirmware : bool
}.

Definition set_role (b : bool) (s : Node) : Node :=
  mkNode b (seq s) (btn s) (cur s) (idx s) (pend s) (ota s) (met s) (lastTxMs s) (lastRxMs s) (storedFirmware s) (hasStoredFirmware s).
Definition set_seq (n : Z) (s : Node) : Node :=
  mkNode (isSender s) n (btn s) (cur s) (idx s) (pend s) (ota s) (met s) (lastTxMs s) (lastRxMs s) (storedFirmware s) (hasStoredFirmware s).
Definition set_btn (b : Button) (s : Node) : Node :=
  mkNode (isSender s) (seq s) b (cur s) (idx s) (pend s) (ota s) (met s) (lastTxMs s) (lastRxMs s) (storedFirmware s) (hasStoredFirmware s).
Definition set_cur (p : Params) (s : Node) : Node :=
  mkNode (isSender s) (seq s) (btn s) p (idx s) (pend s) (ota s) (met s) (lastTxMs s) (lastRxMs s) (storedFirmware s) (hasStoredFirmware s).
Definition set_idx (i : Indices) (s : Node) : Node :=
  mkNode (isSender s) (seq s) (btn s) (cur s) i (pend s) (ota s) (met s) (lastTxMs s) (lastRxMs s) (storedFirmware s) (hasStoredFirmware s).
Definition set_pend (p : Pending) (s : Node) : Node :=
  mkNode (isSender s) (seq s) (btn s) (cur s) (idx s) p (ota s) (met s) (lastTxMs s) (lastRxMs s) (storedFirmware s) (hasStoredFirmware s).
Definition set_ota (o : Ota) (s : Node) : Node :=
  mkNode (isSender s) (seq s) (btn s) (cur s) (idx s) (pend s) o (met s) (lastTxMs s) (lastRxMs s) (storedFirmware s) (hasStoredFirmware s).
Definition set_met (m : Metrics) (s : Node) : Node :=
  mkNode (isSender s) (seq s) (btn s) (cur s) (idx s) (pend s) (ota s) m (lastTxMs s) (lastRxMs s) (storedFirmware s) (hasStoredFirmware s).
Definition set_lastTxMs (t : Z) (s : Node) : Node :=
  mkNode (isSender s) (seq s) (btn s) (cur s) (idx s) (pend s) (ota s) (met s) t (lastRxMs s) (storedFirmware s) (hasStoredFirmware s).
Definition set_lastRxMs (t : Z) (s : Node) : Node :=
  mkNode (isSender s) (seq s) (btn s) (cur s) (idx s) (pend s) (ota s) (met s) (lastTxMs s) t (storedFirmware s) (hasStoredFirmware s).

(** Calls to the external collaborators. *)
Inductive Event :=
| EvTransmit (msg : string)        (* radio.transmit *)
| EvBegin (p : Params)             (* radio.begin(f, bw, sf, cr, 0x34, tx) *)
| EvUpdateRadio (p : Params)       (* updateRadioSettings(): setFrequency .. setOutputPower *)
| EvSaveSettings (p : Params)      (* savePersistedSettings() *)
| EvSaveRole (sender : bool)       (* savePersistedRole() *)
| EvNetworkMode                    (* setNetworkMode(next) on WiFi receivers *)
| EvFlashBegin (size : Z)          (* Update.begin *)
| EvFlashWrite (image : list Z)    (* Update.write *)
| EvFlashEnd                       (* Update.end *)
| EvRestart.                       (* ESP.restart(): does not return *)

(* ------------------------------------------------------------------ *)
(** ** A state-and-log monad for the single control loop *)

Definition St (A : Type) : Type := Node -> A * Node * list Event.

Definition ret {A} (a : A) : St A := fun s => (a, s, []).
Definition bind {A B} (m : St A) (k : A -> St B) : St B :=
  fun s => let '(a, s1, l1) := m s in let '(b, s2, l2) := k a s1 in (b, s2, app l1 l2).
Definition get : St Node := fun s => (s, s, []).
Definition modify (f : Node -> Node) : St unit := fun s => (tt, f s, []).
Definition emit (e : Event) : St unit := fun s => (tt, s, [e]).

Notation "x <- m ;; k" := (bind m (fun x => k)) (at level 61, m at next level, right associativity).
Notation "m ;;; k" := (bind m (fun _ => k)) (at level 61, right associativity).

Definition final {A} (r : A * Node * list Event) : Node := let '(_, s, _) := r in s.
Definition events {A} (r : A * Node * list Event) : list Event := let '(_, _, l) := r in l.

(* ------------------------------------------------------------------ *)
(** ** Persistence and radio helpers *)

Definition savePersistedSettings : St unit := s <- get ;; emit (EvSaveSettings (cur s)).
Definition savePersistedRole : St unit := s <- get ;; emit (EvSaveRole (isSender s)).
Definition updateRadioSettings : St unit := s <- get ;; emit (EvUpdateRadio (cur s)).

Definition startConfigBroadcast (target : Params) : St unit :=
  modify (fun s => set_pend (mkPending true target 0 8) s).

(** Commit parameters and re-derive the cycling indices. *)
Definition commitParams (p : Params) : St unit :=
  modify (fun s => set_idx (computeIndices p (idx s)) (set_cur p s)).

(* ------------------------------------------------------------------ *)
(** ** [handleLoraOtaPacket] and [checkLoraOtaTimeout] *)

(** [memcpy(dst + off, src, len)] on a fixed-size array: [None] when the
    write leaves the array. *)
Definition memcpy (dst : list Z) (off : Z) (src : list Z) : option (list Z) :=
  if (0 <=? off) && (off + Z.of_nat (List.length src) <=? Z.of_nat (List.length dst))
  then Some (firstn (Z.to_nat off) dst ++ src ++ skipn (Z.to_nat off + List.length src) dst)%list
  else None.

Definition ota_start_assign (vals : list SVal) (o : Ota) : Ota :=
  mkOta (loraOtaActive o) (loraOtaStartTime o)
    (match nth_error vals 1 with Some (SU v) => v | _ => loraOtaTimeout o end)
    (loraOtaBuffer o) (loraOtaBufferSize o)
    (match nth_error vals 0 with Some (SU v) => v | _ => loraOtaExpectedSize o end)
    (loraOtaReceivedSize o) (otaOutOfBounds o).

Definition ota_set_active (b : bool) (o : Ota) : Ota :=
  mkOta b (loraOtaStartTime o) (loraOtaTimeout o) (loraOtaBuffer o) (loraOtaBufferSize o)
    (loraOtaExpectedSize o) (loraOtaReceivedSize o) (otaOutOfBounds o).

(** [now] is [millis()]; [update_begin_ok] / [update_end_ok] are the results
    of [Update.begin] / [Update.end].  ([loraOtaReceivedSize * 100 /
    loraOtaExpectedSize] only feeds the display and is not modelled.) *)
Definition handleLoraOtaPacket (now : Z) (update_begin_ok update_end_ok : bool)
    (packet : string) : St unit :=
  s <- get ;;
  let o := ota s in
  if startsWith packet "OTA_START:" then
    (* sscanf(packet.c_str(), "OTA_START:%u:%u", &loraOtaExpectedSize, &loraOtaTimeout) *)
    let '(parsed, vals) := sscanf packet "OTA_START:%u:%u" in
    let o1 := ota_start_assign vals o in
    if parsed =? 2 then
      modify (set_ota (mkOta true now (loraOtaTimeout o1) (loraOtaBuffer o1) 0
                             (loraOtaExpectedSize o1) 0 (otaOutOfBounds o1)))
    else modify (set_ota o1)
  else if startsWith packet "OTA_DATA:" then
    if negb (loraOtaActive o) then ret tt else
    let '(parsed, vals) := sscanf packet "OTA_DATA:%d:%255s" in
    if parsed =? 2 then
      match nth_error vals 1 with
      | Some (SS data) =>
          let dataLen := Z.of_nat (String.length data) in
          if loraOtaBufferSize o + dataLen <? LORA_OTA_BUFFER_SIZE then
            match memcpy (loraOtaBuffer o) (loraOtaBufferSize o) (bytes_of_string data) with
            | Some buf' =>
                modify (set_ota (mkOta (loraOtaActive o) (loraOtaStartTime o) (loraOtaTimeout o)
                          buf' (loraOtaBufferSize o + dataLen) (loraOtaExpectedSize o)
                          (u32_add (loraOtaReceivedSize o) dataLen) (otaOutOfBounds o)))
            | None =>
                modify (set_ota (mkOta (loraOtaActive o) (loraOtaStartTime o) (loraOtaTimeout o)
                          (loraOtaBuffer o) (loraOtaBufferSize o + dataLen) (loraOtaExpectedSize o)
                          (u32_add (loraOtaReceivedSize o) dataLen) true))
            end
          else ret tt
      | _ => ret tt
      end
    else ret tt
  else if startsWith packet "OTA_END:" then
    if negb (loraOtaActive o) then ret tt else
    (if loraOtaExpectedSize o <=? loraOtaReceivedSize o then
       emit (EvFlashBegin (loraOtaExpectedSize o)) ;;;
       (if update_begin_ok then
          emit (EvFlashWrite (firstn (Z.to_nat (loraOtaBufferSize o)) (loraOtaBuffer o))) ;;;
          emit EvFlashEnd ;;;
          (if update_end_ok then emit EvRestart else ret tt)
        else ret tt)
     else ret tt) ;;;
    modify (fun s => set_ota (ota_set_active false (ota s)) s)
  else ret tt.

Definition checkLoraOtaTimeout (now : Z) : St unit :=
  s <- get ;;
  let o := ota s in
  if loraOtaActive o && (loraOtaTimeout o <? u32_sub now (loraOtaStartTime o))
  then modify (set_ota (ota_set_active false o))
  else ret tt.

(* ------------------------------------------------------------------ *)
(** ** Receive results, loop inputs *)

Inductive RxResult :=
| RxOk (payload : string) (rssi snr : Q)   (* RADIOLIB_ERR_NONE *)
| RxTimeout                                (* RADIOLIB_ERR_RX_TIMEOUT *)
| RxErr (code : Z).                        (* any other status *)

(** What one iteration of [loop()] observes: the real time in ms since
    boot ([millis()] is it modulo 2^32), the level of [BUTTON_PIN]
    ([true] = HIGH), the result of [radio.receive] and of the flash calls. *)
Record Input := mkInput {
  in_time : Z;
  in_pin : bool;
  in_rx : RxResult;
  in_update_begin_ok : bool;
  in_update_end_ok : bool
}.

Definition millis (t : Z) : Z := t mod UINT32.

Definition set_metrics_rx (now : Z) (rssi snr : Q) (m : Metrics) : Metrics :=
  mkMetrics rssi snr now (u32_add (packetCount m) 1) (errorCount m).
Definition set_metrics_err (m : Metrics) : Metrics :=
  mkMetrics (lastRSSI m) (lastSNR m) (lastPacketTime m) (packetCount m) (u32_add (errorCount m) 1).

Definition with_sf (p : Params) (v : Z) : Params := mkParams (freq p) (bw p) v (cr p) (txp p).
Definition with_bw (p : Params) (v : Q) : Params := mkParams (freq p) v (sf p) (cr p) (txp p).

Section Build.

(** [ENABLE_WIFI_OTA]: the build flag of WiFi receivers. *)
Variable ENABLE_WIFI_OTA : bool.

(* ------------------------------------------------------------------ *)
(** ** [updateButton] *)

Definition onRelease (pressDuration : Z) : St unit :=
  if pressDuration <? 100 then ret tt
  else if pressDuration <? 1000 then
    modify (fun s => set_seq 0 (set_role (negb (isSender s)) s)) ;;;
    savePersistedRole
  else if pressDuration <? 3000 then
    s <- get ;;
    if isSender s then
      let nextIndex := next_index (List.length sfValues) (currentSfIndex (idx s)) in
      startConfigBroadcast (with_sf (cur s) (nth nextIndex sfValues 0))
    else if ENABLE_WIFI_OTA then emit EvNetworkMode
    else
      let i := next_index (List.length sfValues) (currentSfIndex (idx s)) in
      modify (fun s => set_cur (with_sf (cur s) (nth i sfValues 0))
                         (set_idx (mkIndices i (currentBwIndex (idx s)) (currentTxIndex (idx s))) s)) ;;;
      updateRadioSettings ;;; savePersistedSettings
  else
    s <- get ;;
    if isSender s then
      let nextIndex := next_index (List.length bwValues) (currentBwIndex (idx s)) in
      startConfigBroadcast (with_bw (cur s) (nth nextIndex bwValues 0%Q))
    else
      let i := next_index (List.length bwValues) (currentBwIndex (idx s)) in
      modify (fun s => set_cur (with_bw (cur s) (nth i bwValues 0%Q))
                         (set_idx (mkIndices (currentSfIndex (idx s)) i (currentTxIndex (idx s))) s)) ;;;
      updateRadioSettings ;;; savePersistedSettings.

Definition updateButton (pin : bool) (now : Z) : St unit :=
  s0 <- get ;;
  let b := btn s0 in
  let b1 := if lastButtonState b && negb pin
            then mkButton (lastButtonMs b) (lastButtonState b) now true else b in
  if negb (lastButtonState b1) && pin && buttonPressed b1 then
    modify (set_btn (mkButton (lastButtonMs b1) (lastButtonState b1) (buttonPressMs b1) false)) ;;;
    onRelease (u32_sub now (buttonPressMs b1)) ;;;
    modify (fun s => set_btn (mkButton now pin (buttonPressMs (btn s)) (buttonPressed (btn s))) s)
  else
    modify (set_btn (mkButton (lastButtonMs b1) pin (buttonPressMs b1) (buttonPressed b1))).

(* ------------------------------------------------------------------ *)
(** ** Received frames *)

Fixpoint send_chunks (fuel : nat) (chunkNum : Z) (rest : list Z) : St unit :=
  match fuel, rest with
  | S f, _ :: _ =>
      emit (EvTransmit (cstr (append (append "OTA_DATA:" (append (dec chunkNum) ":"))
                                     (string_of_bytes (firstn 200 rest))))) ;;;
      send_chunks f (chunkNum + 1) (skipn 200 rest)
  | _, _ => ret tt
  end.

Definition sendLoraOtaUpdate (firmware : list Z) : St unit :=
  s <- get ;;
  if isSender s then ret tt else
  emit (EvTransmit (snprintf_trunc 64 (String.concat ""
          ["OTA_START:"; dec (Z.of_nat (List.length firmware)); ":"; dec (loraOtaTimeout (ota s))]))) ;;;
  send_chunks (List.length firmware) 0 firmware ;;;
  emit (EvTransmit "OTA_END:").

(** The branch on the payload of a successful [radio.receive] in [loop()]. *)
Definition processRx (now : Z) (ub ue : bool) (rx : string) : St unit :=
  if startsWith rx "CFG " then
    s <- get ;;
    let '(parsed, p) := parse_cfg rx (cur s) in
    if parsed =? 5 then commitParams p ;;; updateRadioSettings ;;; savePersistedSettings
    else ret tt
  else if startsWith rx "OTA_" then handleLoraOtaPacket now ub ue rx
  else if startsWith rx "FW_UPDATE_AVAILABLE" || startsWith rx "UPDATE_NOW" then
    s <- get ;;
    if isSender s then emit (EvTransmit "REQUEST_UPDATE") else ret tt
  else if startsWith rx "REQUEST_UPDATE" then
    s <- get ;;
    if negb (isSender s) then
      emit (EvTransmit "UPDATE_ACK") ;;;
      (if ENABLE_WIFI_OTA then
         if hasStoredFirmware s && (0 <? List.length (storedFirmware s))%nat
         then sendLoraOtaUpdate (storedFirmware s)
         else emit (EvTransmit "NO_FIRMWARE")
       else emit (EvTransmit "NO_FIRMWARE"))
    else ret tt
  else ret tt.

(* ------------------------------------------------------------------ *)
(** ** One iteration of [loop()] *)

Definition senderStep (now : Z) : St unit :=
  s <- get ;;
  let pd := pend s in
  if pendingConfigBroadcast pd then
    if (50 <=? u32_sub now (lastTxMs s)) && (300 <=? u32_sub now (cfgLastTxMs pd)) then
      emit (EvTransmit (cfg_msg (pendingP pd))) ;;;
      let rem := cfgRemaining pd - 1 in
      modify (set_pend (mkPending true (pendingP pd) now rem)) ;;;
      if rem <=? 0 then
        commitParams (pendingP pd) ;;;
        updateRadioSettings ;;;
        savePersistedSettings ;;;
        modify (fun s => set_lastTxMs now
                  (set_pend (mkPending false (pendingP (pend s)) (cfgLastTxMs (pend s))
                                       (cfgRemaining (pend s))) s))
      else ret tt
    else ret tt
  else if 2000 <=? u32_sub now (lastTxMs s) then
    emit (EvTransmit (formatTxMessage (seq s))) ;;;
    modify (fun s => set_lastTxMs now (set_seq (u32_add (seq s) 1) s))
  else ret tt.

Definition receiverStep (now : Z) (i : Input) : St unit :=
  s <- get ;;
  if 50 <=? u32_sub now (lastRxMs s) then
    (match in_rx i with
     | RxOk rx rssi snr =>
         modify (fun s => set_met (set_metrics_rx now rssi snr (met s)) s) ;;;
         processRx now (in_update_begin_ok i) (in_update_end_ok i) rx
     | RxTimeout => ret tt
     | RxErr _ => modify (fun s => set_met (set_metrics_err (met s)) s)
     end) ;;;
    modify (set_lastRxMs now)
  else ret tt.

(** The WiFi OTA handling of receivers ([ArduinoOTA.handle()], WiFi
    reconnects) sits between the radio and the timeout check in [loop()];
    it belongs to the WiFi collaborator and is not modelled. *)
Definition loop_step (i : Input) : St unit :=
  let now := millis (in_time i) in
  updateButton (in_pin i) now ;;;
  s <- get ;;
  (if isSender s then senderStep now else receiverStep now i) ;;;
  checkLoraOtaTimeout now.

(** Successive iterations; each event is tagged with the real time of the
    iteration that issued it. *)
Fixpoint run (ins : list Input) (s : Node) : Node * list (Z * Event) :=
  match ins with
  | [] => (s, [])
  | i :: r =>
      let '(_, s1, l1) := loop_step i s in
      let '(s2, l2) := run r s1 in
      (s2, app (map (fun e => (in_time i, e)) l1) l2)
  end.

End Build.

(* ------------------------------------------------------------------ *)
(** ** Boot-time control-channel excursions *)

Fixpoint transmit_times (times : nat) (msg : string) : St unit :=
  match times with
  | O => ret tt
  | S n => emit (EvTransmit msg) ;;; transmit_times n msg
  end.

(** [ctrl_begin_ok]: whether [radio.begin] on the control channel returned
    [RADIOLIB_ERR_NONE]. *)
Definition broadcastConfigOnControlChannel (times : nat) (ctrl_begin_ok : bool) : St unit :=
  s <- get ;;
  emit (EvBegin (ctrlParams (txp (cur s)))) ;;;
  if negb ctrl_begin_ok then ret tt else
  transmit_times times (cfg_msg (cur s)) ;;;
  s <- get ;;
  emit (EvBegin (cur s)).

(** The [while (millis() - start < durationMs)] loop: each sample is the
    clock reading of a loop test and the receive result of that pass. *)
Fixpoint ctrlListen (durationMs start : Z) (samples : list (Z * RxResult)) : St unit :=
  match samples with
  | [] => ret tt
  | (t, r) :: rest =>
      if u32_sub t start <? durationMs then
        match r with
        | RxOk rx _ _ =>
            if startsWith rx "CFG " then
              s <- get ;;
              let '(parsed, p) := parse_cfg rx (cur s) in
              if parsed =? 5 then commitParams p ;;; savePersistedSettings
              else ctrlListen durationMs start rest
            else ctrlListen durationMs start rest
        | _ => ctrlListen durationMs start rest
        end
      else ret tt
  end.

Definition tryReceiveConfigOnControlChannel (durationMs : Z) (ctrl_begin_ok : bool)
    (start : Z) (samples : list (Z * RxResult)) : St unit :=
  s <- get ;;
  emit (EvBegin (ctrlParams (txp (cur s)))) ;;;
  if negb ctrl_begin_ok then ret tt else
  ctrlListen durationMs start samples ;;;
  s <- get ;;
  emit (EvBegin (cur s)).

(* ------------------------------------------------------------------ *)
(** ** Initial state (the static initialisers) *)

Definition initNode : Node :=
  mkNode true 0 (mkButton 0 true 0 false) defaultParams (mkIndices 2 1 7)
    (mkPending false (mkParams 0 0 0 0 0) 0 0)
    (mkOta false 0 30000 (repeat 0 1024) 0 0 0 false)
    (mkMetrics (-999) (-999) 0 0 0) 0 0 [] false.

(* ------------------------------------------------------------------ *)
(** ** The [Preferences] store (namespace ["LtngDet"])

    The flash key-value store as a list of entries, newest first: a
    [put*] adds an entry, a lookup takes the newest entry of the key, and a
    [get*] whose newest entry has another type returns the default. *)

Inductive PrefVal := PFloat (v : Q) | PInt (v : Z) | PBool (v : bool).

Definition Prefs := list (string * PrefVal).

Fixpoint prefs_find (k : string) (st : Prefs) : option PrefVal :=
  match st with
  | [] => None
  | (k', v) :: r => if String.eqb k' k then Some v else prefs_find k r
  end.

(** [prefs.isKey], [prefs.putFloat] .. [prefs.getBool]. *)
Definition isKey (k : string) (st : Prefs) : bool :=
  match prefs_find k st with Some _ => true | None => false end.
Definition putFloat (k : string) (v : Q) (st : Prefs) : Prefs := (k, PFloat v) :: st.
Definition putInt (k : string) (v : Z) (st : Prefs) : Prefs := (k, PInt v) :: st.
Definition putBool (k : string) (v : bool) (st : Prefs) : Prefs := (k, PBool v) :: st.
Definition getFloat (k : string) (d : Q) (st : Prefs) : Q :=
  match prefs_find k st with Some (PFloat v) => v | _ => d end.
Definition getInt (k : string) (d : Z) (st : Prefs) : Z :=
  match prefs_find k st with Some (PInt v) => v | _ => d end.
Definition getBool (k : string) (d : bool) (st : Prefs) : bool :=
  match prefs_find k st with Some (PBool v) => v | _ => d end.

(** The writes of [savePersistedSettings] and [savePersistedRole]. *)
Definition prefs_saveSettings (p : Params) (st : Prefs) : Prefs :=
  putInt "tx" (txp p) (putInt "cr" (cr p) (putInt "sf" (sf p)
    (putFloat "bw" (bw p) (putFloat "freq" (freq p) st)))).

Definition prefs_saveRole (b : bool) (st : Prefs) : Prefs := putBool "sender" b st.

(** [loadPersistedSettingsAndRole]: the current values [p] and [role] are
    the defaults of the [get*] calls and stay where a key is absent. *)
Definition loadPersistedSettingsAndRole (st : Prefs) (p : Params) (role : bool) : Params * bool :=
  let haveFreq := isKey "freq" st in
  let haveBW := isKey "bw" st in
  let haveSF := isKey "sf" st in
  let haveCR := isKey "cr" st in
  let haveTX := isKey "tx" st in
  let haveRole := isKey "sender" st in
  (mkParams (if haveFreq then getFloat "freq" (freq p) st else freq p)
            (if haveBW then getFloat "bw" (bw p) st else bw p)
            (if haveSF then getInt "sf" (sf p) st else sf p)
            (if haveCR then getInt "cr" (cr p) st else cr p)
            (if haveTX then getInt "tx" (txp p) st else txp p),
   if haveRole then getBool "sender" role st else role).

(** The store after the save events of a run, in order. *)
Fixpoint apply_saves (evs : list Event) (st : Prefs) : Prefs :=
  match evs with
  | [] => st
  | EvSaveSettings p :: r => apply_saves r (prefs_saveSettings p st)
  | EvSaveRole b :: r => apply_saves r (prefs_saveRole b st)
  | _ :: r => apply_saves r st
  end.

(* ------------------------------------------------------------------ *)
(** ** [setup()]

    [role0] is the role of the build flags ([ROLE_SENDER] / [ROLE_RECEIVER]),
    [st] the store at boot, [radio_ok] the result of [radio.begin] in
    [initRadioOrHalt] (on failure the board spins forever: the result is
    [false] and nothing follows), [ctrl_ok] that of the control-channel
    [radio.begin] of the excursion, [rxStart] and [samples] the clock and
    receive results of its listen loop.  The display and the WiFi start of
    receivers ([initWiFi], [initOTA]) do not touch the radio settings, the
    role or [prefs], and are not modelled. *)

Definition setup (role0 : bool) (st : Prefs) (radio_ok ctrl_ok : bool) (rxStart : Z)
    (samples : list (Z * RxResult)) : St bool :=
  modify (fun s => set_role role0 (set_cur defaultParams s)) ;;;
  s <- get ;;
  let '(p, r) := loadPersistedSettingsAndRole st (cur s) (isSender s) in
  modify (fun s => set_role r (set_cur p s)) ;;;
  modify (fun s => set_idx (computeIndices (cur s) (idx s)) s) ;;;
  s <- get ;;
  emit (EvBegin (cur s)) ;;;
  if negb radio_ok then ret false else
  s <- get ;;
  (if isSender s then
     broadcastConfigOnControlChannel 6 ctrl_ok ;;;
     s <- get ;; startConfigBroadcast (cur s)
   else ret tt) ;;;
  s <- get ;;
  (if negb (isSender s) then tryReceiveConfigOnControlChannel 6000 ctrl_ok rxStart samples
   else ret tt) ;;;
  ret true.

(* ------------------------------------------------------------------ *)
(** ** Stored firmware and the LoRa update notification ([ENABLE_WIFI_OTA])

    [storedFirmware] holds the first [storedFirmwareSize] bytes of the
    64 KB array. *)

Definition set_storedFirmware (fw : list Z) (has : bool) (s : Node) : Node :=
  mkNode (isSender s) (seq s) (btn s) (cur s) (idx s) (pend s) (ota s) (met s) (lastTxMs s) (lastRxMs s) fw has.

Definition firmwareHeader : string := "LtngDet_FW_v1.0.0".

Definition dummyFirmware : list Z := [170; 85; 170; 85; 1; 0; 0; 0; 0; 0; 0; 0; 0; 0; 0].

(** [storeCurrentFirmware]. *)
Definition storeCurrentFirmware : St bool :=
  s <- get ;;
  if isSender s then ret false else
  modify (set_storedFirmware (app (bytes_of_string firmwareHeader) dummyFirmware) true) ;;;
  ret true.

(** [firmwareVersion = 0x010000]. *)
Definition firmwareVersion : Z := 65536.

(** The [for (int i = 0; i < 10; i++)] notification loop. *)
Fixpoint notify_rounds (n : nat) : St unit :=
  match n with
  | O => ret tt
  | S k =>
      emit (EvTransmit "FW_UPDATE_AVAILABLE") ;;;
      s <- get ;;
      emit (EvTransmit (if hasStoredFirmware s
                        then snprintf_trunc 64 (append "FW_VERSION:" (dec firmwareVersion))
                        else "FW_VERSION:0.0.0")) ;;;
      emit (EvTransmit "UPDATE_NOW") ;;;
      notify_rounds k
  end.

(** The 15 s [while (millis() - startTime < 15000)] listen loop; as in
    [ctrlListen], each sample is the clock reading of a loop test and the
    receive result of that pass. *)
Fixpoint listen_requests (start : Z) (samples : list (Z * RxResult)) : St unit :=
  match samples with
  | [] => ret tt
  | (t, r) :: rest =>
      if u32_sub t start <? 15000 then
        (match r with
         | RxOk rx _ _ => if startsWith rx "REQUEST_UPDATE" then emit (EvTransmit "UPDATE_ACK") else ret tt
         | _ => ret tt
         end) ;;;
        listen_requests start rest
      else ret tt
  end.

(** [triggerLoraFirmwareUpdates]; the [delay] calls are not modelled. *)
Definition triggerLoraFirmwareUpdates (ctrl_ok : bool) (start : Z) (samples : list (Z * RxResult))
  : St unit :=
  s <- get ;;
  if isSender s then ret tt else
  broadcastConfigOnControlChannel 8 ctrl_ok ;;;
  notify_rounds 10 ;;;
  listen_requests start samples.

(** The [ArduinoOTA.onEnd] callback of [initOTA]. *)
Definition ota_onEnd (ctrl_ok : bool) (start : Z) (samples : list (Z * RxResult)) : St unit :=
  s <- get ;;
  if negb (isSender s) then
    ok <- storeCurrentFirmware ;;
    if ok then triggerLoraFirmwareUpdates ctrl_ok start samples else ret tt
  else ret tt.

(* ------------------------------------------------------------------ *)
(** ** Auxiliary notions for the further properties *)

(** The range of a 32-bit [int]: [cycleIndex] computes [currentIndex + 1]
    in [int], which overflows (undefined behaviour) at [INT_MAX]. *)
Definition INT_MIN : Z := - 2 ^ 31.
Definition INT_MAX : Z := 2 ^ 31 - 1.

Fixpoint all_chars (f : ascii -> bool) (s : string) : bool :=
  match s with
  | EmptyString => true
  | String c r => f c && all_chars f r
  end.

Definition is_digit (c : ascii) : bool :=
  match digit_val c with Some _ => true | None => false end.

(** The first character does not continue a decimal field. *)
Definition stops_digits (s : string) : bool :=
  match s with EmptyString => true | String c _ => negb (is_digit c) end.

Definition no_space (s : string) : bool := all_chars (fun c => negb (is_space c)) s.

Fixpoint feed (now : Z) (ub ue : bool) (msgs : list string) : St unit :=
  match msgs with
  | [] => ret tt
  | m :: r => handleLoraOtaPacket now ub ue m ;;; feed now ub ue r
  end.

Definition transmitted (l : list Event) : list string :=
  flat_map (fun e => match e with EvTransmit m => [m] | _ => [] end) l.

Definition byte_ok (b : Z) : bool :=
  (0 <? b) && (b <? 256) && negb (is_space (ascii_of_nat (Z.to_nat b))).

Definition non_nul (s : string) : bool := all_chars (fun c => negb (Ascii.eqb c Ascii.zero)) s.

Definition RecvAt (E : Z) (pre : list Z) (r : Node) : Prop :=
  loraOtaActive (ota r) = true /\
  List.length (loraOtaBuffer (ota r)) = 1024%nat /\
  loraOtaBufferSize (ota r) = Z.of_nat (List.length pre) /\
  loraOtaReceivedSize (ota r) = Z.of_nat (List.length pre) /\
  firstn (List.length pre) (loraOtaBuffer (ota r)) = pre /\
  loraOtaExpectedSize (ota r) = E.

Definition start_frame (N T : Z) : string := append "OTA_START:" (append (dec N) (append ":" (dec T))).

Definition data_frame (kc : Z * list Z) : string :=
  append "OTA_DATA:" (append (dec (fst kc)) (append ":" (string_of_bytes (snd kc)))).

Definition chunk_ok (kc : Z * list Z) : bool :=
  (0 <=? fst kc) && negb (Nat.eqb (List.length (snd kc)) 0) && Nat.leb (List.length (snd kc)) 255 &&
  forallb byte_ok (snd kc).

Definition Synced (role0 : bool) (st : Prefs) (s : Node) : Prop :=
  loadPersistedSettingsAndRole st defaultParams role0 = (cur s, isSender s).

Definition SKeeps {A} (m : St A) : Prop :=
  forall r0 st s, Synced r0 st s -> Synced r0 (apply_saves (events (m s)) st) (final (m s)).

Definition is_save (e : Event) : bool :=
  match e with EvSaveSettings _ | EvSaveRole _ => true | _ => false end.

Definition not_req (e : Event) : Prop := e <> EvTransmit "REQUEST_UPDATE".

Definition EOk {A} (Q : Node -> Prop) (m : St A) : Prop :=
  forall s, Q s -> Q (final (m s)) /\ Forall not_req (events (m s)).

(** The samples of the 15 s listen window that carry a [REQUEST_UPDATE]. *)
Fixpoint window_requests (start : Z) (samples : list (Z * RxResult)) : nat :=
  match samples with
  | [] => O
  | (t, r) :: rest =>
      if u32_sub t start <? 15000 then
        match r with
        | RxOk rx _ _ => if startsWith rx "REQUEST_UPDATE" then S (window_requests start rest)
                         else window_requests start rest
        | _ => window_requests start rest
        end
      else O
  end.

(* ================================================================== *)
(** * Properties *)

(* ------------------------------------------------------------------ *)
(** ** Index cycling *)

Lemma iter_next_index (n : nat) (i : nat) (Hi : (i < n)%nat) :
  forall k, Nat.iter k (next_index n) i = Nat.modulo (i + k) n.
Proof.
  induction k as [|k IH].
  - cbn. rewrite Nat.add_0_r. symmetry. apply Nat.mod_small. exact Hi.
  - rewrite Nat.iter_succ, IH. unfold next_index.
    assert (Hn : n <> 0%nat) by lia.
    rewrite <- Nat.add_1_r, Nat.Div0.add_mod_idemp_l.
    f_equal. lia.
Qed.

Lemma cycleIndex_mod (n j : Z) (Hn : 0 < n) (Hj : 0 <= j < n) :
  cycleIndex j n = (j + 1) mod n.
Proof.
  unfold cycleIndex.
  destruct (Z.leb_spec n 0); [lia|].
  destruct (Z.leb_spec n (j + 1)).
  - assert (j + 1 = n) as -> by lia. rewrite Z.mod_same; lia.
  - rewrite Z.mod_small; lia.
Qed.

Lemma iter_cycleIndex (n i : Z) (Hn : 0 < n) (Hi : 0 <= i < n) :
  forall k, Nat.iter k (fun j => cycleIndex j n) i = (i + Z.of_nat k) mod n.
Proof.
  induction k as [|k IH].
  - cbn. rewrite Z.add_0_r, Z.mod_small; lia.
  - rewrite Nat.iter_succ, IH.
    assert (Hr : 0 <= (i + Z.of_nat k) mod n < n) by (apply Z.mod_pos_bound; lia).
    rewrite cycleIndex_mod by lia.
    rewrite Zplus_mod_idemp_l. f_equal. lia.
Qed.

(* ------------------------------------------------------------------ *)
(** ** Claims *)

(** C6. [classifyPress] is total on [uint32_t] and partitions it into
    [0,100) -> Ignore, [100,1000) -> ToggleMode, [1000,3000) -> CycleSF,
    [3000, UINT32_MAX] -> CycleBW; the boundary values of the spec follow. *)
Theorem classifyPress_partition (d : Z) (Hd : 0 <= d <= UINT32_MAX) :
  (d < 100 -> classifyPress d = Ignore) /\
  (100 <= d < 1000 -> classifyPress d = ToggleMode) /\
  (1000 <= d < 3000 -> classifyPress d = CycleSF) /\
  (3000 <= d -> classifyPress d = CycleBW) /\
  classifyPress 99 = Ignore /\ classifyPress 100 = ToggleMode /\
  classifyPress 999 = ToggleMode /\ classifyPress 1000 = CycleSF /\
  classifyPress 2999 = CycleSF /\ classifyPress 3000 = CycleBW /\
  classifyPress UINT32_MAX = CycleBW.
Proof.
  unfold classifyPress.
  repeat split; intros;
    repeat match goal with
           | |- context [?a <? ?b] => destruct (Z.ltb_spec a b)
           end; try reflexivity; lia.
Qed.

Lemma classifyPress_partition_witness :
  0 <= 1500 <= UINT32_MAX /\ (1000 <= 1500 < 3000 -> classifyPress 1500 = CycleSF).
Proof.
  split.
  - unfold UINT32_MAX, UINT32. lia.
  - apply (classifyPress_partition 1500). unfold UINT32_MAX, UINT32. lia.
Defined.

(** C8. For a table of size [n > 0] and a valid index [i], applying the
    cycle step [(index + 1) mod n] ([updateButton]) or [cycleIndex]
    ([app_logic.cpp]) [n] times gives back [i], and after any number of
    steps the index is valid, so the value read from the table is one of
    the table's values (the bandwidth, spreading-factor and TX-power tables
    are instances). *)
Theorem cycle_returns_after_tableSize {A : Type} (tbl : list A) (d : A) (i : nat)
    (Hi : (i < List.length tbl)%nat) :
  let n := List.length tbl in
  Nat.iter n (next_index n) i = i /\
  Nat.iter n (fun j => cycleIndex j (Z.of_nat n)) (Z.of_nat i) = Z.of_nat i /\
  nth (Nat.iter n (next_index n) i) tbl d = nth i tbl d /\
  (forall k, (Nat.iter k (next_index n) i < n)%nat /\
             In (nth (Nat.iter k (next_index n) i) tbl d) tbl).
Proof.
  intros n.
  assert (E : Nat.iter n (next_index n) i = i).
  { rewrite (iter_next_index n i Hi).
    replace (i + n)%nat with (i + 1 * n)%nat by lia.
    rewrite Nat.Div0.mod_add. apply Nat.mod_small. exact Hi. }
  split; [exact E|]. split.
  - rewrite (iter_cycleIndex (Z.of_nat n) (Z.of_nat i)) by lia.
    replace (Z.of_nat i + Z.of_nat n) with (Z.of_nat i + 1 * Z.of_nat n) by lia.
    rewrite Z_mod_plus_full. apply Z.mod_small. lia.
  - split; [rewrite E; reflexivity|].
    intros k. rewrite (iter_next_index n i Hi).
    assert (Hk : (Nat.modulo (i + k) n < n)%nat) by (apply Nat.mod_upper_bound; lia).
    split; [exact Hk | apply nth_In; exact Hk].
Qed.

Lemma cycle_returns_after_tableSize_witness :
  (1 < List.length bwValues)%nat /\
  Nat.iter (List.length bwValues) (next_index (List.length bwValues)) 1%nat = 1%nat.
Proof.
  split; [cbn; lia|].
  apply (cycle_returns_after_tableSize bwValues 0%Q 1%nat). cbn. lia.
Defined.

(** C5. Round trip of the [CFG] ControlMessage fails for the tabled
    bandwidth 62.5 kHz: [BW=%.0f] prints it as [62], and the receiver's
    [sscanf] reads back 62, not 62.5. *)
Theorem cfg_roundtrip_bw_62_5_lost :
  let p := mkParams 915 (125 # 2) 9 5 17 in
  In (bw p) bwValues /\
  cfg_msg p = "CFG F=915.0 BW=62 SF=9 CR=5 TX=17" /\
  parse_cfg (cfg_msg p) defaultParams = (5, mkParams 915 62 9 5 17) /\
  ~ (bw (snd (parse_cfg (cfg_msg p) defaultParams)) == bw p)%Q.
Proof.
  cbv zeta. split; [cbn; left; reflexivity|].
  split; [vm_compute; reflexivity|].
  split; [vm_compute; reflexivity|].
  vm_compute. discriminate.
Qed.

(* ------------------------------------------------------------------ *)
(** ** The LoRa OTA session *)

Definition has_flash (l : list Event) : bool :=
  existsb (fun e => match e with EvFlashBegin _ => true | _ => false end) l.

(** A node that has received [OTA_START:1000:5000] and ten data bytes. *)
Definition ota_partial : Node :=
  final (handleLoraOtaPacket 20 true true "OTA_DATA:0:ABCDEFGHIJ"
    (final (handleLoraOtaPacket 10 true true "OTA_START:1000:5000" initNode))).

(** C1 (counterexample). With 10 of 1000 bytes received, [OTA_END:] does
    not flash but the session does not stay Active: [loraOtaActive] is
    cleared. *)
Lemma ota_end_short_counterexample :
  loraOtaActive (ota ota_partial) = true /\
  loraOtaReceivedSize (ota ota_partial) < loraOtaExpectedSize (ota ota_partial) /\
  ~ (has_flash (events (handleLoraOtaPacket 30 true true "OTA_END:" ota_partial)) = false /\
     loraOtaActive (ota (final (handleLoraOtaPacket 30 true true "OTA_END:" ota_partial))) = true).
Proof.
  split; [vm_compute; reflexivity|].
  split; [vm_compute; reflexivity|].
  vm_compute. intros [_ H]. discriminate H.
Qed.

(** C1 (amended). In an Active session with fewer bytes received than
    expected, [OTA_END:] calls no flash primitive at all and ends the
    session: the only change is [loraOtaActive := false]. *)
Theorem ota_end_short_no_flash_ends_session (now : Z) (ub ue : bool) (s : Node)
    (Hact : loraOtaActive (ota s) = true)
    (Hlt : loraOtaReceivedSize (ota s) < loraOtaExpectedSize (ota s)) :
  events (handleLoraOtaPacket now ub ue "OTA_END:" s) = [] /\
  final (handleLoraOtaPacket now ub ue "OTA_END:" s) = set_ota (ota_set_active false (ota s)) s.
Proof.
  unfold handleLoraOtaPacket, bind, get, modify, ret; cbn.
  rewrite Hact. cbn.
  destruct (Z.leb_spec (loraOtaExpectedSize (ota s)) (loraOtaReceivedSize (ota s))); [lia|].
  split; reflexivity.
Qed.

Lemma ota_end_short_no_flash_ends_session_witness :
  loraOtaActive (ota ota_partial) = true /\
  loraOtaReceivedSize (ota ota_partial) < loraOtaExpectedSize (ota ota_partial) /\
  events (handleLoraOtaPacket 30 true true "OTA_END:" ota_partial) = [].
Proof.
  assert (Ha : loraOtaActive (ota ota_partial) = true) by (vm_compute; reflexivity).
  assert (Hl : loraOtaReceivedSize (ota ota_partial) < loraOtaExpectedSize (ota ota_partial))
    by (vm_compute; reflexivity).
  split; [exact Ha|]. split; [exact Hl|].
  exact (proj1 (ota_end_short_no_flash_ends_session 30 true true ota_partial Ha Hl)).
Defined.

(** C2 (code bug). [OTA_START:5] is malformed (the timeout field is
    missing, [sscanf] returns 1), yet it overwrites [loraOtaExpectedSize]
    of whatever session is in progress, because the [sscanf] targets are
    the session globals themselves. *)
Theorem ota_start_malformed_overwrites_expected (now : Z) (ub ue : bool) (s : Node) :
  fst (sscanf "OTA_START:5" "OTA_START:%u:%u") = 1 /\
  loraOtaExpectedSize (ota (final (handleLoraOtaPacket now ub ue "OTA_START:5" s))) = 5 /\
  loraOtaActive (ota (final (handleLoraOtaPacket now ub ue "OTA_START:5" s))) = loraOtaActive (ota s) /\
  loraOtaReceivedSize (ota (final (handleLoraOtaPacket now ub ue "OTA_START:5" s))) =
    loraOtaReceivedSize (ota s).
Proof.
  assert (E : sscanf "OTA_START:5" "OTA_START:%u:%u" = (1, [SU 5])) by (vm_compute; reflexivity).
  assert (E2 : startsWith "OTA_START:5" "OTA_START:" = true) by reflexivity.
  rewrite E. split; [reflexivity|].
  unfold handleLoraOtaPacket, bind, get, modify, ret.
  rewrite E2, E. cbn.
  repeat split; reflexivity.
Qed.

(** C10 (code bug). A session announced with 2000 >= 1024 bytes reaches
    the flashing branch: a malformed [OTA_START:5] lowers the expected size
    to 5 without starting a new session, and [OTA_END:] then flashes the
    six buffered bytes. *)
Theorem ota_large_session_flashes_after_malformed_start :
  let s1 := final (handleLoraOtaPacket 10 true true "OTA_START:2000:30000" initNode) in
  let s2 := final (handleLoraOtaPacket 20 true true "OTA_DATA:0:ABCDEF" s1) in
  let s3 := final (handleLoraOtaPacket 30 true true "OTA_START:5" s2) in
  loraOtaExpectedSize (ota s1) = 2000 /\ loraOtaActive (ota s1) = true /\
  loraOtaActive (ota s3) = true /\ loraOtaReceivedSize (ota s3) = 6 /\
  events (handleLoraOtaPacket 40 true true "OTA_END:" s3) =
    [EvFlashBegin 5; EvFlashWrite [65; 66; 67; 68; 69; 70]; EvFlashEnd; EvRestart].
Proof. vm_compute. repeat split; reflexivity. Qed.

(* ------------------------------------------------------------------ *)
(** ** Control-channel excursions *)

(** C3 (code bug). When [radio.begin] on the control channel fails, both
    excursions return at once: the only radio configuration call issued is
    the control-channel [begin]; the data-channel parameters are never
    restored. *)
Theorem ctrl_excursion_no_restore_on_begin_fail (times : nat) (dur start : Z)
    (samples : list (Z * RxResult)) (s : Node) :
  events (broadcastConfigOnControlChannel times false s) = [EvBegin (ctrlParams (txp (cur s)))] /\
  events (tryReceiveConfigOnControlChannel dur false start samples s) =
    [EvBegin (ctrlParams (txp (cur s)))] /\
  final (broadcastConfigOnControlChannel times false s) = s /\
  final (tryReceiveConfigOnControlChannel dur false start samples s) = s.
Proof.
  unfold broadcastConfigOnControlChannel, tryReceiveConfigOnControlChannel,
    bind, get, emit, ret; cbn.
  repeat split; reflexivity.
Qed.

(* ------------------------------------------------------------------ *)
(** ** Invariants of computations in [St] *)

(** [m] preserves the state predicate [P]. *)
Definition Keeps {A} (P : Node -> Prop) (m : St A) : Prop :=
  forall s, P s -> P (final (m s)).

Lemma keeps_ret {A} (P : Node -> Prop) (a : A) : Keeps P (ret a).
Proof. intros s Hs. exact Hs. Qed.

Lemma keeps_emit (P : Node -> Prop) (e : Event) : Keeps P (emit e).
Proof. intros s Hs. exact Hs. Qed.

Lemma keeps_modify (P : Node -> Prop) (f : Node -> Node) :
  (forall s, P s -> P (f s)) -> Keeps P (modify f).
Proof. intros H s Hs. exact (H s Hs). Qed.

Lemma keeps_bind {A B} (P : Node -> Prop) (m : St A) (k : A -> St B) :
  Keeps P m -> (forall a, Keeps P (k a)) -> Keeps P (bind m k).
Proof.
  intros Hm Hk s Hs. unfold bind, final in *.
  specialize (Hm s Hs). destruct (m s) as [[a s1] l1].
  specialize (Hk a s1 Hm). destruct (k a s1) as [[b s2] l2]. exact Hk.
Qed.

Lemma keeps_get_bind {B} (P : Node -> Prop) (k : Node -> St B) :
  (forall a, P a -> Keeps P (k a)) -> Keeps P (bind get k).
Proof.
  intros Hk s Hs. unfold bind, get, final in *.
  specialize (Hk s Hs s Hs). destruct (k s s) as [[b s2] l2]. exact Hk.
Qed.

Lemma keeps_transmit_times (P : Node -> Prop) (n : nat) (msg : string) :
  Keeps P (transmit_times n msg).
Proof.
  induction n as [|n IH]; cbn.
  - apply keeps_ret.
  - apply keeps_bind; [apply keeps_emit | intros; exact IH].
Qed.

Lemma keeps_send_chunks (P : Node -> Prop) (fuel : nat) :
  forall n rest, Keeps P (send_chunks fuel n rest).
Proof.
  induction fuel as [|f IH]; intros n rest; cbn.
  - apply keeps_ret.
  - destruct rest as [|x r].
    + apply keeps_ret.
    + apply keeps_bind; [apply keeps_emit | intros; apply IH].
Qed.

Create HintDb keeps.
#[export] Hint Resolve keeps_ret keeps_emit keeps_transmit_times keeps_send_chunks : keeps.

Ltac keeps_step :=
  match goal with
  | |- Keeps _ (bind get _) => apply keeps_get_bind; intros ?a ?Ha
  | |- Keeps _ (bind _ _) => apply keeps_bind; [| intros ?]
  | |- Keeps _ (modify _) => apply keeps_modify; intros ?s ?Hs
  | |- Keeps _ (if ?c then _ else _) => destruct c eqn:?
  | |- Keeps _ (match ?x with _ => _ end) => destruct x eqn:?
  end.

Ltac keeps_tac := repeat (first [solve [eauto with keeps] | keeps_step]).

(* ------------------------------------------------------------------ *)
(** ** The OTA buffer invariant *)

Definition OtaInv (s : Node) : Prop :=
  List.length (loraOtaBuffer (ota s)) = 1024%nat /\
  0 <= loraOtaBufferSize (ota s) < LORA_OTA_BUFFER_SIZE /\
  loraOtaReceivedSize (ota s) = loraOtaBufferSize (ota s) /\
  otaOutOfBounds (ota s) = false.

Lemma length_bytes_of_string (d : string) :
  List.length (bytes_of_string d) = String.length d.
Proof.
  unfold bytes_of_string. rewrite length_map.
  induction d as [|c d IH]; cbn; [reflexivity | rewrite IH; reflexivity].
Qed.

Lemma memcpy_in_bounds (dst src : list Z) (off : Z) :
  0 <= off -> off + Z.of_nat (List.length src) <= Z.of_nat (List.length dst) ->
  exists dst', memcpy dst off src = Some dst' /\ List.length dst' = List.length dst.
Proof.
  intros H0 H1. unfold memcpy.
  destruct (Z.leb_spec 0 off); [|lia].
  destruct (Z.leb_spec (off + Z.of_nat (List.length src)) (Z.of_nat (List.length dst))); [|lia].
  cbn. eexists. split; [reflexivity|].
  rewrite !length_app, length_firstn, length_skipn. lia.
Qed.

Lemma handleLoraOtaPacket_keeps_OtaInv (now : Z) (ub ue : bool) (p : string) :
  Keeps OtaInv (handleLoraOtaPacket now ub ue p).
Proof.
  unfold handleLoraOtaPacket.
  keeps_tac;
    try (destruct Ha as (Hl & Hb & Hr & Ho); unfold OtaInv; cbn).
  all: try (unfold ota_start_assign; cbn; repeat split; auto; lia).
  all: try (unfold ota_set_active; cbn; destruct Hs as (? & ? & ? & ?); repeat split; auto; lia).
  - (* a data chunk that fits *)
    match goal with
    | E : memcpy _ _ _ = Some ?b, G : (_ <? _) = true |- _ =>
        apply Z.ltb_lt in G;
        destruct (memcpy_in_bounds (loraOtaBuffer (ota a)) (bytes_of_string s0)
                    (loraOtaBufferSize (ota a))) as (d' & Ed & Ld);
        [lia | rewrite length_bytes_of_string, Hl; unfold LORA_OTA_BUFFER_SIZE in *; lia |];
        rewrite Ed in E; injection E as <-
    end.
    repeat split; auto; unfold LORA_OTA_BUFFER_SIZE in *; try lia.
    rewrite Hr. unfold u32_add. apply Z.mod_small. unfold UINT32. lia.
  - (* the impossible out-of-bounds write *)
    exfalso.
    match goal with
    | E : memcpy _ _ _ = None, G : (_ <? _) = true |- _ =>
        apply Z.ltb_lt in G;
        destruct (memcpy_in_bounds (loraOtaBuffer (ota a)) (bytes_of_string s0)
                    (loraOtaBufferSize (ota a))) as (d' & Ed & Ld);
        [lia | rewrite length_bytes_of_string, Hl; unfold LORA_OTA_BUFFER_SIZE in *; lia |];
        congruence
    end.
Qed.

#[export] Hint Resolve handleLoraOtaPacket_keeps_OtaInv : keeps.

Ltac ota_close :=
  unfold OtaInv, ota_set_active in *; cbn in *;
  first [ assumption
        | match goal with H : _ /\ _ |- _ => destruct H as (? & ? & ? & ?); repeat split; assumption end ].

Lemma loop_step_keeps_OtaInv (w : bool) (i : Input) : Keeps OtaInv (loop_step w i).
Proof.
  unfold loop_step, updateButton, onRelease, senderStep, receiverStep, processRx,
    checkLoraOtaTimeout, sendLoraOtaUpdate, startConfigBroadcast, commitParams,
    savePersistedSettings, savePersistedRole, updateRadioSettings.
  keeps_tac; ota_close.
Qed.

Lemma run_keeps (P : Node -> Prop) (w : bool) (Hstep : forall i, Keeps P (loop_step w i)) :
  forall ins s, P s -> P (fst (run w ins s)).
Proof.
  induction ins as [|i r IH]; intros s Hs; cbn; [exact Hs|].
  specialize (Hstep i s Hs). unfold final in Hstep.
  destruct (loop_step w i s) as [[u s1] l1].
  specialize (IH s1 Hstep). destruct (run w r s1) as [s2 l2]. exact IH.
Qed.

Lemma OtaInv_initNode : OtaInv initNode.
Proof. unfold OtaInv. vm_compute. repeat split; discriminate. Qed.

(** C7. Over any sequence of loop iterations, from a state whose OTA
    buffer is consistent (in particular the initial state), the stored byte
    count stays within [0, 1024), every [memcpy] into [loraOtaBuffer] stays
    inside the array, and an Active session drops an [OTA_DATA] payload that
    would not fit, leaving the node unchanged. *)
Theorem ota_buffer_within_capacity (w : bool) (ins : list Input) (s : Node) (Hs : OtaInv s) :
  OtaInv (fst (run w ins s)) /\
  (forall now ub ue rest vals data,
     loraOtaActive (ota s) = true ->
     sscanf (append "OTA_DATA:" rest) "OTA_DATA:%d:%255s" = (2, vals) ->
     nth_error vals 1 = Some (SS data) ->
     LORA_OTA_BUFFER_SIZE <= loraOtaBufferSize (ota s) + Z.of_nat (String.length data) ->
     handleLoraOtaPacket now ub ue (append "OTA_DATA:" rest) s = (tt, s, [])).
Proof.
  split.
  - exact (run_keeps OtaInv w (loop_step_keeps_OtaInv w) ins s Hs).
  - intros now ub ue rest vals data Ha Hsc Hn Hle.
    assert (E1 : startsWith (append "OTA_DATA:" rest) "OTA_START:" = false) by reflexivity.
    assert (E2 : startsWith (append "OTA_DATA:" rest) "OTA_DATA:" = true)
      by (destruct rest; reflexivity).
    unfold handleLoraOtaPacket, bind, get, ret.
    rewrite E1, E2, Ha, Hsc, Hn. cbn.
    destruct (Z.ltb_spec (loraOtaBufferSize (ota s) + Z.of_nat (String.length data))
                         LORA_OTA_BUFFER_SIZE); [lia|].
    reflexivity.
Qed.

Lemma ota_buffer_within_capacity_witness :
  let s0 := set_ota (mkOta true 0 30000 (repeat 0 1024) 1000 2000 1000 false) (set_role false initNode) in
  let ins := [mkInput 100 true (RxOk "OTA_DATA:1:ABCDEFGHIJ" 0 0) true true;
              mkInput 200 true (RxOk "OTA_DATA:2:ABCDEFGHIJKLMNOPQRST" 0 0) true true;
              mkInput 300 true (RxOk "OTA_START:500:30000" 0 0) true true;
              mkInput 400 true (RxOk "OTA_DATA:0:ABCDEFGHIJKLMNOPQRST" 0 0) true true] in
  OtaInv (fst (run false ins s0)) /\
  handleLoraOtaPacket 500 true true (append "OTA_DATA:" "3:ABCDEFGHIJKLMNOPQRSTUVWXYZ0123") s0 = (tt, s0, []).
Proof.
  assert (Hs : OtaInv (set_ota (mkOta true 0 30000 (repeat 0 1024) 1000 2000 1000 false)
                         (set_role false initNode))).
  { unfold OtaInv, LORA_OTA_BUFFER_SIZE; cbn. repeat split; lia. }
  pose proof (ota_buffer_within_capacity false
    [mkInput 100 true (RxOk "OTA_DATA:1:ABCDEFGHIJ" 0 0) true true;
     mkInput 200 true (RxOk "OTA_DATA:2:ABCDEFGHIJKLMNOPQRST" 0 0) true true;
     mkInput 300 true (RxOk "OTA_START:500:30000" 0 0) true true;
     mkInput 400 true (RxOk "OTA_DATA:0:ABCDEFGHIJKLMNOPQRST" 0 0) true true]
    _ Hs) as [H1 H2].
  split; [exact H1|].
  apply (H2 500 true true "3:ABCDEFGHIJKLMNOPQRSTUVWXYZ0123"
           [SD 3; SS "ABCDEFGHIJKLMNOPQRSTUVWXYZ0123"] "ABCDEFGHIJKLMNOPQRSTUVWXYZ0123");
    [reflexivity | reflexivity | reflexivity | unfold LORA_OTA_BUFFER_SIZE; cbn; lia].
Defined.

(* ------------------------------------------------------------------ *)
(** ** The node role *)

Definition RoleIs (b : bool) (s : Node) : Prop := isSender s = b.

Lemma handleLoraOtaPacket_keeps_role (b : bool) (now : Z) (ub ue : bool) (p : string) :
  Keeps (RoleIs b) (handleLoraOtaPacket now ub ue p).
Proof. unfold handleLoraOtaPacket. keeps_tac; unfold RoleIs in *; cbn; assumption. Qed.

#[export] Hint Resolve handleLoraOtaPacket_keeps_role : keeps.

Lemma processRx_keeps_role (b w : bool) (now : Z) (ub ue : bool) (rx : string) :
  Keeps (RoleIs b) (processRx w now ub ue rx).
Proof.
  unfold processRx, sendLoraOtaUpdate, commitParams, savePersistedSettings, updateRadioSettings.
  keeps_tac; unfold RoleIs in *; cbn; assumption.
Qed.

#[export] Hint Resolve processRx_keeps_role : keeps.

Lemma after_button_keeps_role (b w : bool) (i : Input) :
  Keeps (RoleIs b)
    (s <- get ;;
     (if isSender s then senderStep (millis (in_time i)) else receiverStep w (millis (in_time i)) i) ;;;
     checkLoraOtaTimeout (millis (in_time i))).
Proof.
  unfold senderStep, receiverStep, checkLoraOtaTimeout, commitParams,
    savePersistedSettings, updateRadioSettings.
  keeps_tac; unfold RoleIs in *; cbn; assumption.
Qed.

Lemma ctrlListen_keeps_role (b : bool) (dur start : Z) :
  forall samples, Keeps (RoleIs b) (ctrlListen dur start samples).
Proof.
  induction samples as [|[t r] rest IH]; cbn; [apply keeps_ret|].
  unfold commitParams, savePersistedSettings.
  keeps_tac; unfold RoleIs in *; cbn; assumption.
Qed.

Lemma final_bind {A B} (m : St A) (k : A -> St B) (s : Node) :
  final (bind m k s) = let '(a, s1, _) := m s in final (k a s1).
Proof.
  unfold bind, final. destruct (m s) as [[a s1] l1]. destruct (k a s1) as [[c s2] l2].
  reflexivity.
Qed.

Definition is_toggle (a : ButtonAction) : bool :=
  match a with ToggleMode => true | _ => false end.

(** The press duration reported by [updateButton] when this call sees a
    release ([None] otherwise). *)
Definition releaseDuration (pin : bool) (now : Z) (b : Button) : option Z :=
  let b1 := if lastButtonState b && negb pin
            then mkButton (lastButtonMs b) (lastButtonState b) now true else b in
  if negb (lastButtonState b1) && pin && buttonPressed b1
  then Some (u32_sub now (buttonPressMs b1)) else None.

Definition shortPress (pin : bool) (now : Z) (b : Button) : bool :=
  match releaseDuration pin now b with
  | Some d => is_toggle (classifyPress d)
  | None => false
  end.

Lemma onRelease_keeps_role (b w : bool) (d : Z) (H : is_toggle (classifyPress d) = false) :
  Keeps (RoleIs b) (onRelease w d).
Proof.
  unfold onRelease, startConfigBroadcast, savePersistedSettings, savePersistedRole,
    updateRadioSettings.
  keeps_tac; unfold RoleIs in *; cbn; try assumption.
  unfold classifyPress in H.
  repeat match goal with E : (_ <? _) = _ |- _ => rewrite E in H; clear E end.
  discriminate H.
Qed.

Lemma onRelease_role (w : bool) (d : Z) (s : Node) :
  isSender (final (onRelease w d s)) = xorb (isSender s) (is_toggle (classifyPress d)).
Proof.
  destruct (is_toggle (classifyPress d)) eqn:T.
  - unfold is_toggle, classifyPress in T.
    destruct (d <? 100) eqn:E1; [discriminate|].
    destruct (d <? 1000) eqn:E2; [|destruct (d <? 3000); discriminate].
    unfold onRelease. rewrite E1, E2.
    unfold bind, modify, savePersistedRole, get, emit. cbn.
    destruct (isSender s); reflexivity.
  - rewrite xorb_false_r. exact (onRelease_keeps_role (isSender s) w d T s eq_refl).
Qed.

Lemma updateButton_role (w pin : bool) (now : Z) (s : Node) :
  isSender (final (updateButton w pin now s)) = xorb (isSender s) (shortPress pin now (btn s)).
Proof.
  unfold updateButton, shortPress, releaseDuration.
  rewrite final_bind. cbn [get].
  destruct (negb _ && pin && _) eqn:E.
  - rewrite final_bind. cbn [modify]. rewrite final_bind.
    match goal with |- context [onRelease w ?d ?s1] => pose proof (onRelease_role w d s1) as R end.
    unfold final in R |- *.
    destruct (onRelease _ _ _) as [[u s2] l2]. cbn in R |- *. exact R.
  - cbn. rewrite xorb_false_r. reflexivity.
Qed.

(** C9. Processing a received frame never changes the role: neither the
    payload dispatch of [loop()] (every payload, every build) nor the
    boot-time control-channel listen touches [isSender]; over a whole loop
    iteration the role is flipped exactly when [updateButton] sees a
    release whose duration [classifyPress] maps to ToggleMode. *)
Theorem role_changes_only_by_short_press :
  (forall w now ub ue rx s, isSender (final (processRx w now ub ue rx s)) = isSender s) /\
  (forall w now i s, isSender (final (receiverStep w now i s)) = isSender s) /\
  (forall dur ok start samples s,
     isSender (final (tryReceiveConfigOnControlChannel dur ok start samples s)) = isSender s) /\
  (forall w i s,
     isSender (final (loop_step w i s)) =
     xorb (isSender s) (shortPress (in_pin i) (millis (in_time i)) (btn s))).
Proof.
  split; [| split; [| split]].
  - intros w now ub ue rx s. exact (processRx_keeps_role (isSender s) w now ub ue rx s eq_refl).
  - intros w now i s.
    assert (K : Keeps (RoleIs (isSender s)) (receiverStep w now i)).
    { unfold receiverStep. keeps_tac; unfold RoleIs in *; cbn; assumption. }
    exact (K s eq_refl).
  - intros dur ok start samples s.
    assert (K : Keeps (RoleIs (isSender s)) (tryReceiveConfigOnControlChannel dur ok start samples)).
    { unfold tryReceiveConfigOnControlChannel.
      keeps_tac; try apply ctrlListen_keeps_role; unfold RoleIs in *; cbn; assumption. }
    exact (K s eq_refl).
  - intros w i s. unfold loop_step. rewrite final_bind.
    pose proof (updateButton_role w (in_pin i) (millis (in_time i)) s) as U.
    unfold final in U |- *.
    destruct (updateButton w (in_pin i) (millis (in_time i)) s) as [[u s1] l1].
    cbn in U. rewrite <- U.
    exact (after_button_keeps_role (isSender s1) w i s1 eq_refl).
Qed.

(* ------------------------------------------------------------------ *)
(** ** The sender's pending configuration broadcast *)

Definition is_cfg_tx (e : Event) : bool :=
  match e with EvTransmit m => startsWith m "CFG " | _ => false end.

Definition cfg_evs (l : list Event) : list Event := filter is_cfg_tx l.

Definition upd_evs (l : list Event) : list Params :=
  flat_map (fun e => match e with EvUpdateRadio p => [p] | _ => [] end) l.

(** Summaries of a tagged run log. *)
Definition cfg_count (log : list (Z * Event)) : nat := List.length (cfg_evs (map snd log)).
Definition cfg_times (log : list (Z * Event)) : list Z :=
  map fst (filter (fun te => is_cfg_tx (snd te)) log).
Definition radio_updates (log : list (Z * Event)) : list Params := upd_evs (map snd log).
Definition cfg_msgs_are (m : string) (log : list (Z * Event)) : Prop :=
  Forall (fun te => is_cfg_tx (snd te) = true -> snd te = EvTransmit m) log.

Fixpoint gaps_ge (d : Z) (l : list Z) : Prop :=
  match l with
  | x :: ((y :: _) as r) => d <= y - x /\ gaps_ge d r
  | _ => True
  end.

(** Real times of successive iterations: non-negative and non-decreasing. *)
Fixpoint times_from (t0 : Z) (ins : list Input) : Prop :=
  match ins with
  | [] => True
  | i :: r => t0 <= in_time i /\ times_from (in_time i) r
  end.

Lemma cfg_msg_is_cfg (p : Params) : is_cfg_tx (EvTransmit (cfg_msg p)) = true.
Proof. reflexivity. Qed.

Lemma ping_is_not_cfg (n : Z) : is_cfg_tx (EvTransmit (formatTxMessage n)) = false.
Proof. reflexivity. Qed.

(** The broadcast state after [k] of its transmissions, the last at real
    time [tlast]; [old] are the committed parameters it started from. *)
Definition BInv (target old : Params) (st : Node) (k : nat) (tlast : Z) : Prop :=
  isSender st = true /\ lastButtonState (btn st) = true /\ pendingP (pend st) = target /\
  ((pendingConfigBroadcast (pend st) = true /\ (k < 8)%nat /\
    cfgRemaining (pend st) = 8 - Z.of_nat k /\ cur st = old /\
    cfgLastTxMs (pend st) = (if (k =? 0)%nat then 0 else millis tlast)) \/
   (pendingConfigBroadcast (pend st) = false /\ k = 8%nat /\ cur st = target)).

Definition SameButOta (a b : Node) : Prop :=
  isSender a = isSender b /\ btn a = btn b /\ cur a = cur b /\ pend a = pend b.

Lemma BInv_same (target old : Params) (a b : Node) (k : nat) (t : Z) :
  SameButOta a b -> BInv target old b k t -> BInv target old a k t.
Proof. intros (E1 & E2 & E3 & E4). unfold BInv. rewrite E1, E2, E3, E4. tauto. Qed.

Lemma checkLoraOtaTimeout_silent (now : Z) (s : Node) :
  events (checkLoraOtaTimeout now s) = [] /\
  SameButOta (final (checkLoraOtaTimeout now s)) s.
Proof.
  unfold checkLoraOtaTimeout, bind, get, modify, ret. cbn.
  destruct (_ && _); cbn; repeat split; reflexivity.
Qed.

Lemma updateButton_idle (w : bool) (now : Z) (s : Node) :
  lastButtonState (btn s) = true ->
  updateButton w true now s =
  (tt, set_btn (mkButton (lastButtonMs (btn s)) true (buttonPressMs (btn s)) (buttonPressed (btn s))) s, []).
Proof.
  intros H. unfold updateButton, bind, get, modify. cbn. rewrite H. cbn. rewrite H. reflexivity.
Qed.

Lemma loop_step_idle_sender (w : bool) (i : Input) (st : Node) :
  isSender st = true -> lastButtonState (btn st) = true -> in_pin i = true ->
  let st1 := set_btn (mkButton (lastButtonMs (btn st)) true (buttonPressMs (btn st))
                               (buttonPressed (btn st))) st in
  events (loop_step w i st) = events (senderStep (millis (in_time i)) st1) /\
  SameButOta (final (loop_step w i st)) (final (senderStep (millis (in_time i)) st1)).
Proof.
  intros Hr Hb Hp st1.
  assert (Hr1 : isSender st1 = true) by exact Hr.
  assert (E : loop_step w i st =
              let '(_, st2, l2) := senderStep (millis (in_time i)) st1 in
              let '(v, st3, l3) := checkLoraOtaTimeout (millis (in_time i)) st2 in
              (v, st3, app l2 l3)).
  { unfold loop_step, bind at 1. rewrite Hp, (updateButton_idle w _ st Hb). fold st1.
    unfold bind at 1. unfold bind at 1, get.
    with_strategy opaque [senderStep checkLoraOtaTimeout] cbn. rewrite Hr.
    destruct (senderStep (millis (in_time i)) st1) as [[u st2] l2].
    destruct (checkLoraOtaTimeout (millis (in_time i)) st2) as [[v st3] l3].
    reflexivity. }
  rewrite E.
  destruct (senderStep (millis (in_time i)) st1) as [[u st2] l2].
  destruct (checkLoraOtaTimeout_silent (millis (in_time i)) st2) as [Ev Sm].
  unfold events, final in Ev, Sm |- *.
  destruct (checkLoraOtaTimeout (millis (in_time i)) st2) as [[v st3] l3].
  subst l3. rewrite app_nil_r. split; [reflexivity | exact Sm].
Qed.

Lemma u32_gap (t tl : Z) :
  0 <= tl <= t -> 300 <= u32_sub (millis t) (millis tl) -> 300 <= t - tl.
Proof.
  intros H G. unfold u32_sub, millis in G.
  rewrite <- Zminus_mod in G.
  assert (Hm : (t - tl) mod UINT32 <= t - tl) by (apply Z.mod_le; unfold UINT32; lia).
  lia.
Qed.

(** One sender iteration during a broadcast: either nothing of the broadcast
    happens, or exactly one more ControlMessage goes out, at least 300 ms of
    real time after the previous one, and the eighth commits. *)
Lemma senderStep_iteration (target old : Params) (t : Z) (st : Node) (k : nat) (tlast : Z) :
  BInv target old st k tlast -> 0 <= tlast <= t ->
  let r := senderStep (millis t) st in
  (cfg_evs (events r) = [] /\ upd_evs (events r) = [] /\ BInv target old (final r) k tlast) \/
  ((k < 8)%nat /\ cfg_evs (events r) = [EvTransmit (cfg_msg target)] /\
   upd_evs (events r) = (if (S k =? 8)%nat then [target] else []) /\
   BInv target old (final r) (S k) t /\ ((k <> 0)%nat -> 300 <= t - tlast)).
Proof.
  intros HI Ht. cbv zeta.
  destruct HI as (Hr & Hb & Hpp & [(Hpe & Hk & Hrem & Hcur & Hlast) | (Hpe & Hk & Hcur)]).
  - unfold senderStep, bind, get, emit, modify, ret, commitParams, updateRadioSettings,
      savePersistedSettings, events, final.
    rewrite Hpe.
    destruct ((50 <=? u32_sub (millis t) (lastTxMs st)) &&
              (300 <=? u32_sub (millis t) (cfgLastTxMs (pend st)))) eqn:G.
    + right. apply andb_true_iff in G as [_ G]. apply Z.leb_le in G.
      assert (Hgap : (k <> 0)%nat -> 300 <= t - tlast).
      { intros Hk0. destruct k as [|k']; [congruence|].
        rewrite Hlast in G. cbn in G. apply (u32_gap t tlast); lia. }
      rewrite Hrem.
      destruct (Z.leb_spec (8 - Z.of_nat k - 1) 0) as [R | R].
      * assert (k = 7%nat) as -> by lia.
        cbn -[cfg_msg computeIndices millis is_cfg_tx].
        rewrite Hpp, cfg_msg_is_cfg. cbn [is_cfg_tx].
        split; [lia|]. split; [reflexivity|]. split; [reflexivity|].
        split; [|exact Hgap].
        unfold BInv. cbn. split; [exact Hr|]. split; [exact Hb|]. split; [reflexivity|].
        right. repeat split.
      * assert (Hk8 : (S k =? 8)%nat = false) by (apply Nat.eqb_neq; lia).
        assert (Hb0 : (8 - Z.of_nat k - 1 <=? 0) = false) by (apply Z.leb_gt; lia).
        rewrite Hk8.
        cbn -[cfg_msg computeIndices millis is_cfg_tx Z.sub Z.of_nat Z.leb].
        cbn -[cfg_msg computeIndices millis is_cfg_tx Z.sub Z.of_nat].
        rewrite Hpp, cfg_msg_is_cfg. cbn [is_cfg_tx].
        split; [lia|]. split; [reflexivity|]. split; [reflexivity|].
        split; [|exact Hgap].
        unfold BInv. cbn -[millis Z.sub Z.of_nat]. split; [exact Hr|]. split; [exact Hb|].
        split; [reflexivity|].
        left. repeat split; try assumption; lia.
    + left. cbn -[cfg_msg computeIndices millis is_cfg_tx].
      split; [reflexivity|]. split; [reflexivity|].
      unfold BInv. repeat split; try assumption. left. repeat split; assumption.
  - left.
    unfold senderStep, bind, get, emit, modify, ret, events, final.
    rewrite Hpe.
    destruct (2000 <=? u32_sub (millis t) (lastTxMs st)).
    + cbn -[formatTxMessage millis is_cfg_tx]. rewrite ping_is_not_cfg.
      split; [reflexivity|]. split; [reflexivity|].
      unfold BInv. cbn -[millis]. repeat split; try assumption. right. repeat split; assumption.
    + cbn -[formatTxMessage millis is_cfg_tx].
      split; [reflexivity|]. split; [reflexivity|].
      unfold BInv. repeat split; try assumption. right. repeat split; assumption.
Qed.

Lemma BInv_le (target old : Params) (st : Node) (k : nat) (t : Z) :
  BInv target old st k t -> (k <= 8)%nat.
Proof. intros (_ & _ & _ & [(_ & H & _) | (_ & H & _)]); lia. Qed.

Lemma sender_iteration (w : bool) (target old : Params) (i : Input) (st : Node) (k : nat) (tlast : Z) :
  BInv target old st k tlast -> in_pin i = true -> 0 <= tlast <= in_time i ->
  let r := loop_step w i st in
  (cfg_evs (events r) = [] /\ upd_evs (events r) = [] /\ BInv target old (final r) k tlast) \/
  ((k < 8)%nat /\ cfg_evs (events r) = [EvTransmit (cfg_msg target)] /\
   upd_evs (events r) = (if (S k =? 8)%nat then [target] else []) /\
   BInv target old (final r) (S k) (in_time i) /\ ((k <> 0)%nat -> 300 <= in_time i - tlast)).
Proof.
  intros HI Hp Ht. cbv zeta.
  pose proof HI as (Hr & Hb & _).
  destruct (loop_step_idle_sender w i st Hr Hb Hp) as [Ev Sm]. cbv zeta in Ev, Sm.
  set (st1 := set_btn (mkButton (lastButtonMs (btn st)) true (buttonPressMs (btn st))
                               (buttonPressed (btn st))) st) in Ev, Sm.
  assert (HI1 : BInv target old st1 k tlast)
    by (destruct HI as (a & _ & c & d); unfold BInv; cbn; repeat split; assumption).
  rewrite Ev.
  destruct (senderStep_iteration target old (in_time i) st1 k tlast HI1 Ht)
    as [(A & B & C) | (A & B & C & D & E)]; cbv zeta in *.
  - left. split; [exact A|]. split; [exact B|]. exact (BInv_same _ _ _ _ _ _ Sm C).
  - right. split; [exact A|]. split; [exact B|]. split; [exact C|].
    split; [exact (BInv_same _ _ _ _ _ _ Sm D) | exact E].
Qed.

Lemma cfg_evs_app (l1 l2 : list Event) : cfg_evs (app l1 l2) = app (cfg_evs l1) (cfg_evs l2).
Proof. unfold cfg_evs. apply filter_app. Qed.

Lemma upd_evs_app (l1 l2 : list Event) : upd_evs (app l1 l2) = app (upd_evs l1) (upd_evs l2).
Proof. unfold upd_evs. apply flat_map_app. Qed.

Lemma map_snd_tag (t : Z) (l : list Event) : map snd (map (fun e => (t, e)) l) = l.
Proof. rewrite map_map. apply map_id. Qed.

Lemma cfg_times_tag (t : Z) (l : list Event) (log : list (Z * Event)) :
  cfg_times (app (map (fun e => (t, e)) l) log) = app (map (fun _ => t) (cfg_evs l)) (cfg_times log).
Proof.
  unfold cfg_times, cfg_evs. induction l as [|e l IH]; [reflexivity|].
  cbn. destruct (is_cfg_tx e); cbn; rewrite <- IH; reflexivity.
Qed.

Lemma cfg_msgs_tag_aux (m : string) (t : Z) (l : list Event) :
  Forall (fun e => e = EvTransmit m) (cfg_evs l) ->
  Forall (fun te : Z * Event => is_cfg_tx (snd te) = true -> snd te = EvTransmit m)
         (map (fun e => (t, e)) l).
Proof.
  unfold cfg_evs. induction l as [|e l IH]; cbn; intros Hf; [constructor|].
  destruct (is_cfg_tx e) eqn:He.
  - inversion Hf; subst. constructor; [intros _; reflexivity | apply IH; assumption].
  - constructor; [cbn; rewrite He; discriminate | apply IH; assumption].
Qed.

Lemma cfg_msgs_are_tag (m : string) (t : Z) (l : list Event) (log : list (Z * Event)) :
  (cfg_evs l = [] \/ cfg_evs l = [EvTransmit m]) -> cfg_msgs_are m log ->
  cfg_msgs_are m (app (map (fun e => (t, e)) l) log).
Proof.
  intros Hl Hlog. unfold cfg_msgs_are. apply Forall_app. split; [|exact Hlog].
  apply cfg_msgs_tag_aux. destruct Hl as [-> | ->]; repeat constructor.
Qed.

Lemma cfg_count_tag (t : Z) (l : list Event) (log : list (Z * Event)) :
  cfg_count (app (map (fun e => (t, e)) l) log) = (List.length (cfg_evs l) + cfg_count log)%nat.
Proof. unfold cfg_count. rewrite map_app, map_snd_tag, cfg_evs_app, length_app. reflexivity. Qed.

Lemma radio_updates_tag (t : Z) (l : list Event) (log : list (Z * Event)) :
  radio_updates (app (map (fun e => (t, e)) l) log) = app (upd_evs l) (radio_updates log).
Proof. unfold radio_updates. rewrite map_app, map_snd_tag, upd_evs_app. reflexivity. Qed.

(** A run of idle-button inputs from a broadcast state after [k] transmissions. *)
Lemma run_broadcast (w : bool) (target old : Params) (ins : list Input) :
  forall (st : Node) (k : nat) (tlast t0 : Z),
  BInv target old st k tlast -> Forall (fun i => in_pin i = true) ins ->
  0 <= tlast <= t0 -> times_from t0 ins ->
  let log := snd (run w ins st) in
  exists k' tl', BInv target old (fst (run w ins st)) k' tl' /\
    k' = (k + cfg_count log)%nat /\
    cfg_msgs_are (cfg_msg target) log /\
    gaps_ge 300 (app (if (k =? 0)%nat then [] else [tlast]) (cfg_times log)) /\
    radio_updates log = (if (k <? 8)%nat && (k' =? 8)%nat then [target] else []).
Proof.
  induction ins as [|i r IH]; intros st k tlast t0 HI Hp Ht Htf; cbv zeta.
  - exists k, tlast. cbn [run fst snd]. split; [exact HI|].
    split; [unfold cfg_count; cbn; lia|]. split; [constructor|].
    split; [destruct (k =? 0)%nat; cbn; trivial|].
    destruct (Nat.ltb_spec k 8), (Nat.eqb_spec k 8); cbn; try reflexivity; lia.
  - inversion Hp as [|i' r' Hpi Hpr]; subst. destruct Htf as [Hti Htf].
    cbn [run]. destruct (loop_step w i st) as [[u s1] l1] eqn:Hstep.
    destruct (run w r s1) as [s2 l2] eqn:Hrun. cbn [fst snd].
    pose proof (sender_iteration w target old i st k tlast HI Hpi ltac:(lia)) as Hit.
    rewrite Hstep in Hit. unfold events, final in Hit. cbv zeta in Hit.
    destruct Hit as [(A & B & C) | (A & B & C & D & E)].
    + specialize (IH s1 k tlast (in_time i) C Hpr ltac:(lia) Htf).
      rewrite Hrun in IH. cbn [fst snd] in IH.
      destruct IH as (k' & tl' & I1 & I2 & I3 & I4 & I5). exists k', tl'.
      rewrite cfg_count_tag, radio_updates_tag, cfg_times_tag, A, B. cbn [List.length map app].
      split; [exact I1|]. split; [lia|]. split; [apply cfg_msgs_are_tag; auto|].
      split; [exact I4 | exact I5].
    + specialize (IH s1 (S k) (in_time i) (in_time i) D Hpr ltac:(lia) Htf).
      rewrite Hrun in IH. cbn [fst snd] in IH.
      destruct IH as (k' & tl' & I1 & I2 & I3 & I4 & I5). exists k', tl'.
      rewrite cfg_count_tag, radio_updates_tag, cfg_times_tag, B, C. cbn [List.length map app].
      split; [exact I1|]. split; [lia|]. split; [apply cfg_msgs_are_tag; auto|].
      cbn [Nat.eqb app] in I4.
      split.
      * destruct (Nat.eqb_spec k 0); cbn [app]; [exact I4|].
        cbn [gaps_ge]. split; [apply E; assumption | exact I4].
      * pose proof (BInv_le _ _ _ _ _ I1) as Hle.
        destruct (Nat.eqb_spec (S k) 8) as [H8 | H8].
        -- assert (k = 7%nat) by lia. subst k. assert (Hk' : k' = 8%nat) by lia.
           rewrite I5, Hk'. reflexivity.
        -- rewrite I5. cbn [app].
           assert (Hl1 : (S k <? 8)%nat = true) by (apply Nat.ltb_lt; lia).
           assert (Hl2 : (k <? 8)%nat = true) by (apply Nat.ltb_lt; lia).
           rewrite Hl1, Hl2. reflexivity.
Qed.

(** Scenario inputs: the button idle (HIGH) or held (LOW), no packet. *)
Definition idle_at (t : Z) : Input := mkInput t true RxTimeout true true.
Definition held_at (t : Z) : Input := mkInput t false RxTimeout true true.
Definition sf10 : Params := with_sf defaultParams 10.

(** C4 (amended): from a broadcast just initiated on the sender, as long as the
    button stays released, every ControlMessage transmitted is the target's,
    there are at most 8 of them, consecutive ones lie at least 300 ms of real
    time apart; while the broadcast is pending fewer than 8 went out, the
    committed parameters are the old ones and the radio was not reconfigured;
    once it is cleared exactly 8 went out, the target is committed and the radio
    was reconfigured once, to the target. *)
Theorem config_broadcast_eight_then_commit (w : bool) (target : Params) (s : Node)
  (ins : list Input) (Hrole : isSender s = true) (Hbtn : lastButtonState (btn s) = true)
  (Hpin : Forall (fun i => in_pin i = true) ins) (Ht : times_from 0 ins) :
  let s0 := final (startConfigBroadcast target s) in
  let s' := fst (run w ins s0) in
  let log := snd (run w ins s0) in
  (cfg_count log <= 8)%nat /\ cfg_msgs_are (cfg_msg target) log /\
  gaps_ge 300 (cfg_times log) /\
  (pendingConfigBroadcast (pend s') = true ->
     (cfg_count log < 8)%nat /\ cur s' = cur s /\ radio_updates log = []) /\
  (pendingConfigBroadcast (pend s') = false ->
     cfg_count log = 8%nat /\ cur s' = target /\ radio_updates log = [target]).
Proof.
  cbv zeta.
  assert (H0 : BInv target (cur s) (final (startConfigBroadcast target s)) 0 0).
  { unfold startConfigBroadcast, modify, final, BInv. cbn.
    split; [exact Hrole|]. split; [exact Hbtn|]. split; [reflexivity|].
    left. repeat split. lia. }
  destruct (run_broadcast w target (cur s) ins _ 0 0 0 H0 Hpin ltac:(lia) Ht)
    as (k' & tl' & I1 & I2 & I3 & I4 & I5).
  cbn [Nat.eqb app Nat.add] in I2, I4.
  destruct I1 as (_ & _ & _ & [(Pe & Hk & _ & Hc & _) | (Pe & Hk & Hc)]).
  - split; [lia|]. split; [exact I3|]. split; [exact I4|].
    split; intros Hq.
    + split; [lia|]. split; [exact Hc|]. rewrite I5.
      destruct (Nat.eqb_spec k' 8); [lia | reflexivity].
    + congruence.
  - split; [lia|]. split; [exact I3|]. split; [exact I4|].
    split; intros Hq.
    + congruence.
    + split; [lia|]. split; [exact Hc|]. rewrite I5, Hk. reflexivity.
Qed.

Lemma config_broadcast_eight_then_commit_witness :
  let ins := map (fun n => idle_at (1000 + 300 * Z.of_nat n)) (List.seq 0 9) in
  let s0 := final (startConfigBroadcast sf10 initNode) in
  let s' := fst (run false ins s0) in
  let log := snd (run false ins s0) in
  (cfg_count log <= 8)%nat /\ cfg_msgs_are (cfg_msg sf10) log /\
  gaps_ge 300 (cfg_times log) /\
  (pendingConfigBroadcast (pend s') = true ->
     (cfg_count log < 8)%nat /\ cur s' = cur initNode /\ radio_updates log = []) /\
  (pendingConfigBroadcast (pend s') = false ->
     cfg_count log = 8%nat /\ cur s' = sf10 /\ radio_updates log = [sf10]).
Proof.
  apply (config_broadcast_eight_then_commit false sf10 initNode
           (map (fun n => idle_at (1000 + 300 * Z.of_nat n)) (List.seq 0 9)));
    [reflexivity | reflexivity | | vm_compute; repeat split; discriminate].
  vm_compute. repeat (apply Forall_cons; [reflexivity|]). apply Forall_nil.
Defined.

(** C4 (counterexample to "exactly 8 times"): one transmission at 1000 ms,
    then the button is held from 1100 ms to 2700 ms; the 1600 ms press cycles
    the spreading factor, which restarts the still pending broadcast to the
    same uncommitted target with a fresh count of 8: the target ControlMessage
    goes out 9 times before the single commit. *)
Lemma config_broadcast_restart_counterexample :
  let ins := app [idle_at 1000; held_at 1100; idle_at 2700]
                 (map (fun n => idle_at (3000 + 300 * Z.of_nat n)) (List.seq 0 8)) in
  let r := run false ins (final (startConfigBroadcast sf10 initNode)) in
  cfg_evs (map snd (snd r)) = repeat (EvTransmit (cfg_msg sf10)) 9 /\
  cfg_times (snd r) = [1000; 2700; 3000; 3300; 3600; 3900; 4200; 4500; 4800] /\
  radio_updates (snd r) = [sf10] /\
  pendingConfigBroadcast (pend (fst r)) = false /\ cur (fst r) = sf10.
Proof. vm_compute. repeat split. Qed.


(* ------------------------------------------------------------------ *)
(** ** Further properties of the code *)

Lemma append_assoc_s (a b c : string) : append (append a b) c = append a (append b c).
Proof. induction a as [|x a IH]; cbn; [reflexivity | now rewrite IH]. Qed.

Lemma append_empty_r (a : string) : append a "" = a.
Proof. induction a as [|x a IH]; cbn; [reflexivity | now rewrite IH]. Qed.

Lemma length_append_s (a b : string) :
  String.length (append a b) = (String.length a + String.length b)%nat.
Proof. induction a as [|x a IH]; cbn; [reflexivity | now rewrite IH]. Qed.

Lemma all_chars_append (f : ascii -> bool) (a b : string) :
  all_chars f (append a b) = all_chars f a && all_chars f b.
Proof. induction a as [|x a IH]; cbn; [reflexivity | rewrite IH; apply andb_assoc]. Qed.

Lemma digit_char_val (d : Z) : 0 <= d < 10 -> digit_val (digit_char d) = Some d.
Proof.
  intros H.
  assert (d = 0 \/ d = 1 \/ d = 2 \/ d = 3 \/ d = 4 \/ d = 5 \/ d = 6 \/ d = 7 \/ d = 8 \/ d = 9)
    as Hd by lia.
  repeat destruct Hd as [-> | Hd]; try reflexivity; subst; reflexivity.
Qed.

Lemma dec_digits_app (fuel : nat) : forall n acc,
  dec_digits fuel n acc = append (dec_digits fuel n "") acc.
Proof.
  induction fuel as [|f IH]; intros n acc; cbn; [reflexivity|].
  destruct (n <? 10); [reflexivity|].
  rewrite (IH _ (String _ acc)), (IH _ (String _ "")), append_assoc_s. reflexivity.
Qed.

Lemma dec_digits_props (fuel : nat) : forall n,
  0 <= n -> n < 10 ^ (Z.of_nat fuel + 1) ->
  let D := dec_digits fuel n "" in
  all_chars is_digit D = true /\ (1 <= String.length D)%nat /\
  (forall j : nat, (1 <= j)%nat -> n < 10 ^ Z.of_nat j -> (String.length D <= j)%nat) /\
  (forall rest a k, read_digits (append D rest) a k =
     read_digits rest (a * 10 ^ Z.of_nat (String.length D) + n) (k + String.length D)).
Proof.
  induction fuel as [|f IH]; intros n Hn Hb; cbv zeta.
  - cbn in Hb. cbn [dec_digits].
    assert (Hv := digit_char_val n ltac:(lia)).
    unfold is_digit. cbn [all_chars String.length]. rewrite Hv.
    split; [reflexivity|]. split; [lia|].
    split.
    + intros j Hj1 Hj. lia.
    + intros rest a k. cbn [append read_digits]. rewrite Hv. cbn [String.length].
      replace (k + 1)%nat with (S k) by lia. f_equal; cbn; ring.
  - cbn [dec_digits]. destruct (Z.ltb_spec n 10) as [H10 | H10].
    + assert (Hv := digit_char_val n ltac:(lia)).
      unfold is_digit. cbn [all_chars String.length]. rewrite Hv.
      split; [reflexivity|]. split; [lia|].
      split.
      * intros j Hj1 Hj. lia.
      * intros rest a k. cbn [append read_digits]. rewrite Hv. cbn [String.length].
      replace (k + 1)%nat with (S k) by lia. f_equal; cbn; ring.
    + rewrite dec_digits_app.
      assert (Hq : 0 <= n / 10) by (apply Z.div_pos; lia).
      assert (Hqb : n / 10 < 10 ^ (Z.of_nat f + 1)).
      { apply Z.div_lt_upper_bound; [lia|].
        replace (Z.of_nat (S f) + 1) with (Z.of_nat f + 1 + 1) in Hb by lia.
        rewrite Z.pow_add_r in Hb by lia. lia. }
      destruct (IH (n / 10) Hq Hqb) as (A & B & C & E). cbv zeta in *.
      set (X := dec_digits f (n / 10) "") in *.
      assert (Hr := Z.mod_pos_bound n 10 ltac:(lia)).
      assert (Hv := digit_char_val (n mod 10) Hr).
      unfold is_digit in *. rewrite all_chars_append, A, length_append_s.
      cbn [all_chars String.length]. rewrite Hv.
      split; [reflexivity|]. split; [lia|]. split.
      * intros j Hj1 Hj. destruct j as [|j]; [lia|].
        destruct j as [|j0]; [cbn in Hj; lia|].
        set (j := S j0) in *.
        assert (Hj' : n / 10 < 10 ^ Z.of_nat j).
        { apply Z.div_lt_upper_bound; [lia|].
          rewrite Nat2Z.inj_succ, Z.pow_succ_r in Hj by lia. lia. }
        specialize (C j ltac:(lia) Hj'). lia.
      * intros rest a k. rewrite append_assoc_s. cbn [append]. rewrite E.
        cbn [read_digits]. rewrite Hv.
        replace (k + (String.length X + 1))%nat with (S (k + String.length X)) by lia.
        f_equal.
        rewrite Nat2Z.inj_add, Z.pow_add_r by lia. rewrite Z.pow_1_r.
        pose proof (Z.div_mod n 10 ltac:(lia)). nia.
Qed.

Lemma dec_fuel_bound (n : Z) :
  0 <= n -> n < 10 ^ (Z.of_nat (S (Z.to_nat (Z.log2 n))) + 1).
Proof.
  intros Hn.
  destruct (Z.eq_dec n 0) as [-> | Hn0]; [cbn; lia|].
  assert (H2 : n < 2 ^ (Z.log2 n + 1)) by (rewrite Z.add_1_r; apply Z.log2_spec; lia).
  assert (Hl := Z.log2_nonneg n).
  assert (H3 : 2 ^ (Z.log2 n + 1) <= 10 ^ (Z.log2 n + 1)) by (apply Z.pow_le_mono_l; lia).
  assert (H4 : 10 ^ (Z.log2 n + 1) <= 10 ^ (Z.of_nat (S (Z.to_nat (Z.log2 n))) + 1))
    by (apply Z.pow_le_mono_r; lia).
  lia.
Qed.

Lemma dec_props (n : Z) : 0 <= n ->
  all_chars is_digit (dec n) = true /\ (1 <= String.length (dec n))%nat /\
  (forall j : nat, (1 <= j)%nat -> n < 10 ^ Z.of_nat j -> (String.length (dec n) <= j)%nat) /\
  (forall rest a k, read_digits (append (dec n) rest) a k =
     read_digits rest (a * 10 ^ Z.of_nat (String.length (dec n)) + n) (k + String.length (dec n))).
Proof.
  intros Hn. unfold dec. destruct (Z.ltb_spec n 0); [lia|].
  exact (dec_digits_props _ n Hn (dec_fuel_bound n Hn)).
Qed.

Lemma read_digits_stop (s : string) (v : Z) (k : nat) :
  stops_digits s = true -> read_digits s v k = (v, k, s).
Proof.
  destruct s as [|c r]; cbn; [reflexivity|]. unfold is_digit.
  destruct (digit_val c); cbn; [discriminate | reflexivity].
Qed.

Lemma digit_facts (c : ascii) : is_digit c = true ->
  is_space c = false /\ c <> "-"%char /\ c <> "+"%char /\ c <> "."%char /\ c <> Ascii.zero.
Proof.
  destruct c as [[] [] [] [] [] [] [] []]; cbn; try discriminate;
    intros _; repeat split; discriminate.
Qed.

Lemma read_sign_digit (c : ascii) (r : string) :
  is_digit c = true -> read_sign (String c r) = (1, String c r).
Proof.
  destruct c as [[] [] [] [] [] [] [] []]; cbn; try discriminate; reflexivity.
Qed.

Lemma dec_head (n : Z) : 0 <= n ->
  exists c r, dec n = String c r /\ is_digit c = true /\ all_chars is_digit r = true.
Proof.
  intros Hn. destruct (dec_props n Hn) as (A & B & _).
  destruct (dec n) as [|c r]; cbn in B; [lia|].
  cbn in A. apply andb_true_iff in A as [A1 A2]. exists c, r. auto.
Qed.

Lemma read_int_dec (n : Z) (rest : string) :
  0 <= n -> stops_digits rest = true -> read_int (append (dec n) rest) = Some (n, rest).
Proof.
  intros Hn Hs. destruct (dec_props n Hn) as (_ & B & _ & E).
  unfold read_int.
  destruct (dec_head n Hn) as (c & r & Hd & Hc & _).
  rewrite Hd. cbn [append]. rewrite (read_sign_digit c _ Hc).
  change (String c (append r rest)) with (append (String c r) rest).
  rewrite <- Hd, E, read_digits_stop by exact Hs.
  destruct (String.length (dec n)) as [|m] eqn:Hl; [lia|]. cbn -[Z.mul].
  rewrite Z.mul_1_l. reflexivity.
Qed.

Lemma substring_all (s : string) (m : nat) :
  (String.length s <= m)%nat -> substring 0 m s = s.
Proof.
  revert m. induction s as [|c s IH]; intros m Hm; destruct m as [|m]; cbn in *;
    try reflexivity; try lia.
  rewrite IH by lia. reflexivity.
Qed.

Lemma scan_lits (p : string) (ds : list Dir) (r : string) (n : Z) (acc : list SVal) :
  scan (app (map DLit (list_ascii_of_string p)) ds) (append p r) n acc = scan ds r n acc.
Proof.
  induction p as [|c p IH]; cbn; [reflexivity|]. rewrite Ascii.eqb_refl. exact IH.
Qed.

Lemma scan_lit (c : ascii) (ds : list Dir) (r : string) (n : Z) (acc : list SVal) :
  scan (DLit c :: ds) (String c r) n acc = scan ds r n acc.
Proof. cbn. rewrite Ascii.eqb_refl. reflexivity. Qed.

Lemma skip_ws_digit (c : ascii) (r : string) :
  is_digit c = true -> skip_ws (String c r) = String c r.
Proof. intros H. cbn. destruct (digit_facts c H) as (-> & _). reflexivity. Qed.

Lemma scan_DU_dec (ds : list Dir) (v : Z) (rest : string) (n : Z) (acc : list SVal) :
  0 <= v -> stops_digits rest = true ->
  scan (DU :: ds) (append (dec v) rest) n acc = scan ds rest (n + 1) (SU (v mod UINT32) :: acc).
Proof.
  intros Hv Hs. pose proof (read_int_dec v rest Hv Hs) as Hr.
  destruct (dec_head v Hv) as (c & r & Hd & Hc & _).
  rewrite Hd in Hr |- *. cbn [append] in Hr |- *.
  cbn [scan]. rewrite (skip_ws_digit c _ Hc). rewrite Hr. reflexivity.
Qed.

Lemma scan_DD_dec (ds : list Dir) (v : Z) (rest : string) (n : Z) (acc : list SVal) :
  0 <= v -> stops_digits rest = true ->
  scan (DD :: ds) (append (dec v) rest) n acc = scan ds rest (n + 1) (SD v :: acc).
Proof.
  intros Hv Hs. pose proof (read_int_dec v rest Hv Hs) as Hr.
  destruct (dec_head v Hv) as (c & r & Hd & Hc & _).
  rewrite Hd in Hr |- *. cbn [append] in Hr |- *.
  cbn [scan]. rewrite (skip_ws_digit c _ Hc). rewrite Hr. reflexivity.
Qed.

Lemma read_token_all (w : nat) (s : string) :
  no_space s = true -> (String.length s <= w)%nat -> read_token w s = (s, EmptyString).
Proof.
  revert w. induction s as [|c s IH]; intros w Hs Hw.
  - destruct w; reflexivity.
  - destruct w as [|w]; cbn in Hw; [lia|].
    cbn in Hs |- *. apply andb_true_iff in Hs as [H1 H2].
    destruct (is_space c); [discriminate|]. rewrite IH by (auto; lia). reflexivity.
Qed.

Lemma scan_DS_all (w : nat) (ds : list Dir) (data : string) (n : Z) (acc : list SVal) :
  data <> EmptyString -> no_space data = true -> (String.length data <= w)%nat ->
  scan (DS w :: ds) data n acc = scan ds EmptyString (n + 1) (SS data :: acc).
Proof.
  intros Hne Hs Hw. destruct data as [|c r]; [congruence|].
  pose proof (read_token_all w _ Hs Hw) as Ht.
  cbn in Hs. apply andb_true_iff in Hs as [H1 _].
  cbn [scan skip_ws]. destruct (is_space c); [discriminate|].
  rewrite Ht. reflexivity.
Qed.

Lemma parse_fmt_ota_start :
  parse_fmt "OTA_START:%u:%u" = app (map DLit (list_ascii_of_string "OTA_START:")) [DU; DLit ":"; DU].
Proof. reflexivity. Qed.

Lemma parse_fmt_ota_data :
  parse_fmt "OTA_DATA:%d:%255s" = app (map DLit (list_ascii_of_string "OTA_DATA:")) [DD; DLit ":"; DS 255].
Proof. reflexivity. Qed.

Lemma sscanf_ota_start (a b : Z) : 0 <= a -> 0 <= b ->
  sscanf (append "OTA_START:" (append (dec a) (append ":" (dec b)))) "OTA_START:%u:%u" =
  (2, [SU (a mod UINT32); SU (b mod UINT32)]).
Proof.
  intros Ha Hb. unfold sscanf. rewrite parse_fmt_ota_start, scan_lits.
  rewrite scan_DU_dec by (auto; reflexivity). cbn [append]. rewrite scan_lit.
  rewrite <- (append_empty_r (dec b)), scan_DU_dec by (auto; reflexivity).
  reflexivity.
Qed.

Lemma sscanf_ota_data (k : Z) (data : string) : 0 <= k ->
  data <> EmptyString -> no_space data = true -> (String.length data <= 255)%nat ->
  sscanf (append "OTA_DATA:" (append (dec k) (append ":" data))) "OTA_DATA:%d:%255s" =
  (2, [SD k; SS data]).
Proof.
  intros Hk Hne Hs Hw. unfold sscanf. rewrite parse_fmt_ota_data, scan_lits.
  rewrite scan_DD_dec by (auto; reflexivity). cbn [append]. rewrite scan_lit.
  rewrite scan_DS_all by auto. reflexivity.
Qed.

Lemma dec_length_u32 (n : Z) : 0 <= n <= UINT32_MAX -> (String.length (dec n) <= 10)%nat.
Proof.
  intros Hn. destruct (dec_props n ltac:(lia)) as (_ & _ & C & _).
  apply C; [lia|]. unfold UINT32_MAX, UINT32 in Hn. cbn. lia.
Qed.

Lemma scan_ws (ds : list Dir) (s : string) (n : Z) (acc : list SVal) :
  scan (DWs :: ds) s n acc = scan ds (skip_ws s) n acc.
Proof. reflexivity. Qed.

(** X1. For every 32-bit sequence number n, [formatTxMessage n] is [PING seq=] followed by the decimal digits of n, never truncated by the 48-byte buffer (at most 19 characters), and [sscanf] with [PING seq=%u] reads n back. *)
Theorem formatTxMessage_decimal (n : Z) (Hn : 0 <= n <= UINT32_MAX) :
  formatTxMessage n = append "PING seq=" (dec n) /\
  (String.length (formatTxMessage n) <= 19)%nat /\
  all_chars is_digit (dec n) = true /\
  sscanf (formatTxMessage n) "PING seq=%u" = (1, [SU n]).
Proof.
  pose proof (dec_length_u32 n Hn) as Hl.
  assert (E : formatTxMessage n = append "PING seq=" (dec n)).
  { unfold formatTxMessage, snprintf_trunc. apply substring_all.
    rewrite length_append_s. cbn. lia. }
  split; [exact E|]. split; [rewrite E, length_append_s; cbn; lia|].
  split; [exact (proj1 (dec_props n ltac:(lia)))|].
  rewrite E. unfold sscanf.
  assert (F : parse_fmt "PING seq=%u" =
              app (map DLit (list_ascii_of_string "PING"))
                  (DWs :: app (map DLit (list_ascii_of_string "seq=")) [DU])) by reflexivity.
  rewrite F.
  change (append "PING seq=" (dec n)) with (append "PING" (String " " (append "seq=" (dec n)))).
  rewrite scan_lits, scan_ws.
  replace (skip_ws (String " " (append "seq=" (dec n)))) with (append "seq=" (dec n))
    by reflexivity.
  rewrite scan_lits, <- (append_empty_r (dec n)), scan_DU_dec by (auto; lia).
  rewrite Z.mod_small by (unfold UINT32_MAX in Hn; lia). reflexivity.
Qed.

Lemma seq_events {B} (m : St unit) (k : St B) (s : Node) :
  events ((m ;;; k) s) = app (events (m s)) (events (k (final (m s)))) /\
  final ((m ;;; k) s) = final (k (final (m s))).
Proof.
  unfold bind, events, final. destruct (m s) as [[[] s1] l1].
  destruct (k s1) as [[b s2] l2]. split; reflexivity.
Qed.

Lemma get_events {B} (k : Node -> St B) (s : Node) :
  events ((x <- get ;; k x) s) = events (k s s) /\ final ((x <- get ;; k x) s) = final (k s s).
Proof. unfold bind, get, events, final. destruct (k s s) as [[b s2] l2]. split; reflexivity. Qed.

Lemma transmitted_app (l1 l2 : list Event) :
  transmitted (app l1 l2) = app (transmitted l1) (transmitted l2).
Proof. unfold transmitted. apply flat_map_app. Qed.

Lemma feed_app (now : Z) (ub ue : bool) (l1 : list string) : forall l2 r,
  events (feed now ub ue (app l1 l2) r) =
    app (events (feed now ub ue l1 r)) (events (feed now ub ue l2 (final (feed now ub ue l1 r)))) /\
  final (feed now ub ue (app l1 l2) r) = final (feed now ub ue l2 (final (feed now ub ue l1 r))).
Proof.
  induction l1 as [|m l1 IH]; intros l2 r; [split; reflexivity|].
  cbn [app feed]. destruct (seq_events (handleLoraOtaPacket now ub ue m) (feed now ub ue (app l1 l2)) r) as [E1 F1].
  destruct (seq_events (handleLoraOtaPacket now ub ue m) (feed now ub ue l1) r) as [E2 F2].
  rewrite E1, F1, E2, F2. destruct (IH l2 (final (handleLoraOtaPacket now ub ue m r))) as [E3 F3].
  rewrite E3, F3, app_assoc. split; reflexivity.
Qed.

Lemma nat_ascii_byte (b : Z) : 0 <= b < 256 -> Z.of_nat (nat_of_ascii (ascii_of_nat (Z.to_nat b))) = b.
Proof. intros H. rewrite Ascii.nat_ascii_embedding by lia. lia. Qed.

Lemma bytes_of_string_of_bytes (l : list Z) :
  forallb byte_ok l = true -> bytes_of_string (string_of_bytes l) = l.
Proof.
  induction l as [|b l IH]; cbn; [reflexivity|].
  intros H. apply andb_true_iff in H as [Hb Hl].
  unfold byte_ok in Hb. apply andb_true_iff in Hb as [Hb _]. apply andb_true_iff in Hb as [H1 H2].
  apply Z.ltb_lt in H1, H2.
  unfold bytes_of_string in IH |- *. cbn. rewrite nat_ascii_byte by lia. f_equal. exact (IH Hl).
Qed.

Lemma length_string_of_bytes (l : list Z) : String.length (string_of_bytes l) = List.length l.
Proof.
  unfold string_of_bytes. induction l as [|b l IH]; cbn; [reflexivity|].
  f_equal. exact IH.
Qed.

Lemma cstr_id (s : string) : non_nul s = true -> cstr s = s.
Proof.
  induction s as [|c s IH]; cbn; [reflexivity|]. intros H.
  apply andb_true_iff in H as [H1 H2]. destruct (Ascii.eqb c Ascii.zero); [discriminate|].
  rewrite IH by exact H2. reflexivity.
Qed.

Lemma non_nul_append (a b : string) : non_nul (append a b) = non_nul a && non_nul b.
Proof. apply all_chars_append. Qed.

Lemma no_space_append (a b : string) : no_space (append a b) = no_space a && no_space b.
Proof. apply all_chars_append. Qed.

Lemma bytes_facts (l : list Z) : forallb byte_ok l = true ->
  non_nul (string_of_bytes l) = true /\ no_space (string_of_bytes l) = true.
Proof.
  induction l as [|b l IH]; [auto|]. intros H. cbn [forallb] in H. apply andb_true_iff in H as [Hb Hl].
  destruct (IH Hl) as [A B].
  change (string_of_bytes (b :: l)) with (String (ascii_of_nat (Z.to_nat b)) (string_of_bytes l)).
  unfold non_nul, no_space in *. cbn [all_chars]. rewrite A, B.
  unfold byte_ok in Hb. apply andb_true_iff in Hb as [Hb H3]. apply andb_true_iff in Hb as [H1 H2].
  apply Z.ltb_lt in H1, H2. rewrite H3. split; [|reflexivity].
  destruct (Ascii.eqb_spec (ascii_of_nat (Z.to_nat b)) Ascii.zero) as [E|E]; [|reflexivity].
  apply (f_equal nat_of_ascii) in E. rewrite Ascii.nat_ascii_embedding in E by lia.
  cbn in E. lia.
Qed.

Lemma dec_non_nul (n : Z) : 0 <= n -> non_nul (dec n) = true.
Proof.
  intros Hn. pose proof (proj1 (dec_props n Hn)) as A. revert A.
  unfold non_nul. generalize (dec n). induction s as [|c s IH]; cbn; [auto|].
  intros H. apply andb_true_iff in H as [H1 H2]. rewrite (IH H2).
  destruct (digit_facts c H1) as (_ & _ & _ & _ & Hz).
  destruct (Ascii.eqb_spec c Ascii.zero); [congruence | reflexivity].
Qed.

Lemma startsWith_data_start (X : string) : startsWith (append "OTA_DATA:" X) "OTA_START:" = false.
Proof. reflexivity. Qed.

Lemma startsWith_append (p X : string) : startsWith (append p X) p = true.
Proof.
  unfold startsWith. induction p as [|c p IH]; cbn; [destruct X; reflexivity|].
  destruct (ascii_dec c c); [exact IH | congruence].
Qed.

Lemma startsWith_data_data (X : string) : startsWith (append "OTA_DATA:" X) "OTA_DATA:" = true.
Proof. apply startsWith_append. Qed.

Lemma startsWith_start_start (X : string) : startsWith (append "OTA_START:" X) "OTA_START:" = true.
Proof. apply startsWith_append. Qed.

Lemma ota_data_step (now : Z) (ub ue : bool) (r : Node) (k : Z) (D : string) (buf' : list Z) :
  loraOtaActive (ota r) = true -> 0 <= k -> D <> EmptyString -> no_space D = true ->
  (String.length D <= 255)%nat ->
  loraOtaBufferSize (ota r) + Z.of_nat (String.length D) < LORA_OTA_BUFFER_SIZE ->
  memcpy (loraOtaBuffer (ota r)) (loraOtaBufferSize (ota r)) (bytes_of_string D) = Some buf' ->
  handleLoraOtaPacket now ub ue (append "OTA_DATA:" (append (dec k) (append ":" D))) r =
  (tt, set_ota (mkOta true (loraOtaStartTime (ota r)) (loraOtaTimeout (ota r)) buf'
         (loraOtaBufferSize (ota r) + Z.of_nat (String.length D)) (loraOtaExpectedSize (ota r))
         (u32_add (loraOtaReceivedSize (ota r)) (Z.of_nat (String.length D))) (otaOutOfBounds (ota r))) r, []).
Proof.
  intros Ha Hk HD Hs Hl Hb Hm. unfold handleLoraOtaPacket, bind, get. cbv beta iota zeta.
  rewrite startsWith_data_start, startsWith_data_data, Ha.
  rewrite (sscanf_ota_data k D Hk HD Hs Hl). cbn [negb Z.eqb nth_error].
  apply Z.ltb_lt in Hb. rewrite Hb, Hm. reflexivity.
Qed.

Lemma memcpy_prefix (dst src pre dst' : list Z) :
  memcpy dst (Z.of_nat (List.length pre)) src = Some dst' ->
  firstn (List.length pre) dst = pre ->
  firstn (List.length pre + List.length src) dst' = app pre src /\ List.length dst' = List.length dst.
Proof.
  intros Hm Hp. unfold memcpy in Hm.
  destruct (0 <=? Z.of_nat (List.length pre)); [|discriminate].
  destruct (Z.leb_spec (Z.of_nat (List.length pre) + Z.of_nat (List.length src)) (Z.of_nat (List.length dst)))
    as [Hle|]; [|discriminate].
  cbn in Hm. injection Hm as <-. rewrite Nat2Z.id, Hp. split.
  - rewrite firstn_app_2. f_equal.
    replace (List.length src) with (List.length src + 0)%nat at 1 by lia.
    rewrite firstn_app_2. cbn. apply app_nil_r.
  - rewrite !length_app, length_skipn.
    assert (List.length (firstn (List.length pre) dst) = List.length pre) by (rewrite Hp; reflexivity). lia.
Qed.

Lemma append_empty_l (s : string) : append "" s = s.
Proof. reflexivity. Qed.

Lemma ota_start_msg (N T : Z) :
  0 <= N <= UINT32_MAX -> 0 <= T <= UINT32_MAX ->
  snprintf_trunc 64 (String.concat "" ["OTA_START:"; dec N; ":"; dec T]) =
    append "OTA_START:" (append (dec N) (append ":" (dec T))).
Proof.
  intros HN HT. unfold snprintf_trunc.
  change (String.concat "" ["OTA_START:"; dec N; ":"; dec T]) with
    (append "OTA_START:" (append "" (append (dec N) (append "" (append ":" (append "" (dec T))))))).
  rewrite !append_empty_l. apply substring_all.
  rewrite !length_append_s. pose proof (dec_length_u32 N HN). pose proof (dec_length_u32 T HT).
  cbn [String.length]. cbn. lia.
Qed.

Lemma ota_start_step (now : Z) (ub ue : bool) (r : Node) (N T : Z) :
  0 <= N <= UINT32_MAX -> 0 <= T <= UINT32_MAX ->
  handleLoraOtaPacket now ub ue (append "OTA_START:" (append (dec N) (append ":" (dec T)))) r =
  (tt, set_ota (mkOta true now T (loraOtaBuffer (ota r)) 0 N 0 (otaOutOfBounds (ota r))) r, []).
Proof.
  intros HN HT. unfold handleLoraOtaPacket, bind, get. cbv beta iota zeta.
  rewrite startsWith_start_start, (sscanf_ota_start N T ltac:(lia) ltac:(lia)).
  unfold UINT32_MAX in *. rewrite !Z.mod_small by lia. reflexivity.
Qed.

Lemma ota_end_step (now : Z) (r : Node) (pre : list Z) :
  RecvAt (Z.of_nat (List.length pre)) pre r ->
  events (handleLoraOtaPacket now true true "OTA_END:" r) =
    [EvFlashBegin (Z.of_nat (List.length pre)); EvFlashWrite pre; EvFlashEnd; EvRestart] /\
  loraOtaActive (ota (final (handleLoraOtaPacket now true true "OTA_END:" r))) = false.
Proof.
  intros (Ha & _ & Hbs & Hrs & Hp & He).
  unfold handleLoraOtaPacket, bind, get, emit, modify, ret. cbv beta iota zeta.
  replace (startsWith "OTA_END:" "OTA_START:") with false by reflexivity.
  replace (startsWith "OTA_END:" "OTA_DATA:") with false by reflexivity.
  replace (startsWith "OTA_END:" "OTA_END:") with true by reflexivity.
  rewrite Ha, He, Hrs, Hbs, Z.leb_refl, Nat2Z.id, Hp. split; reflexivity.
Qed.

Lemma forallb_firstn {A} (f : A -> bool) (n : nat) (l : list A) :
  forallb f l = true -> forallb f (firstn n l) = true.
Proof.
  revert l; induction n as [|n IH]; intros [|x l] H; cbn in *; auto.
  apply andb_true_iff in H as [H1 H2]. rewrite H1. cbn. exact (IH l H2).
Qed.

Lemma forallb_skipn {A} (f : A -> bool) (n : nat) (l : list A) :
  forallb f l = true -> forallb f (skipn n l) = true.
Proof.
  revert l; induction n as [|n IH]; intros [|x l] H; cbn in *; auto.
  apply andb_true_iff in H as [_ H2]. exact (IH l H2).
Qed.

Lemma send_chunks_step (f : nat) (k : Z) (rest : list Z) : rest <> [] ->
  send_chunks (S f) k rest =
    (emit (EvTransmit (cstr (append (append "OTA_DATA:" (append (dec k) ":"))
                                    (string_of_bytes (firstn 200 rest))))) ;;;
     send_chunks f (k + 1) (skipn 200 rest)).
Proof. destruct rest; [congruence | reflexivity]. Qed.

Lemma feed_data_step (now : Z) (ub ue : bool) (E : Z) (kc : Z * list Z) (pre : list Z) (r : Node) :
  chunk_ok kc = true -> (List.length pre + List.length (snd kc) < 1024)%nat -> RecvAt E pre r ->
  events (handleLoraOtaPacket now ub ue (data_frame kc) r) = [] /\
  RecvAt E (app pre (snd kc)) (final (handleLoraOtaPacket now ub ue (data_frame kc) r)).
Proof.
  destruct kc as [k C]. unfold chunk_ok, data_frame; cbn [fst snd].
  intros Hok Hl (Ha & Hbl & Hbs & Hrs & Hp & He).
  apply andb_true_iff in Hok as [Hok HC]. apply andb_true_iff in Hok as [Hok H255].
  apply andb_true_iff in Hok as [Hk Hne]. apply Z.leb_le in Hk. apply Nat.leb_le in H255.
  destruct (Nat.eqb_spec (List.length C) 0) as [|Hne']; [discriminate|].
  assert (HbC : bytes_of_string (string_of_bytes C) = C) by (apply bytes_of_string_of_bytes; exact HC).
  assert (HlD : String.length (string_of_bytes C) = List.length C) by apply length_string_of_bytes.
  destruct (memcpy_in_bounds (loraOtaBuffer (ota r)) (bytes_of_string (string_of_bytes C))
              (loraOtaBufferSize (ota r))) as (buf' & Hm & _).
  { lia. }
  { rewrite HbC, Hbs, Hbl. lia. }
  rewrite (ota_data_step now ub ue r k (string_of_bytes C) buf' Ha Hk).
  2: { intros Hn. apply (f_equal String.length) in Hn. rewrite HlD in Hn. cbn in Hn. lia. }
  2: { exact (proj2 (bytes_facts C HC)). }
  2: { lia. }
  2: { rewrite HlD, Hbs. unfold LORA_OTA_BUFFER_SIZE. lia. }
  2: { exact Hm. }
  cbn [events final]. split; [reflexivity|].
  rewrite Hbs, HbC in Hm.
  destruct (memcpy_prefix _ _ _ _ Hm Hp) as [Hp' Hl'].
  unfold RecvAt, set_ota; cbn [ota loraOtaActive loraOtaBuffer loraOtaBufferSize loraOtaReceivedSize loraOtaExpectedSize].
  rewrite length_app, HlD, Hbs, Hrs. unfold u32_add, UINT32.
  repeat split; [congruence | lia | | exact Hp' | exact He].
  rewrite Z.mod_small by lia. lia.
Qed.

Lemma feed_frames (now : Z) (ub ue : bool) (E : Z) (cs : list (Z * list Z)) :
  forall (pre : list Z) (r : Node),
  forallb chunk_ok cs = true ->
  (List.length pre + List.length (List.concat (map snd cs)) < 1024)%nat -> RecvAt E pre r ->
  events (feed now ub ue (map data_frame cs) r) = [] /\
  RecvAt E (app pre (List.concat (map snd cs))) (final (feed now ub ue (map data_frame cs) r)).
Proof.
  induction cs as [|kc cs IH]; intros pre r Hok Hl HR.
  - cbn. rewrite app_nil_r. split; [reflexivity | exact HR].
  - cbn [forallb map List.concat] in *. apply andb_true_iff in Hok as [Hk Hok].
    rewrite length_app in Hl. cbn [feed].
    destruct (seq_events (handleLoraOtaPacket now ub ue (data_frame kc)) (feed now ub ue (map data_frame cs)) r)
      as [E1 F1].
    rewrite E1, F1.
    destruct (feed_data_step now ub ue E kc pre r Hk ltac:(lia) HR) as [E2 R2].
    rewrite E2.
    destruct (IH (app pre (snd kc)) _ Hok ltac:(rewrite length_app; lia) R2) as [E3 R3].
    rewrite E3, <- app_assoc in *. split; [reflexivity | exact R3].
Qed.

(** X11. A receiver with the 1024-byte buffer that gets an [OTA_START] announcing the total size, one [OTA_DATA] frame per chunk (non-empty, at most 255 bytes without NUL or whitespace, total below 1024) and [OTA_END] flashes exactly the concatenated chunks (begin with the total size, write, end, restart) and leaves the session inactive, whatever the state before. *)
Theorem ota_receive_roundtrip (now : Z) (T : Z) (cs : list (Z * list Z)) (r : Node) :
  0 <= T <= UINT32_MAX ->
  forallb chunk_ok cs = true ->
  (List.length (List.concat (map snd cs)) < 1024)%nat ->
  List.length (loraOtaBuffer (ota r)) = 1024%nat ->
  let fw := List.concat (map snd cs) in
  let frames := app (start_frame (Z.of_nat (List.length fw)) T :: map data_frame cs) ["OTA_END:"] in
  events (feed now true true frames r) =
    [EvFlashBegin (Z.of_nat (List.length fw)); EvFlashWrite fw; EvFlashEnd; EvRestart] /\
  loraOtaActive (ota (final (feed now true true frames r))) = false.
Proof.
  intros HT Hok Hl Hbuf fw frames. unfold frames.
  set (N := Z.of_nat (List.length fw)).
  assert (HN : 0 <= N <= UINT32_MAX) by (unfold N, fw, UINT32_MAX, UINT32; lia).
  cbn [app feed].
  destruct (seq_events (handleLoraOtaPacket now true true (start_frame N T))
               (feed now true true (app (map data_frame cs) ["OTA_END:"])) r) as [E1 F1].
  rewrite E1, F1. unfold start_frame. rewrite (ota_start_step now true true r N T HN HT). clear E1 F1.
  cbn [events final app].
  set (r0 := set_ota (mkOta true now T (loraOtaBuffer (ota r)) 0 N 0 (otaOutOfBounds (ota r))) r).
  assert (HR0 : RecvAt N [] r0).
  { unfold RecvAt, r0, set_ota. cbn. repeat split; assumption || reflexivity. }
  destruct (feed_frames now true true N cs [] r0 Hok ltac:(cbn; lia) HR0) as [IE IR].
  destruct (feed_app now true true (map data_frame cs) ["OTA_END:"] r0) as [E2 F2].
  rewrite E2, F2, IE. cbn [app] in *.
  set (r1 := final (feed now true true (map data_frame cs) r0)) in *.
  cbn [feed].
  destruct (seq_events (handleLoraOtaPacket now true true "OTA_END:") (ret tt) r1) as [E3 F3].
  rewrite E3, F3.
  destruct (ota_end_step now r1 fw IR) as [E4 F4].
  rewrite E4. cbn [ret events final app]. split; [reflexivity | exact F4].
Qed.

Lemma ota_receive_roundtrip_witness :
  let cs := [(0, [72; 101; 108; 108; 111]); (7, [87; 111; 114; 108; 100])] in
  let fw := List.concat (map snd cs) in
  let frames := app (start_frame (Z.of_nat (List.length fw)) 30000 :: map data_frame cs) ["OTA_END:"] in
  events (feed 5000 true true frames (set_role false initNode)) =
    [EvFlashBegin (Z.of_nat (List.length fw)); EvFlashWrite fw; EvFlashEnd; EvRestart] /\
  loraOtaActive (ota (final (feed 5000 true true frames (set_role false initNode)))) = false.
Proof.
  apply (ota_receive_roundtrip 5000 30000 [(0, [72; 101; 108; 108; 111]); (7, [87; 111; 114; 108; 100])]
           (set_role false initNode));
    [unfold UINT32_MAX, UINT32; lia | reflexivity | cbn; lia | reflexivity].
Defined.

Lemma feed_cons (now : Z) (ub ue : bool) (m : string) (l : list string) (r : Node) :
  events (feed now ub ue (m :: l) r) =
    app (events (handleLoraOtaPacket now ub ue m r)) (events (feed now ub ue l (final (handleLoraOtaPacket now ub ue m r)))) /\
  final (feed now ub ue (m :: l) r) = final (feed now ub ue l (final (handleLoraOtaPacket now ub ue m r))).
Proof. apply seq_events. Qed.

Lemma send_chunks_events_state (f : nat) : forall k l s s',
  events (send_chunks f k l s) = events (send_chunks f k l s') /\ final (send_chunks f k l s) = s.
Proof.
  induction f as [|f IH]; intros k [|x l] s s'; try (split; reflexivity).
  rewrite !send_chunks_step by congruence.
  destruct (seq_events (emit (EvTransmit (cstr (append (append "OTA_DATA:" (append (dec k) ":"))
              (string_of_bytes (firstn 200 (x :: l))))))) (send_chunks f (k + 1) (skipn 200 (x :: l))) s) as [E1 F1].
  destruct (seq_events (emit (EvTransmit (cstr (append (append "OTA_DATA:" (append (dec k) ":"))
              (string_of_bytes (firstn 200 (x :: l))))))) (send_chunks f (k + 1) (skipn 200 (x :: l))) s') as [E2 F2].
  rewrite E1, F1, E2. cbn [final events emit].
  destruct (IH (k + 1) (skipn 200 (x :: l)) s s') as [E3 F3]. split; [congruence | exact F3].
Qed.

Lemma sendLoraOtaUpdate_events (fw : list Z) (s : Node) :
  isSender s = false ->
  events (sendLoraOtaUpdate fw s) =
    EvTransmit (snprintf_trunc 64 (String.concat ""
          ["OTA_START:"; dec (Z.of_nat (List.length fw)); ":"; dec (loraOtaTimeout (ota s))]))
    :: app (events (send_chunks (List.length fw) 0 fw initNode)) [EvTransmit "OTA_END:"].
Proof.
  intros Hs. unfold sendLoraOtaUpdate. rewrite (proj1 (get_events _ s)), Hs. cbv beta iota.
  rewrite (proj1 (seq_events _ _ s)). cbn [final events emit].
  rewrite (proj1 (seq_events _ _ s)).
  destruct (send_chunks_events_state (List.length fw) 0 fw s initNode) as [E F].
  rewrite E, F. reflexivity.
Qed.

Lemma ota_end_short_step (now : Z) (ub ue : bool) (r : Node) (E : Z) (pre : list Z) :
  RecvAt E pre r -> Z.of_nat (List.length pre) < E ->
  events (handleLoraOtaPacket now ub ue "OTA_END:" r) = [] /\
  loraOtaActive (ota (final (handleLoraOtaPacket now ub ue "OTA_END:" r))) = false.
Proof.
  intros (Ha & _ & Hbs & Hrs & Hp & He) Hlt.
  unfold handleLoraOtaPacket, bind, get, emit, modify, ret. cbv beta iota zeta.
  replace (startsWith "OTA_END:" "OTA_START:") with false by reflexivity.
  replace (startsWith "OTA_END:" "OTA_DATA:") with false by reflexivity.
  replace (startsWith "OTA_END:" "OTA_END:") with true by reflexivity.
  rewrite Ha, He, Hrs. destruct (Z.leb_spec E (Z.of_nat (List.length pre))); [lia|]. split; reflexivity.
Qed.

(** X13. The 32-byte image stored by [storeCurrentFirmware] and sent by [sendLoraOtaUpdate] is never flashed by a node receiving those frames: its [OTA_DATA] frame is cut at the first NUL byte of the image, so fewer bytes arrive than announced, and [OTA_END] only closes the session. *)
Theorem stored_firmware_never_flashed (now : Z) (ub ue : bool) (s r : Node) :
  isSender s = false ->
  0 <= loraOtaTimeout (ota s) <= UINT32_MAX ->
  List.length (loraOtaBuffer (ota r)) = 1024%nat ->
  let s' := final (storeCurrentFirmware s) in
  let frames := transmitted (events (sendLoraOtaUpdate (storedFirmware s') s')) in
  hasStoredFirmware s' = true /\ List.length (storedFirmware s') = 32%nat /\
  events (feed now ub ue frames r) = [] /\
  loraOtaActive (ota (final (feed now ub ue frames r))) = false.
Proof.
  intros Hs HT Hbuf s' frames.
  assert (Hs' : s' = set_storedFirmware (app (bytes_of_string firmwareHeader) dummyFirmware) true s).
  { unfold s', storeCurrentFirmware. rewrite (proj2 (get_events _ s)), Hs. reflexivity. }
  unfold frames. rewrite Hs'.
  set (FW := app (bytes_of_string firmwareHeader) dummyFirmware).
  set (s1 := set_storedFirmware FW true s).
  change (storedFirmware s1) with FW. change (hasStoredFirmware s1) with true.
  rewrite (sendLoraOtaUpdate_events FW s1 Hs).
  change (loraOtaTimeout (ota s1)) with (loraOtaTimeout (ota s)).
  set (T := loraOtaTimeout (ota s)).
  assert (HL : List.length FW = 32%nat) by reflexivity.
  rewrite HL.
  assert (HC : events (send_chunks 32 0 FW initNode) =
                 [EvTransmit (data_frame (0, firstn 22 FW))]) by (vm_compute; reflexivity).
  rewrite HC. change (Z.of_nat 32) with 32.
  rewrite (ota_start_msg 32 T ltac:(unfold UINT32_MAX, UINT32; lia) HT).
  change (transmitted (EvTransmit (append "OTA_START:" (append (dec 32) (append ":" (dec T))))
            :: app [EvTransmit (data_frame (0, firstn 22 FW))] [EvTransmit "OTA_END:"]))
    with [start_frame 32 T; data_frame (0, firstn 22 FW); "OTA_END:"].
  split; [reflexivity|]. split; [exact HL|].
  destruct (feed_cons now ub ue (start_frame 32 T) [data_frame (0, firstn 22 FW); "OTA_END:"] r) as [E1 F1].
  rewrite E1, F1. unfold start_frame.
  rewrite (ota_start_step now ub ue r 32 T ltac:(unfold UINT32_MAX, UINT32; lia) HT). cbn [events final app].
  set (r0 := set_ota (mkOta true now T (loraOtaBuffer (ota r)) 0 32 0 (otaOutOfBounds (ota r))) r).
  assert (HR0 : RecvAt 32 [] r0).
  { unfold RecvAt, r0, set_ota. cbn. repeat split; assumption || reflexivity. }
  destruct (feed_cons now ub ue (data_frame (0, firstn 22 FW)) ["OTA_END:"] r0) as [E2 F2].
  rewrite E2, F2.
  destruct (feed_data_step now ub ue 32 (0, firstn 22 FW) [] r0 ltac:(vm_compute; reflexivity)
              ltac:(cbn; lia) HR0) as [E3 R3].
  rewrite E3. cbn [app snd] in R3 |- *.
  set (r1 := final (handleLoraOtaPacket now ub ue (data_frame (0, firstn 22 FW)) r0)) in *.
  destruct (feed_cons now ub ue "OTA_END:" [] r1) as [E4 F4].
  rewrite E4, F4.
  destruct (ota_end_short_step now ub ue r1 32 (firstn 22 FW) R3 ltac:(cbn; lia)) as [E5 F5].
  rewrite E5. cbn [feed ret events final app]. split; [reflexivity | exact F5].
Qed.

Lemma dec_neg (n : Z) : n < 0 -> dec n = String "-" (dec (- n)).
Proof.
  intros Hn. unfold dec at 1. destruct (Z.ltb_spec n 0); [|lia].
  unfold dec. destruct (Z.ltb_spec (- n) 0); [lia|]. reflexivity.
Qed.

Lemma dec_nonempty (n : Z) : exists c r, dec n = String c r.
Proof.
  destruct (Z_lt_le_dec n 0) as [H|H].
  - rewrite (dec_neg n H). eauto.
  - destruct (dec_head n H) as (c & r & E & _). eauto.
Qed.

Lemma read_int_dec_Z (n : Z) (rest : string) :
  stops_digits rest = true -> read_int (append (dec n) rest) = Some (n, rest).
Proof.
  intros Hs. destruct (Z_lt_le_dec n 0) as [H|H]; [|apply read_int_dec; assumption].
  rewrite (dec_neg n H). cbn [append]. unfold read_int. cbn [read_sign].
  destruct (dec_props (- n) ltac:(lia)) as (_ & B & _ & E).
  rewrite E, read_digits_stop by exact Hs.
  destruct (String.length (dec (- n))) as [|m] eqn:Hl; [lia|]. cbn -[Z.mul].
  f_equal. f_equal. lia.
Qed.

Lemma skip_ws_dec (n : Z) (X : string) : skip_ws (append (dec n) X) = append (dec n) X.
Proof.
  destruct (Z_lt_le_dec n 0) as [H|H].
  - rewrite (dec_neg n H). reflexivity.
  - destruct (dec_head n H) as (c & r & E & Hc & _). rewrite E. cbn [append].
    apply skip_ws_digit. exact Hc.
Qed.

Lemma scan_DD_int (ds : list Dir) (v : Z) (rest : string) (n : Z) (acc : list SVal) :
  stops_digits rest = true ->
  scan (DD :: ds) (append (dec v) rest) n acc = scan ds rest (n + 1) (SD v :: acc).
Proof.
  intros Hs. pose proof (read_int_dec_Z v rest Hs) as Hr. pose proof (skip_ws_dec v rest) as Hw.
  destruct (dec_nonempty v) as (c & r & Hd).
  rewrite Hd in Hr, Hw |- *. cbn [append] in Hr, Hw |- *.
  cbn [scan]. rewrite Hw, Hr. reflexivity.
Qed.

Lemma dec_length_1 (d : Z) : 0 <= d < 10 -> String.length (dec d) = 1%nat.
Proof.
  intros Hd. destruct (dec_props d ltac:(lia)) as (_ & B & C & _).
  specialize (C 1%nat ltac:(lia) ltac:(cbn; lia)). lia.
Qed.

Lemma read_float_fixed1 (a d : Z) (rest : string) :
  0 <= a -> 0 <= d < 10 -> stops_digits rest = true ->
  read_float (append (dec a) (String "." (append (dec d) rest))) =
    Some (Qred (inject_Z 1 * (inject_Z a + (d # Z.to_pos (10 ^ Z.of_nat 1))))%Q, rest).
Proof.
  intros Ha Hd Hs. unfold read_float.
  destruct (dec_head a Ha) as (c & r & Hdc & Hc & _).
  destruct (dec_props a Ha) as (_ & Ba & _ & Ea).
  destruct (dec_props d ltac:(lia)) as (_ & _ & _ & Ed).
  pose proof (dec_length_1 d Hd) as Ld.
  rewrite Hdc. cbn [append]. rewrite (read_sign_digit c _ Hc).
  change (String c (append r (String "." (append (dec d) rest)))) with
    (append (String c r) (String "." (append (dec d) rest))).
  rewrite <- Hdc, Ea, read_digits_stop by reflexivity.
  rewrite Ed, read_digits_stop by exact Hs. rewrite Ld.
  destruct (String.length (dec a)) as [|la] eqn:Hla; [lia|].
  cbn -[Z.mul Z.pow Qred inject_Z Qmult Qplus].
  rewrite !Z.mul_0_l, !Z.add_0_l. reflexivity.
Qed.

Lemma read_float_int (b : Z) (Y : string) :
  0 <= b ->
  read_float (append (dec b) (String " " Y)) =
    Some (Qred (inject_Z 1 * (inject_Z b + (0 # Z.to_pos (10 ^ Z.of_nat 0))))%Q, String " " Y).
Proof.
  intros Hb. unfold read_float.
  destruct (dec_head b Hb) as (c & r & Hdc & Hc & _).
  destruct (dec_props b Hb) as (_ & Bb & _ & Eb).
  rewrite Hdc. cbn [append]. rewrite (read_sign_digit c _ Hc).
  change (String c (append r (String " " Y))) with (append (String c r) (String " " Y)).
  rewrite <- Hdc, Eb, read_digits_stop by reflexivity.
  destruct (String.length (dec b)) as [|lb] eqn:Hlb; [lia|].
  cbn -[Z.mul Z.pow Qred inject_Z Qmult Qplus].
  rewrite Z.mul_0_l, Z.add_0_l. reflexivity.
Qed.

Lemma scan_DF_fixed1 (ds : list Dir) (a d : Z) (rest : string) (n : Z) (acc : list SVal) :
  0 <= a -> 0 <= d < 10 -> stops_digits rest = true ->
  scan (DF :: ds) (append (dec a) (String "." (append (dec d) rest))) n acc =
  scan ds rest (n + 1) (SFl (Qred (inject_Z 1 * (inject_Z a + (d # Z.to_pos (10 ^ Z.of_nat 1)))))%Q :: acc).
Proof.
  intros Ha Hd Hs. pose proof (read_float_fixed1 a d rest Ha Hd Hs) as Hr.
  pose proof (skip_ws_dec a (String "." (append (dec d) rest))) as Hw.
  destruct (dec_nonempty a) as (c & r & Hdc).
  rewrite Hdc in Hr, Hw |- *. cbn [append] in Hr, Hw |- *.
  cbn [scan]. rewrite Hw, Hr. reflexivity.
Qed.

Lemma scan_DF_int (ds : list Dir) (b : Z) (Y : string) (n : Z) (acc : list SVal) :
  0 <= b ->
  scan (DF :: ds) (append (dec b) (String " " Y)) n acc =
  scan ds (String " " Y) (n + 1) (SFl (Qred (inject_Z 1 * (inject_Z b + (0 # Z.to_pos (10 ^ Z.of_nat 0)))))%Q :: acc).
Proof.
  intros Hb. pose proof (read_float_int b Y Hb) as Hr.
  pose proof (skip_ws_dec b (String " " Y)) as Hw.
  destruct (dec_nonempty b) as (c & r & Hdc).
  rewrite Hdc in Hr, Hw |- *. cbn [append] in Hr, Hw |- *.
  cbn [scan]. rewrite Hw, Hr. reflexivity.
Qed.

Lemma Qlt_bool_nonneg (x : Q) : (0 <= x)%Q -> Qlt_bool x 0 = false.
Proof. intros H. unfold Qlt_bool. apply Qle_bool_iff in H. rewrite H. reflexivity. Qed.

Lemma pad_zero_1 (d : Z) : 0 <= d < 10 -> pad_zero 1 (dec d) = dec d.
Proof. intros Hd. unfold pad_zero. rewrite (dec_length_1 d Hd). reflexivity. Qed.

Lemma fmt_fixed_1 (x : Q) : (0 <= x)%Q -> 0 <= round_half_even (x * inject_Z 10) ->
  fmt_fixed 1 x =
    append (dec (round_half_even (x * inject_Z 10) / 10))
      (String "." (dec (round_half_even (x * inject_Z 10) mod 10))).
Proof.
  intros Hx Hm. unfold fmt_fixed. rewrite (Qlt_bool_nonneg x Hx).
  change (10 ^ Z.of_nat 1) with 10. cbv beta iota zeta.
  rewrite pad_zero_1 by (apply Z.mod_pos_bound; lia). reflexivity.
Qed.

Lemma fmt_fixed_0 (x : Q) : (0 <= x)%Q ->
  fmt_fixed 0 x = dec (round_half_even (x * inject_Z 1)).
Proof.
  intros Hx. unfold fmt_fixed. rewrite (Qlt_bool_nonneg x Hx). reflexivity.
Qed.

Lemma round_half_even_nonneg (y : Q) : (0 <= y)%Q -> 0 <= round_half_even y.
Proof.
  intros Hy. assert (Hf : 0 <= Qfloor y).
  { change 0 with (Qfloor 0). apply Qfloor_resp_le. exact Hy. }
  unfold round_half_even. cbv zeta.
  destruct (Qlt_bool _ _); [lia|]. destruct (Qlt_bool _ _); [lia|]. destruct (Z.even _); lia.
Qed.

Lemma dec_length_small (v : Z) : -10 ^ 4 < v < 10 ^ 4 -> (String.length (dec v) <= 5)%nat.
Proof.
  intros Hv. destruct (Z_lt_le_dec v 0) as [H|H].
  - rewrite (dec_neg v H). cbn [String.length].
    destruct (dec_props (- v) ltac:(lia)) as (_ & _ & C & _).
    specialize (C 4%nat ltac:(lia) ltac:(cbn in *; lia)). lia.
  - destruct (dec_props v H) as (_ & _ & C & _).
    specialize (C 4%nat ltac:(lia) ltac:(cbn in *; lia)). lia.
Qed.

Lemma dec_length_le (v : Z) (j : nat) : 0 <= v < 10 ^ Z.of_nat j -> (1 <= j)%nat ->
  (String.length (dec v) <= j)%nat.
Proof.
  intros Hv Hj. destruct (dec_props v ltac:(lia)) as (_ & _ & C & _). apply C; lia.
Qed.

Lemma parse_fmt_cfg :
  parse_fmt CFG_FMT =
  app (map DLit (list_ascii_of_string "CFG")) (DWs :: app (map DLit (list_ascii_of_string "F="))
  (DF :: DWs :: app (map DLit (list_ascii_of_string "BW="))
  (DF :: DWs :: app (map DLit (list_ascii_of_string "SF="))
  (DD :: DWs :: app (map DLit (list_ascii_of_string "CR="))
  (DD :: DWs :: app (map DLit (list_ascii_of_string "TX=")) [DD]))))).
Proof. reflexivity. Qed.

Lemma scan_ws_lits (c : ascii) (p' : string) (ds : list Dir) (X : string) (n : Z) (acc : list SVal) :
  is_space c = false ->
  scan (DWs :: app (map DLit (list_ascii_of_string (String c p'))) ds) (String " " (append (String c p') X)) n acc =
  scan ds X n acc.
Proof.
  intros Hc. rewrite scan_ws.
  replace (skip_ws (String " " (append (String c p') X))) with (append (String c p') X).
  - apply scan_lits.
  - cbn [skip_ws append]. change (is_space " ") with true. cbv iota. rewrite Hc. reflexivity.
Qed.

Lemma cfg_msg_parse (p q : Params) :
  (0 <= freq p)%Q -> (0 <= bw p)%Q ->
  round_half_even (freq p * inject_Z 10) < 10 ^ 6 ->
  round_half_even (bw p * inject_Z 1) < 10 ^ 6 ->
  -10 ^ 4 < sf p < 10 ^ 4 -> -10 ^ 4 < cr p < 10 ^ 4 -> -10 ^ 4 < txp p < 10 ^ 4 ->
  fst (parse_cfg (cfg_msg p) q) = 5 /\
  (freq (snd (parse_cfg (cfg_msg p) q)) == round_half_even (freq p * inject_Z 10) # 10)%Q /\
  (bw (snd (parse_cfg (cfg_msg p) q)) == inject_Z (round_half_even (bw p * inject_Z 1)))%Q /\
  sf (snd (parse_cfg (cfg_msg p) q)) = sf p /\
  cr (snd (parse_cfg (cfg_msg p) q)) = cr p /\
  txp (snd (parse_cfg (cfg_msg p) q)) = txp p.
Proof.
  intros Hf Hb Hmf Hmb HS HC HT.
  set (mf := round_half_even (freq p * inject_Z 10)) in *.
  set (mb := round_half_even (bw p * inject_Z 1)) in *.
  assert (Hmf0 : 0 <= mf) by (apply round_half_even_nonneg; apply Qmult_le_0_compat; [exact Hf | discriminate]).
  assert (Hmb0 : 0 <= mb) by (apply round_half_even_nonneg; apply Qmult_le_0_compat; [exact Hb | discriminate]).
  set (a := mf / 10). set (d := mf mod 10).
  assert (Ha : 0 <= a < 10 ^ 5) by (unfold a; split; [apply Z.div_pos; lia | apply Z.div_lt_upper_bound; lia]).
  assert (Hd : 0 <= d < 10) by (unfold d; apply Z.mod_pos_bound; lia).
  set (TGT := append "CFG" (String " " (append "F=" (append (dec a) (String "." (append (dec d)
                (String " " (append "BW=" (append (dec mb) (String " " (append "SF=" (append (dec (sf p))
                (String " " (append "CR=" (append (dec (cr p)) (String " " (append "TX=" (dec (txp p))))))))))))))))))).
  assert (Hcat : String.concat "" ["CFG F="; fmt_fixed 1 (freq p); " BW="; fmt_fixed 0 (bw p);
                       " SF="; dec (sf p); " CR="; dec (cr p); " TX="; dec (txp p)] = TGT).
  { rewrite (fmt_fixed_1 (freq p) Hf Hmf0), (fmt_fixed_0 (bw p) Hb). fold mf mb a d.
    cbn [String.concat]. rewrite !append_assoc_s. reflexivity. }
  assert (Hmsg : cfg_msg p = TGT).
  { unfold cfg_msg, snprintf_trunc. rewrite Hcat. apply substring_all.
    pose proof (dec_length_le a 5 ltac:(cbn in *; lia) ltac:(lia)).
    pose proof (dec_length_1 d Hd).
    pose proof (dec_length_le mb 6 ltac:(cbn in *; lia) ltac:(lia)).
    pose proof (dec_length_small (sf p) HS). pose proof (dec_length_small (cr p) HC).
    pose proof (dec_length_small (txp p) HT).
    unfold TGT. repeat (rewrite ?length_append_s; cbn [String.length]). lia. }
  unfold parse_cfg, sscanf. rewrite Hmsg, parse_fmt_cfg. unfold TGT.
  rewrite scan_lits, scan_ws_lits by reflexivity.
  rewrite scan_DF_fixed1 by (try reflexivity; lia).
  rewrite scan_ws_lits by reflexivity.
  rewrite scan_DF_int by lia.
  rewrite scan_ws_lits by reflexivity.
  rewrite scan_DD_int by reflexivity.
  rewrite scan_ws_lits by reflexivity.
  rewrite scan_DD_int by reflexivity.
  rewrite scan_ws_lits by reflexivity.
  rewrite <- (append_empty_r (dec (txp p))), scan_DD_int by reflexivity.
  cbn [scan scan_end rev app fst snd cfg_assign nth_error freq bw sf cr txp].
  split; [reflexivity|]. split.
  { rewrite Qred_correct. unfold Qeq. cbn [Qnum Qden Qmult Qplus inject_Z].
    change (Z.to_pos (10 ^ Z.of_nat 1)) with 10%positive.
    unfold d, a. pose proof (Z.div_mod mf 10 ltac:(lia)). lia. }
  split.
  { rewrite Qred_correct. unfold Qeq. cbn [Qnum Qden Qmult Qplus inject_Z]. change (Z.to_pos (10 ^ Z.of_nat 0)) with 1%positive. lia. }
  auto.
Qed.

(** X7. For non-negative frequency and bandwidth and small integer fields, parsing the CFG message formatted from parameters p matches all five fields and yields the frequency rounded to one decimal, the bandwidth rounded to an integer (both half to even), and SF, CR and TX unchanged. *)
Theorem cfg_msg_roundtrip (p q : Params) :
  (0 <= freq p)%Q -> (0 <= bw p)%Q ->
  round_half_even (freq p * inject_Z 10) < 10 ^ 6 ->
  round_half_even (bw p * inject_Z 1) < 10 ^ 6 ->
  -10 ^ 4 < sf p < 10 ^ 4 -> -10 ^ 4 < cr p < 10 ^ 4 -> -10 ^ 4 < txp p < 10 ^ 4 ->
  fst (parse_cfg (cfg_msg p) q) = 5 /\
  (freq (snd (parse_cfg (cfg_msg p) q)) == round_half_even (freq p * inject_Z 10) # 10)%Q /\
  (bw (snd (parse_cfg (cfg_msg p) q)) == inject_Z (round_half_even (bw p * inject_Z 1)))%Q /\
  sf (snd (parse_cfg (cfg_msg p) q)) = sf p /\
  cr (snd (parse_cfg (cfg_msg p) q)) = cr p /\
  txp (snd (parse_cfg (cfg_msg p) q)) = txp p.
Proof. exact (cfg_msg_parse p q). Qed.

Lemma cfg_msg_roundtrip_witness :
  let p := mkParams (86815 # 100) (125 # 2) 12 8 (-3) in
  fst (parse_cfg (cfg_msg p) defaultParams) = 5 /\
  (freq (snd (parse_cfg (cfg_msg p) defaultParams)) == round_half_even (freq p * inject_Z 10) # 10)%Q /\
  (bw (snd (parse_cfg (cfg_msg p) defaultParams)) == inject_Z (round_half_even (bw p * inject_Z 1)))%Q /\
  sf (snd (parse_cfg (cfg_msg p) defaultParams)) = sf p /\
  cr (snd (parse_cfg (cfg_msg p) defaultParams)) = cr p /\
  txp (snd (parse_cfg (cfg_msg p) defaultParams)) = txp p.
Proof.
  apply (cfg_msg_roundtrip (mkParams (86815 # 100) (125 # 2) 12 8 (-3)) defaultParams);
    cbn [freq bw sf cr txp]; try (vm_compute; reflexivity); try (vm_compute; discriminate); lia.
Defined.

Lemma round_half_even_int (y : Q) (z : Z) : (y == inject_Z z)%Q -> round_half_even y = z.
Proof.
  intros H. unfold round_half_even.
  assert (Hf : Qfloor y = z).
  { apply Z.le_antisymm.
    - rewrite <- (Qfloor_Z z). apply Qfloor_resp_le. rewrite H. apply Qle_refl.
    - rewrite <- (Qfloor_Z z). apply Qfloor_resp_le. rewrite H. apply Qle_refl. }
  rewrite Hf. cbv zeta.
  assert (Hr : Qlt_bool (y - inject_Z z) (1 # 2) = true).
  { unfold Qlt_bool. destruct (Qle_bool (1 # 2) (y - inject_Z z)) eqn:E; [|reflexivity].
    apply Qle_bool_iff in E. rewrite H in E. unfold Qminus in E. rewrite Qplus_opp_r in E.
    unfold Qle in E; cbn in E; lia. }
  rewrite Hr. reflexivity.
Qed.

Lemma find_index_Qeq (tbl : list Q) (x y : Q) (i : nat) :
  (x == y)%Q -> find_index Qeq_bool tbl x i = find_index Qeq_bool tbl y i.
Proof.
  intros H. revert i. induction tbl as [|v tbl IH]; intros i; cbn; [reflexivity|].
  destruct (Qeq_bool v x) eqn:E1; destruct (Qeq_bool v y) eqn:E2; auto.
  - apply Qeq_bool_iff in E1. apply Qeq_bool_neq in E2. exfalso. apply E2. rewrite E1. exact H.
  - apply Qeq_bool_iff in E2. apply Qeq_bool_neq in E1. exfalso. apply E1. rewrite E2. symmetry. exact H.
Qed.

Lemma processRx_cfg_start (w : bool) (now : Z) (ub ue : bool) (p : Params) (s : Node) :
  processRx w now ub ue (cfg_msg p) s =
  (x <- get ;; (let '(parsed, p') := parse_cfg (cfg_msg p) (cur x) in
                if parsed =? 5 then commitParams p' ;;; updateRadioSettings ;;; savePersistedSettings
                else ret tt)) s.
Proof.
  unfold processRx. replace (startsWith (cfg_msg p) "CFG ") with true by reflexivity. reflexivity.
Qed.

(** X8. A receiver that gets a CFG frame built from a frequency with one decimal, an integer bandwidth and small integer fields commits exactly those values, re-derives the indices from them, and issues one radio update and one settings save, in that order. *)
Theorem receiver_commits_cfg (w : bool) (now : Z) (ub ue : bool) (F B S C T : Z) (s : Node) :
  0 <= F < 10 ^ 6 -> 0 <= B < 10 ^ 6 ->
  -10 ^ 4 < S < 10 ^ 4 -> -10 ^ 4 < C < 10 ^ 4 -> -10 ^ 4 < T < 10 ^ 4 ->
  let p := mkParams (F # 10) (inject_Z B) S C T in
  exists p',
    events (processRx w now ub ue (cfg_msg p) s) = [EvUpdateRadio p'; EvSaveSettings p'] /\
    cur (final (processRx w now ub ue (cfg_msg p) s)) = p' /\
    idx (final (processRx w now ub ue (cfg_msg p) s)) = computeIndices p (idx s) /\
    (freq p' == freq p)%Q /\ (bw p' == bw p)%Q /\ sf p' = S /\ cr p' = C /\ txp p' = T.
Proof.
  intros HF HB HS HC HT p.
  assert (EF : round_half_even (freq p * inject_Z 10) = F).
  { apply round_half_even_int. unfold p, Qeq; cbn. lia. }
  assert (EB : round_half_even (bw p * inject_Z 1) = B).
  { apply round_half_even_int. unfold p. rewrite Qmult_1_r. apply Qeq_refl. }
  destruct (cfg_msg_parse p (cur s)) as (P1 & P2 & P3 & P4 & P5 & P6);
    [unfold p; cbn [freq]; unfold Qle; cbn; lia | unfold p; cbn [bw]; unfold Qle; cbn; lia
    | lia | lia | exact HS | exact HC | exact HT |].
  rewrite EF in P2. rewrite EB in P3.
  rewrite processRx_cfg_start.
  destruct (parse_cfg (cfg_msg p) (cur s)) as [n p'] eqn:Hp. cbn [fst snd] in *. subst n.
  exists p'.
  pose proof (get_events (fun x => let '(parsed, p'0) := parse_cfg (cfg_msg p) (cur x) in
                if parsed =? 5 then commitParams p'0 ;;; updateRadioSettings ;;; savePersistedSettings
                else ret tt) s) as [E F0].
  rewrite E, F0. cbv beta. rewrite Hp. cbn [Z.eqb].
  assert (Hix : computeIndices p' (idx s) = computeIndices p (idx s)).
  { unfold computeIndices. rewrite P4, P6. rewrite (find_index_Qeq bwValues (bw p') (bw p) 0 P3). reflexivity. }
  unfold commitParams, updateRadioSettings, savePersistedSettings, bind, get, modify, emit, events, final.
  cbn. repeat split; auto.
Qed.

Lemma receiver_commits_cfg_witness :
  let p := mkParams (8683 # 10) (inject_Z 250) 10 6 14 in
  exists p',
    events (processRx true 0 true true (cfg_msg p) (set_role false initNode)) = [EvUpdateRadio p'; EvSaveSettings p'] /\
    cur (final (processRx true 0 true true (cfg_msg p) (set_role false initNode))) = p' /\
    idx (final (processRx true 0 true true (cfg_msg p) (set_role false initNode))) = computeIndices p (idx (set_role false initNode)) /\
    (freq p' == freq p)%Q /\ (bw p' == bw p)%Q /\ sf p' = 10 /\ cr p' = 6 /\ txp p' = 14.
Proof. apply (receiver_commits_cfg true 0 true true 8683 250 10 6 14 (set_role false initNode)); lia. Defined.

Lemma load_after_saveSettings (st : Prefs) (p d : Params) (r : bool) :
  loadPersistedSettingsAndRole (prefs_saveSettings p st) d r =
    (p, snd (loadPersistedSettingsAndRole st d r)).
Proof. destruct p. reflexivity. Qed.

Lemma load_after_saveRole (st : Prefs) (b : bool) (d : Params) (r : bool) :
  loadPersistedSettingsAndRole (prefs_saveRole b st) d r =
    (fst (loadPersistedSettingsAndRole st d r), b).
Proof. reflexivity. Qed.

(** X4. Loading after [savePersistedSettings] returns the saved parameters and keeps the role of the earlier store; loading after [savePersistedRole] returns the saved role and keeps the parameters; loading after both returns both; loading an empty store returns the defaults. *)
Theorem prefs_save_load (st : Prefs) (p d : Params) (b r : bool) :
  loadPersistedSettingsAndRole (prefs_saveSettings p st) d r = (p, snd (loadPersistedSettingsAndRole st d r)) /\
  loadPersistedSettingsAndRole (prefs_saveRole b st) d r = (fst (loadPersistedSettingsAndRole st d r), b) /\
  loadPersistedSettingsAndRole (prefs_saveRole b (prefs_saveSettings p st)) d r = (p, b) /\
  loadPersistedSettingsAndRole [] d r = (d, r).
Proof.
  split; [apply load_after_saveSettings|]. split; [apply load_after_saveRole|].
  split; [rewrite load_after_saveRole, load_after_saveSettings; reflexivity|].
  destruct d. reflexivity.
Qed.

Lemma apply_saves_app (l1 l2 : list Event) (st : Prefs) :
  apply_saves (app l1 l2) st = apply_saves l2 (apply_saves l1 st).
Proof.
  revert st; induction l1 as [|e l1 IH]; intros st; [reflexivity|].
  destruct e; cbn; apply IH.
Qed.

Lemma sk_ret {A} (a : A) : SKeeps (ret a).
Proof. intros r0 st s H. exact H. Qed.

Lemma sk_emit (e : Event) : is_save e = false -> SKeeps (emit e).
Proof. intros He r0 st s H. destruct e; try discriminate; exact H. Qed.

Lemma sk_modify (f : Node -> Node) :
  (forall s, cur (f s) = cur s /\ isSender (f s) = isSender s) -> SKeeps (modify f).
Proof.
  intros Hf r0 st s H. unfold Synced in *. cbn. destruct (Hf s) as [E1 E2]. rewrite E1, E2. exact H.
Qed.

Lemma sk_bind {A B} (m : St A) (k : A -> St B) :
  SKeeps m -> (forall a, SKeeps (k a)) -> SKeeps (bind m k).
Proof.
  intros Hm Hk r0 st s H. unfold bind, events, final in *.
  specialize (Hm r0 st s H). destruct (m s) as [[a s1] l1].
  specialize (Hk a r0 _ s1 Hm). destruct (k a s1) as [[b s2] l2].
  rewrite apply_saves_app. exact Hk.
Qed.

Lemma sk_get_bind {B} (k : Node -> St B) : (forall a, SKeeps (k a)) -> SKeeps (bind get k).
Proof.
  intros Hk r0 st s H. unfold bind, get, events, final in *.
  specialize (Hk s r0 st s H). destruct (k s s) as [[b s2] l2]. exact Hk.
Qed.

Lemma sk_settings_block_k {B} (f : Node -> Node) (K : St B) :
  (forall s, isSender (f s) = isSender s) -> SKeeps K ->
  SKeeps (modify f ;;; updateRadioSettings ;;; savePersistedSettings ;;; K).
Proof.
  intros Hf HK r0 st s H. unfold bind at 1, modify, events, final.
  unfold updateRadioSettings, savePersistedSettings, bind, get, emit.
  specialize (HK r0 (prefs_saveSettings (cur (f s)) st) (f s)).
  destruct (K (f s)) as [[b s2] l2]. cbn [app apply_saves] in *.
  apply HK. unfold Synced in *. rewrite load_after_saveSettings, H, Hf. reflexivity.
Qed.

Lemma sk_settings_block (f : Node -> Node) :
  (forall s, isSender (f s) = isSender s) ->
  SKeeps (modify f ;;; updateRadioSettings ;;; savePersistedSettings).
Proof.
  intros Hf r0 st s H. cbv [bind modify events final updateRadioSettings savePersistedSettings get emit].
  cbn [app apply_saves]. unfold Synced in *. rewrite load_after_saveSettings, H, Hf. reflexivity.
Qed.

Lemma sk_role_block (f : Node -> Node) :
  (forall s, cur (f s) = cur s) -> SKeeps (modify f ;;; savePersistedRole).
Proof.
  intros Hf r0 st s H. cbv [bind modify events final savePersistedRole get emit].
  cbn [app apply_saves]. unfold Synced in *. rewrite load_after_saveRole, H, Hf. reflexivity.
Qed.

Lemma sk_send_chunks (fuel : nat) : forall n rest, SKeeps (send_chunks fuel n rest).
Proof.
  induction fuel as [|f IH]; intros n rest; cbn.
  - apply sk_ret.
  - destruct rest as [|x r].
    + apply sk_ret.
    + apply sk_bind; [apply sk_emit; reflexivity | intros; apply IH].
Qed.

Ltac sk_step :=
  match goal with
  | |- SKeeps (bind (modify _) (fun _ => bind updateRadioSettings (fun _ => savePersistedSettings))) =>
      apply sk_settings_block; intros ?s; reflexivity
  | |- SKeeps (bind (modify _) (fun _ => bind updateRadioSettings (fun _ => bind savePersistedSettings _))) =>
      apply sk_settings_block_k; [intros ?s; reflexivity |]
  | |- SKeeps (bind (modify _) (fun _ => savePersistedRole)) =>
      apply sk_role_block; intros ?s; reflexivity
  | |- SKeeps (bind get _) => apply sk_get_bind; intros ?a
  | |- SKeeps (bind _ _) => apply sk_bind; [| intros ?]
  | |- SKeeps (modify _) => apply sk_modify; intros ?s; split; reflexivity
  | |- SKeeps (emit _) => apply sk_emit; reflexivity
  | |- SKeeps (ret _) => apply sk_ret
  | |- SKeeps (send_chunks _ _ _) => apply sk_send_chunks
  | |- SKeeps (if ?c then _ else _) => destruct c eqn:?
  | |- SKeeps (match ?x with _ => _ end) => destruct x eqn:?
  | |- SKeeps (let '(_, _) := ?x in _) => destruct x eqn:?
  end.

Lemma loop_step_SKeeps (w : bool) (i : Input) : SKeeps (loop_step w i).
Proof.
  unfold loop_step, updateButton, onRelease, senderStep, receiverStep, processRx,
    handleLoraOtaPacket, checkLoraOtaTimeout, sendLoraOtaUpdate, startConfigBroadcast, commitParams.
  repeat sk_step.
Qed.

(** X6. If loading the store gives the node's live parameters and role, this remains true after any sequence of loop iterations once the store has applied the saves the iterations issued. *)
Theorem persisted_settings_match_live (w role0 : bool) (ins : list Input) (s : Node) (st : Prefs) :
  Synced role0 st s ->
  Synced role0 (apply_saves (map snd (snd (run w ins s))) st) (fst (run w ins s)).
Proof.
  revert s st. induction ins as [|i r IH]; intros s st H; [exact H|].
  cbn [run]. pose proof (loop_step_SKeeps w i role0 st s H) as K.
  unfold events, final in K. destruct (loop_step w i s) as [[u s1] l1].
  specialize (IH s1 _ K). destruct (run w r s1) as [s2 l2]. cbn [fst snd] in *.
  rewrite map_app, map_snd_tag, apply_saves_app. exact IH.
Qed.

Lemma persisted_settings_match_live_witness :
  let ins := [mkInput 100 false RxTimeout true true; mkInput 700 true RxTimeout true true;
              mkInput 3000 false RxTimeout true true] in
  Synced true (apply_saves (map snd (snd (run false ins initNode))) []) (fst (run false ins initNode)).
Proof.
  apply (persisted_settings_match_live false true
           [mkInput 100 false RxTimeout true true; mkInput 700 true RxTimeout true true;
            mkInput 3000 false RxTimeout true true] initNode []).
  reflexivity.
Defined.

(** X2. For an [int] index whose successor does not overflow
    ([INT_MIN <= currentIndex < INT_MAX]), [cycleIndex] returns 0 for a
    non-positive size and wraps to 0 at the end of the table; for a positive
    size its result lies in [0, size) exactly when the current index is at
    least -1, so an index below -1 yields a negative result. It returns
    [currentIndex + 1] when [0 <= currentIndex + 1 < size]. *)
Theorem cycleIndex_edges (currentIndex size : Z) (Hint : INT_MIN <= currentIndex < INT_MAX) :
  (size <= 0 -> cycleIndex currentIndex size = 0) /\
  (0 < size -> (0 <= cycleIndex currentIndex size < size <-> -1 <= currentIndex)) /\
  (0 < size -> size - 1 <= currentIndex -> cycleIndex currentIndex size = 0) /\
  (0 <= currentIndex + 1 < size -> cycleIndex currentIndex size = currentIndex + 1).
Proof.
  clear Hint.
  unfold cycleIndex; cbv zeta. repeat split; intros; try split; intros;
    repeat match goal with
           | |- context [if ?c then _ else _] => destruct c eqn:?
           | H : context [if ?c then _ else _] |- _ => destruct c eqn:?
           end;
    repeat match goal with H : (_ <=? _) = _ |- _ => first [apply Z.leb_le in H | apply Z.leb_gt in H] end;
    lia.
Qed.

Lemma cycleIndex_edges_witness :
  cycleIndex (-3) 6 = -2 /\
  ((6 <= 0 -> cycleIndex (-3) 6 = 0) /\
   (0 < 6 -> (0 <= cycleIndex (-3) 6 < 6 <-> -1 <= -3)) /\
   (0 < 6 -> 6 - 1 <= -3 -> cycleIndex (-3) 6 = 0) /\
   (0 <= -3 + 1 < 6 -> cycleIndex (-3) 6 = -3 + 1)).
Proof.
  split; [reflexivity|].
  apply (cycleIndex_edges (-3) 6). unfold INT_MIN, INT_MAX. lia.
Defined.

Lemma eok_ret {A} Q (a : A) : EOk Q (ret a).
Proof. intros s H. split; [exact H | constructor]. Qed.

Lemma eok_emit Q (e : Event) : not_req e -> EOk Q (emit e).
Proof. intros He s H. split; [exact H | repeat constructor; exact He]. Qed.

Lemma eok_modify Q (f : Node -> Node) : (forall s, Q s -> Q (f s)) -> EOk Q (modify f).
Proof. intros Hf s H. split; [exact (Hf s H) | constructor]. Qed.

Lemma eok_bind {A B} Q (m : St A) (k : A -> St B) :
  EOk Q m -> (forall a, EOk Q (k a)) -> EOk Q (bind m k).
Proof.
  intros Hm Hk s H. unfold bind, events, final in *.
  specialize (Hm s H). destruct (m s) as [[a s1] l1]. destruct Hm as [H1 F1].
  specialize (Hk a s1 H1). destruct (k a s1) as [[b s2] l2]. destruct Hk as [H2 F2].
  split; [exact H2 | apply Forall_app; split; assumption].
Qed.

Lemma eok_get_bind {B} Q (k : Node -> St B) : (forall a, Q a -> EOk Q (k a)) -> EOk Q (bind get k).
Proof.
  intros Hk s H. unfold bind, get, events, final in *.
  specialize (Hk s H s H). destruct (k s s) as [[b s2] l2]. exact Hk.
Qed.

Lemma ota_data_not_req (X : string) : not_req (EvTransmit (cstr (append "OTA_DATA:" X))).
Proof. intro H. injection H as H. discriminate H. Qed.

Lemma eok_send_chunks Q (fuel : nat) : forall n rest, EOk Q (send_chunks fuel n rest).
Proof.
  induction fuel as [|f IH]; intros n rest; cbn.
  - apply eok_ret.
  - destruct rest as [|x r].
    + apply eok_ret.
    + apply eok_bind; [|intros; apply IH].
      apply eok_emit. rewrite append_assoc_s. apply ota_data_not_req.
Qed.

Lemma cfg_msg_not_req (p : Params) : not_req (EvTransmit (cfg_msg p)).
Proof. intro H. pose proof (cfg_msg_is_cfg p) as C. rewrite H in C. discriminate C. Qed.

Lemma ping_not_req (n : Z) : not_req (EvTransmit (formatTxMessage n)).
Proof.
  intro H. injection H as H. assert (C : startsWith (formatTxMessage n) "PING" = true) by reflexivity.
  rewrite H in C. discriminate C.
Qed.

Lemma ota_start_not_req (X : list string) :
  not_req (EvTransmit (snprintf_trunc 64 (String.concat "" ("OTA_START:" :: X)))).
Proof. destruct X; intro H; injection H as H; discriminate H. Qed.

Ltac eok_step :=
  match goal with
  | |- EOk _ (bind get _) => apply eok_get_bind; intros ?a ?Ha
  | |- EOk _ (bind _ _) => apply eok_bind; [| intros ?]
  | |- EOk _ (modify _) => apply eok_modify; intros ?s ?Hs
  | |- EOk _ (emit (EvTransmit (cfg_msg _))) => apply eok_emit, cfg_msg_not_req
  | |- EOk _ (emit (EvTransmit (formatTxMessage _))) => apply eok_emit, ping_not_req
  | |- EOk _ (emit (EvTransmit (snprintf_trunc 64 (String.concat "" ("OTA_START:" :: _))))) =>
      apply eok_emit, ota_start_not_req
  | |- EOk _ (emit _) => apply eok_emit; discriminate
  | |- EOk _ (ret _) => apply eok_ret
  | |- EOk _ (send_chunks _ _ _) => apply eok_send_chunks
  | |- EOk _ (if ?c then _ else _) => destruct c eqn:?
  | |- EOk _ (match ?x with _ => _ end) => destruct x eqn:?
  | |- EOk _ (let '(_, _) := ?x in _) => destruct x eqn:?
  end.

Lemma updateButton_no_req (w pin : bool) (now : Z) : EOk (fun _ => True) (updateButton w pin now).
Proof.
  unfold updateButton, onRelease, startConfigBroadcast, savePersistedRole, updateRadioSettings,
    savePersistedSettings.
  repeat (first [exact I | eok_step]).
Qed.

Lemma senderStep_no_req (now : Z) : EOk (fun _ => True) (senderStep now).
Proof.
  unfold senderStep, commitParams, updateRadioSettings, savePersistedSettings.
  repeat (first [exact I | eok_step]).
Qed.

Lemma receiverStep_no_req (w : bool) (now : Z) (i : Input) :
  EOk (fun s => isSender s = false) (receiverStep w now i).
Proof.
  unfold receiverStep, processRx, handleLoraOtaPacket, sendLoraOtaUpdate, commitParams,
    updateRadioSettings, savePersistedSettings.
  repeat (first [ assumption | congruence | eok_step ]).
Qed.

Lemma checkLoraOtaTimeout_no_req (now : Z) : EOk (fun _ => True) (checkLoraOtaTimeout now).
Proof. unfold checkLoraOtaTimeout. repeat (first [exact I | eok_step]). Qed.

Lemma loop_step_no_req (w : bool) (i : Input) (s : Node) : Forall not_req (events (loop_step w i s)).
Proof.
  unfold loop_step. set (now := millis (in_time i)).
  rewrite (proj1 (seq_events _ _ _)).
  apply Forall_app; split; [apply (updateButton_no_req w (in_pin i) now s I)|].
  set (s1 := final (updateButton w (in_pin i) now s)).
  rewrite (proj1 (get_events _ _)), (proj1 (seq_events _ _ _)).
  apply Forall_app; split.
  - destruct (isSender s1) eqn:E.
    + apply (senderStep_no_req now s1 I).
    + apply (receiverStep_no_req w now i s1 E).
  - apply checkLoraOtaTimeout_no_req; exact I.
Qed.

(** X15. No sequence of loop iterations ever transmits [REQUEST_UPDATE]: the branch that sends it requires a sender, but only a receiver processes received frames. *)
Theorem run_never_requests_update (w : bool) (ins : list Input) (s : Node) (t : Z) :
  ~ In (t, EvTransmit "REQUEST_UPDATE") (snd (run w ins s)).
Proof.
  revert s. induction ins as [|i r IH]; intros s; [intros []|].
  cbn [run]. pose proof (loop_step_no_req w i s) as F.
  unfold events in F. destruct (loop_step w i s) as [[u s1] l1].
  specialize (IH s1). destruct (run w r s1) as [s2 l2]. cbn [snd fst] in *.
  intros Hin. apply in_app_or in Hin as [Hin|Hin]; [|exact (IH Hin)].
  apply in_map_iff in Hin as [e [He Hin]]. injection He as _ He. subst e.
  rewrite Forall_forall in F. exact (F _ Hin eq_refl).
Qed.

Lemma find_index_some {A} (eqb : A -> A -> bool) (tbl : list A) (v : A) :
  forall i j, find_index eqb tbl v i = Some j ->
  (i <= j)%nat /\ exists x, nth_error tbl (j - i) = Some x /\ eqb x v = true.
Proof.
  induction tbl as [|x r IH]; intros i j H; cbn in H; [discriminate|].
  destruct (eqb x v) eqn:E.
  - injection H as <-. split; [lia|]. exists x. rewrite Nat.sub_diag. split; [reflexivity | exact E].
  - destruct (IH _ _ H) as [Hle [y [Hy Ey]]]. split; [lia|]. exists y.
    replace (j - i)%nat with (S (j - S i)) by lia. split; [exact Hy | exact Ey].
Qed.

Lemma find_index_none {A} (eqb : A -> A -> bool) (tbl : list A) (v : A) :
  forall i, find_index eqb tbl v i = None -> forall x, In x tbl -> eqb x v = false.
Proof.
  induction tbl as [|x r IH]; intros i H y Hy; [destruct Hy|]. cbn in H.
  destruct (eqb x v) eqn:E; [discriminate|].
  destruct Hy as [<-|Hy]; [exact E | exact (IH _ H y Hy)].
Qed.

Lemma find_index_absent {A} (eqb : A -> A -> bool) (tbl : list A) (v : A) :
  (forall x, In x tbl -> eqb x v = false) -> forall i, find_index eqb tbl v i = None.
Proof.
  induction tbl as [|x r IH]; intros H i; [reflexivity|]. cbn.
  rewrite (H x (or_introl eq_refl)). apply IH. intros y Hy. exact (H y (or_intror Hy)).
Qed.

Lemma find_index_Z (tbl : list Z) (v : Z) (old : nat) :
  (In v tbl -> nth_error tbl (match find_index Z.eqb tbl v 0 with Some i => i | None => old end) = Some v) /\
  (~ In v tbl -> match find_index Z.eqb tbl v 0 with Some i => i | None => old end = old).
Proof.
  split; intros H.
  - destruct (find_index Z.eqb tbl v 0) as [j|] eqn:E.
    + destruct (find_index_some _ _ _ _ _ E) as [_ [x [Hx Ex]]]. apply Z.eqb_eq in Ex.
      rewrite Nat.sub_0_r in Hx. rewrite Hx, Ex. reflexivity.
    + pose proof (find_index_none _ _ _ _ E v H) as F. rewrite Z.eqb_refl in F. discriminate.
  - rewrite find_index_absent; [reflexivity|]. intros x Hx. apply Z.eqb_neq. intros ->. exact (H Hx).
Qed.

(** X3. [computeIndicesFromCurrent] sets each index to a position holding the current value when that value is in its table (bandwidth compared as [float] equality), and leaves the index unchanged when the value is not in the table. *)
Theorem computeIndices_lookup (p : Params) (ix : Indices) :
  (In (sf p) sfValues -> nth_error sfValues (currentSfIndex (computeIndices p ix)) = Some (sf p)) /\
  (~ In (sf p) sfValues -> currentSfIndex (computeIndices p ix) = currentSfIndex ix) /\
  ((exists q, In q bwValues /\ (q == bw p)%Q) ->
     exists q, nth_error bwValues (currentBwIndex (computeIndices p ix)) = Some q /\ (q == bw p)%Q) /\
  ((forall q, In q bwValues -> ~ (q == bw p)%Q) -> currentBwIndex (computeIndices p ix) = currentBwIndex ix) /\
  (In (txp p) txPowerValues ->
     nth_error txPowerValues (currentTxIndex (computeIndices p ix)) = Some (txp p)) /\
  (~ In (txp p) txPowerValues -> currentTxIndex (computeIndices p ix) = currentTxIndex ix).
Proof.
  unfold computeIndices; cbn [currentSfIndex currentBwIndex currentTxIndex].
  destruct (find_index_Z sfValues (sf p) (currentSfIndex ix)) as [S1 S2].
  destruct (find_index_Z txPowerValues (txp p) (currentTxIndex ix)) as [T1 T2].
  split; [exact S1|]. split; [exact S2|]. split; [|split; [|split; [exact T1 | exact T2]]].
  - intros [q [Hq Eq]]. destruct (find_index Qeq_bool bwValues (bw p) 0) as [j|] eqn:E.
    + destruct (find_index_some _ _ _ _ _ E) as [_ [x [Hx Ex]]]. rewrite Nat.sub_0_r in Hx.
      exists x. split; [exact Hx | apply Qeq_bool_iff; exact Ex].
    + pose proof (find_index_none _ _ _ _ E q Hq) as F.
      apply Qeq_bool_iff in Eq. congruence.
  - intros H. rewrite find_index_absent; [reflexivity|]. intros x Hx.
    destruct (Qeq_bool x (bw p)) eqn:E; [|reflexivity]. apply Qeq_bool_iff in E. exfalso; exact (H x Hx E).
Qed.

(** X9. Outside an OTA session every packet that does not start with [OTA_START:] (in particular every [OTA_DATA:] and [OTA_END:] frame) leaves the node state unchanged and issues no event. *)
Theorem ota_idle_ignores_all_but_start (now : Z) (ub ue : bool) (packet : string) (s : Node) :
  loraOtaActive (ota s) = false -> startsWith packet "OTA_START:" = false ->
  handleLoraOtaPacket now ub ue packet s = (tt, s, []).
Proof.
  intros Ha Hs. unfold handleLoraOtaPacket. cbv [bind get]. rewrite Hs, Ha. cbn [negb].
  destruct (startsWith packet "OTA_DATA:"); [reflexivity|].
  destruct (startsWith packet "OTA_END:"); reflexivity.
Qed.

Lemma ota_idle_ignores_all_but_start_witness :
  loraOtaActive (ota (set_role false initNode)) = false /\
  startsWith "OTA_END:" "OTA_START:" = false /\
  handleLoraOtaPacket 100 true true "OTA_END:" (set_role false initNode) = (tt, set_role false initNode, []).
Proof.
  split; [reflexivity|]. split; [reflexivity|].
  apply (ota_idle_ignores_all_but_start 100 true true "OTA_END:" (set_role false initNode));
    reflexivity.
Defined.

(** X10. The chunk number of a well-formed [OTA_DATA] frame has no effect: two frames with the same payload and different non-negative chunk numbers act identically, so repeated or reordered chunks are appended in arrival order. *)
Theorem ota_data_ignores_chunk_number (now : Z) (ub ue : bool) (k k' : Z) (D : string) (s : Node) :
  0 <= k -> 0 <= k' -> D <> EmptyString -> no_space D = true -> (String.length D <= 255)%nat ->
  handleLoraOtaPacket now ub ue (append "OTA_DATA:" (append (dec k) (append ":" D))) s =
  handleLoraOtaPacket now ub ue (append "OTA_DATA:" (append (dec k') (append ":" D))) s.
Proof.
  intros Hk Hk' Hne Hs Hw. unfold handleLoraOtaPacket. cbv [bind get].
  rewrite !startsWith_data_start, !startsWith_data_data.
  rewrite (sscanf_ota_data k D), (sscanf_ota_data k' D) by assumption.
  reflexivity.
Qed.

Lemma ota_data_ignores_chunk_number_witness :
  let s := set_ota (mkOta true 0 30000 (repeat 0 1024) 0 10 0 false) (set_role false initNode) in
  handleLoraOtaPacket 5 true true (append "OTA_DATA:" (append (dec 0) (append ":" "ABC"))) s =
  handleLoraOtaPacket 5 true true (append "OTA_DATA:" (append (dec 9) (append ":" "ABC"))) s.
Proof.
  apply (ota_data_ignores_chunk_number 5 true true 0 9 "ABC"); [lia | lia | discriminate | reflexivity | cbn; lia].
Defined.

(** X12. When the session start was recorded as [millis()] of real time ts and less than 2^32 ms have passed, [checkLoraOtaTimeout] ends an active session exactly when the real elapsed time exceeds the timeout, also across the 32-bit wrap of [millis()]; ending it only clears the active flag (buffer and counters are kept) and issues no event. *)
Theorem ota_timeout_across_millis_wrap (ts t : Z) (s : Node) :
  loraOtaStartTime (ota s) = millis ts -> ts <= t < ts + UINT32 ->
  checkLoraOtaTimeout (millis t) s =
  (tt, if loraOtaActive (ota s) && (loraOtaTimeout (ota s) <? t - ts)
       then set_ota (ota_set_active false (ota s)) s else s, []).
Proof.
  intros Hst Ht. unfold checkLoraOtaTimeout. cbv [bind get]. rewrite Hst.
  replace (u32_sub (millis t) (millis ts)) with (t - ts).
  - destruct (loraOtaActive (ota s) && (loraOtaTimeout (ota s) <? t - ts)); reflexivity.
  - unfold u32_sub, millis. rewrite Zminus_mod_idemp_l, Zminus_mod_idemp_r.
    rewrite Z.mod_small; [reflexivity | unfold UINT32 in *; lia].
Qed.

Lemma ota_timeout_across_millis_wrap_witness :
  let s := set_ota (mkOta true (millis (UINT32 - 100)) 30000 (repeat 0 1024) 0 10 0 false)
             (set_role false initNode) in
  checkLoraOtaTimeout (millis (UINT32 + 40000)) s =
  (tt, if loraOtaActive (ota s) && (loraOtaTimeout (ota s) <? (UINT32 + 40000) - (UINT32 - 100))
       then set_ota (ota_set_active false (ota s)) s else s, []).
Proof.
  apply (ota_timeout_across_millis_wrap (UINT32 - 100) (UINT32 + 40000)); [reflexivity | unfold UINT32; lia].
Defined.

Lemma sk_commit_save (p : Params) : SKeeps (commitParams p ;;; savePersistedSettings).
Proof.
  intros r0 st s H. cbv [bind modify events final commitParams savePersistedSettings get emit].
  cbn [app apply_saves]. unfold Synced in *. rewrite load_after_saveSettings, H. reflexivity.
Qed.

Lemma sk_ctrlListen (d start : Z) (samples : list (Z * RxResult)) : SKeeps (ctrlListen d start samples).
Proof.
  induction samples as [|[t r] rest IH]; cbn [ctrlListen]; [apply sk_ret|].
  destruct (u32_sub t start <? d); [|apply sk_ret].
  destruct r as [rx rssi snr| |c]; try exact IH.
  destruct (startsWith rx "CFG "); [|exact IH].
  apply sk_get_bind; intros a. destruct (parse_cfg rx (cur a)) as [parsed p].
  destruct (parsed =? 5); [apply sk_commit_save | exact IH].
Qed.

Lemma sk_broadcast (n : nat) (ok : bool) : SKeeps (broadcastConfigOnControlChannel n ok).
Proof.
  unfold broadcastConfigOnControlChannel. repeat sk_step.
  induction n as [|n IH]; cbn [transmit_times]; repeat sk_step. exact IH.
Qed.

Lemma sk_tryReceive (d : Z) (ok : bool) (start : Z) (samples : list (Z * RxResult)) :
  SKeeps (tryReceiveConfigOnControlChannel d ok start samples).
Proof. unfold tryReceiveConfigOnControlChannel. repeat sk_step. apply sk_ctrlListen. Qed.

(** X5. From any store, any build role and any radio results, after [setup] (including the boot control-channel excursions and their saves) loading the store with the build defaults gives exactly the node's live parameters and role. *)
Theorem setup_syncs_store (role0 : bool) (st : Prefs) (radio_ok ctrl_ok : bool) (rxStart : Z)
    (samples : list (Z * RxResult)) (s0 : Node) :
  Synced role0 (apply_saves (events (setup role0 st radio_ok ctrl_ok rxStart samples s0)) st)
    (final (setup role0 st radio_ok ctrl_ok rxStart samples s0)).
Proof.
  unfold setup. rewrite (proj1 (seq_events _ _ _)), (proj2 (seq_events _ _ _)).
  set (s1 := set_role role0 (set_cur defaultParams s0)).
  change (final (modify (fun s => set_role role0 (set_cur defaultParams s)) s0)) with s1.
  change (events (modify (fun s => set_role role0 (set_cur defaultParams s)) s0)) with (@nil Event).
  cbn [app].
  rewrite (proj1 (get_events _ _)), (proj2 (get_events _ _)).
  assert (E : loadPersistedSettingsAndRole st (cur s1) (isSender s1) =
              loadPersistedSettingsAndRole st defaultParams role0) by reflexivity.
  rewrite E. destruct (loadPersistedSettingsAndRole st defaultParams role0) as [p r] eqn:L.
  rewrite (proj1 (seq_events _ _ _)), (proj2 (seq_events _ _ _)).
  change (final (modify (fun s => set_role r (set_cur p s)) s1)) with (set_role r (set_cur p s1)).
  change (events (modify (fun s => set_role r (set_cur p s)) s1)) with (@nil Event).
  rewrite (proj1 (seq_events _ _ _)), (proj2 (seq_events _ _ _)).
  cbn [app].
  set (s2 := set_idx (computeIndices (cur (set_role r (set_cur p s1))) (idx (set_role r (set_cur p s1))))
               (set_role r (set_cur p s1))).
  change (final (modify (fun s => set_idx (computeIndices (cur s) (idx s)) s) (set_role r (set_cur p s1))))
    with s2.
  change (events (modify (fun s => set_idx (computeIndices (cur s) (idx s)) s) (set_role r (set_cur p s1))))
    with (@nil Event).
  cbn [app].
  assert (H2 : Synced role0 st s2) by (unfold Synced; rewrite L; reflexivity).
  revert H2. generalize s2. clear.
  assert (K : SKeeps (s <- get ;;
    emit (EvBegin (cur s)) ;;;
    if negb radio_ok then ret false else
    s <- get ;;
    (if isSender s then
       broadcastConfigOnControlChannel 6 ctrl_ok ;;;
       s <- get ;; startConfigBroadcast (cur s)
     else ret tt) ;;;
    s <- get ;;
    (if negb (isSender s) then tryReceiveConfigOnControlChannel 6000 ctrl_ok rxStart samples
     else ret tt) ;;;
    ret true)).
  { unfold startConfigBroadcast. repeat (first [apply sk_broadcast | apply sk_tryReceive | sk_step]). }
  intros s2 H2. exact (K role0 st s2 H2).
Qed.

Lemma notify_rounds_run (n : nat) (s : Node) :
  notify_rounds n s =
  (tt, s, List.concat (repeat [EvTransmit "FW_UPDATE_AVAILABLE";
          EvTransmit (if hasStoredFirmware s
                      then snprintf_trunc 64 (append "FW_VERSION:" (dec firmwareVersion))
                      else "FW_VERSION:0.0.0");
          EvTransmit "UPDATE_NOW"] n)).
Proof.
  induction n as [|n IH]; [reflexivity|].
  cbn [notify_rounds]. cbv [bind emit get]. rewrite IH. reflexivity.
Qed.

Lemma listen_requests_run (start : Z) (samples : list (Z * RxResult)) (s : Node) :
  listen_requests start samples s =
  (tt, s, repeat (EvTransmit "UPDATE_ACK") (window_requests start samples)).
Proof.
  induction samples as [|[t r] rest IH]; [reflexivity|].
  cbn [listen_requests window_requests]. destruct (u32_sub t start <? 15000); [|reflexivity].
  destruct r as [rx rssi snr| |c].
  - destruct (startsWith rx "REQUEST_UPDATE"); cbv [bind emit ret]; rewrite IH; reflexivity.
  - cbv [bind ret]. rewrite IH. reflexivity.
  - cbv [bind ret]. rewrite IH. reflexivity.
Qed.

Lemma transmit_times_run (n : nat) (msg : string) (s : Node) :
  transmit_times n msg s = (tt, s, repeat (EvTransmit msg) n).
Proof.
  induction n as [|n IH]; [reflexivity|].
  cbn [transmit_times]. cbv [bind emit]. rewrite IH. reflexivity.
Qed.

(** X14. On a receiver, the WiFi OTA completion callback stores the 32-byte image, then issues exactly the control-channel broadcast (8 CFG frames), ten rounds of [FW_UPDATE_AVAILABLE], [FW_VERSION:65536] and [UPDATE_NOW], and one [UPDATE_ACK] per [REQUEST_UPDATE] heard in the 15 s window; it never transmits the stored firmware. *)
Theorem ota_onEnd_announces_but_never_sends (start : Z) (samples : list (Z * RxResult)) (s : Node) :
  isSender s = false ->
  let fw := app (bytes_of_string firmwareHeader) dummyFirmware in
  ota_onEnd true start samples s =
  (tt, set_storedFirmware fw true s,
   app [EvBegin (ctrlParams (txp (cur s)))]
   (app (repeat (EvTransmit (cfg_msg (cur s))) 8)
   (app [EvBegin (cur s)]
   (app (List.concat (repeat [EvTransmit "FW_UPDATE_AVAILABLE"; EvTransmit "FW_VERSION:65536";
                              EvTransmit "UPDATE_NOW"] 10))
        (repeat (EvTransmit "UPDATE_ACK") (window_requests start samples)))))).
Proof.
  intros Hs fw. destruct s as [role sq b c ix pd o m ltx lrx sfw hs]. cbn in Hs. subst role.
  unfold ota_onEnd, storeCurrentFirmware, triggerLoraFirmwareUpdates,
    broadcastConfigOnControlChannel, set_storedFirmware.
  cbv [bind get modify ret emit]. cbn [negb isSender cur]. cbv beta iota.
  rewrite transmit_times_run. cbv beta iota.
  rewrite notify_rounds_run. cbv beta iota. rewrite listen_requests_run. cbn [hasStoredFirmware].
  replace (snprintf_trunc 64 (append "FW_VERSION:" (dec firmwareVersion))) with "FW_VERSION:65536"
    by reflexivity.
  cbn [app]. reflexivity.
Qed.

Lemma formatTxMessage_decimal_witness :
  formatTxMessage 4294967295 = append "PING seq=" (dec 4294967295) /\
  (String.length (formatTxMessage 4294967295) <= 19)%nat /\
  all_chars is_digit (dec 4294967295) = true /\
  sscanf (formatTxMessage 4294967295) "PING seq=%u" = (1, [SU 4294967295]).
Proof. apply (formatTxMessage_decimal 4294967295). unfold UINT32_MAX, UINT32; lia. Defined.

Lemma stored_firmware_never_flashed_witness :
  let s' := final (storeCurrentFirmware (set_role false initNode)) in
  let frames := transmitted (events (sendLoraOtaUpdate (storedFirmware s') s')) in
  hasStoredFirmware s' = true /\ List.length (storedFirmware s') = 32%nat /\
  events (feed 0 true true frames (set_role false initNode)) = [] /\
  loraOtaActive (ota (final (feed 0 true true frames (set_role false initNode)))) = false.
Proof.
  apply (stored_firmware_never_flashed 0 true true (set_role false initNode) (set_role false initNode));
    [reflexivity | unfold UINT32_MAX, UINT32; cbn; lia | reflexivity].
Defined.

Lemma ota_onEnd_announces_but_never_sends_witness :
  let s := set_role false initNode in
  let samples := [(100, RxOk "REQUEST_UPDATE" 0 0); (200, RxTimeout); (16000, RxOk "REQUEST_UPDATE" 0 0)] in
  let fw := app (bytes_of_string firmwareHeader) dummyFirmware in
  ota_onEnd true 0 samples s =
  (tt, set_storedFirmware fw true s,
   app [EvBegin (ctrlParams (txp (cur s)))]
   (app (repeat (EvTransmit (cfg_msg (cur s))) 8)
   (app [EvBegin (cur s)]
   (app (List.concat (repeat [EvTransmit "FW_UPDATE_AVAILABLE"; EvTransmit "FW_VERSION:65536";
                              EvTransmit "UPDATE_NOW"] 10))
        (repeat (EvTransmit "UPDATE_ACK") (window_requests 0 samples)))))).
Proof.
  apply (ota_onEnd_announces_but_never_sends 0
    [(100, RxOk "REQUEST_UPDATE" 0 0); (200, RxTimeout); (16000, RxOk "REQUEST_UPDATE" 0 0)]
    (set_role false initNode)).
  reflexivity.
Defined.
